(** * rt_soldering_pen: the heating cycle engine and the preset store

    A shallow embedding of [src/preset.hpp] and [src/heating.hpp] and the
    properties of the heating cycle that the specification states.

    Conventions of the embedding.
    - C++ [int] is a 32-bit and [int64_t] a 64-bit two's complement
      integer, [unsigned] a 32-bit and [uint64_t] a 64-bit natural number,
      all carried by [Z].
    - Unsigned arithmetic and the conversions between integer types wrap
      around, and the wrap-around is written out ([to_uint], [to_int], ...).
    - Signed overflow, division by zero and an array access outside the
      array have no behaviour in C++: the operation returns a [Fault], and
      the fault is propagated to the caller of the member function.
    - [board::adc] and [board::heater] are outside the engine: what the ADC
      reports during one call of [process] is an input of that call
      ([AdcSample]), what the engine tells the board is recorded in
      [Board]. *)

From Stdlib Require Import ZArith Bool List Lia.
Import ListNotations.
Open Scope Z_scope.

(* ================================================================== *)
(** * Results of operations that may have no behaviour *)

Inductive Fault : Set :=
| SignedOverflow
| DivisionByZero
| OutOfBounds.

Inductive result (A : Type) : Type :=
| Ok (a : A)
| Err (f : Fault).

Arguments Ok {A} a.
Arguments Err {A} f.

Definition bind {A B : Type} (r : result A) (k : A -> result B) : result B :=
  match r with
  | Ok a => k a
  | Err f => Err f
  end.

Notation "'do' x <- e ; k" := (bind e (fun x => k))
  (at level 10, x pattern, e at level 100, k at level 200).

(* ================================================================== *)
(** * Machine integers *)

Definition INT_MIN : Z := - 2 ^ 31.
Definition INT_MAX : Z := 2 ^ 31 - 1.
Definition INT64_MIN : Z := - 2 ^ 63.
Definition INT64_MAX : Z := 2 ^ 63 - 1.

Definition in_int (z : Z) : bool := (INT_MIN <=? z) && (z <=? INT_MAX).
Definition in_int64 (z : Z) : bool := (INT64_MIN <=? z) && (z <=? INT64_MAX).

(** Conversions: value preserving where the value fits, modular otherwise. *)
Definition to_uint (z : Z) : Z := z mod 2 ^ 32.
Definition to_uint64 (z : Z) : Z := z mod 2 ^ 64.
Definition to_int (z : Z) : Z :=
  let u := z mod 2 ^ 32 in if u <? 2 ^ 31 then u else u - 2 ^ 32.
Definition to_int64 (z : Z) : Z :=
  let u := z mod 2 ^ 64 in if u <? 2 ^ 63 then u else u - 2 ^ 64.

(** Signed arithmetic on [int]. *)
Definition checked (fits : Z -> bool) (z : Z) : result Z :=
  if fits z then Ok z else Err SignedOverflow.

Definition add_int (a b : Z) : result Z := checked in_int (a + b).
Definition sub_int (a b : Z) : result Z := checked in_int (a - b).
Definition mul_int (a b : Z) : result Z := checked in_int (a * b).
Definition div_int (a b : Z) : result Z :=
  if b =? 0 then Err DivisionByZero else checked in_int (Z.quot a b).

(** Signed arithmetic on [int64_t]. *)
Definition add_int64 (a b : Z) : result Z := checked in_int64 (a + b).
Definition mul_int64 (a b : Z) : result Z := checked in_int64 (a * b).
Definition div_int64 (a b : Z) : result Z :=
  if b =? 0 then Err DivisionByZero else checked in_int64 (Z.quot a b).

(** Arrays of [int]: [a[i]] and [a[i] = v]. *)
Definition array_get (a : list Z) (i : Z) : result Z :=
  if i <? 0 then Err OutOfBounds
  else match nth_error a (Z.to_nat i) with
       | Some v => Ok v
       | None => Err OutOfBounds
       end.

Fixpoint list_set (a : list Z) (n : nat) (v : Z) : list Z :=
  match a, n with
  | [], _ => []
  | _ :: tl, O => v :: tl
  | x :: tl, S n' => x :: list_set tl n' v
  end.

Definition array_set (a : list Z) (i : Z) (v : Z) : result (list Z) :=
  if (i <? 0) || (Z.of_nat (length a) <=? i) then Err OutOfBounds
  else Ok (list_set a (Z.to_nat i) v).

(** Record update in the style [r <| field := v |>]. *)
Class Setter {R T : Type} (proj : R -> T) : Type := set : T -> R -> R.
Arguments set {R T} proj {Setter} _ _.
#[warning="-postfix-notation-not-level-1"]
Notation "r <| proj := v |>" := (set proj v r)
  (at level 12, left associativity, proj at level 0, v at level 200).

(* ================================================================== *)
(** * preset.hpp: class Preset *)

Module Preset.

Definition PRESETS : Z := 2.
Definition NO_EDIT : Z := -1.
Definition MIN_TEMPERATURE : Z := 20 * 1000.
Definition MAX_TEMPERATURE : Z := 400 * 1000.
Definition STANDBY_TEMPERATURE : Z := 0.

Record t : Type := mk {
  _temperatures : list Z;
  _selected : Z;
  _edited : Z;
  _standby : bool
}.

#[global] Instance set_temperatures : Setter _temperatures :=
  fun v p => mk v (_selected p) (_edited p) (_standby p).
#[global] Instance set_selected : Setter _selected :=
  fun v p => mk (_temperatures p) v (_edited p) (_standby p).
#[global] Instance set_edited : Setter _edited :=
  fun v p => mk (_temperatures p) (_selected p) v (_standby p).
#[global] Instance set_standby_flag : Setter _standby :=
  fun v p => mk (_temperatures p) (_selected p) (_edited p) v.

(** [_temperatures] is an array of [PRESETS] elements. *)
Definition wf (p : t) : Prop := Z.of_nat (length (_temperatures p)) = PRESETS.

(** The member initialisers of the class. *)
Definition initial : t :=
  {| _temperatures := [300 * 1000; 250 * 1000];
     _selected := 0;
     _edited := NO_EDIT;
     _standby := true |}.

Definition set_standby (p : t) : t := p <| _standby := true |>.

Definition is_standby (p : t) : bool := _standby p.

(** [if ((preset < 0) && (preset >= PRESETS)) return;] *)
Definition select (preset : Z) (p : t) : t :=
  if (preset <? 0) && (preset >=? PRESETS) then p
  else p <| _selected := preset |> <| _standby := false |>.

Definition edit_select (preset : Z) (p : t) : t :=
  if (preset <? 0) && (preset >=? PRESETS) then p
  else p <| _edited := preset |>.

Definition edit_end (p : t) : t := p <| _edited := NO_EDIT |>.

Definition get_temperature (p : t) : result Z :=
  if _standby p then Ok STANDBY_TEMPERATURE
  else array_get (_temperatures p) (_selected p).

Definition get_preset (preset : Z) (p : t) : result Z :=
  array_get (_temperatures p) preset.

Definition get_selected (p : t) : Z := _selected p.

Definition get_edited (p : t) : Z := _edited p.

Definition is_editing (p : t) : bool := negb (_edited p =? NO_EDIT).

Definition is_editing_preset (preset : Z) (p : t) : bool := _edited p =? preset.

(** The two [if]s of [edit_add] are not joined by an [else]: both run. *)
Definition edit_add (val : Z) (p : t) : result t :=
  if _edited p =? NO_EDIT then Ok p
  else
    do t0 <- array_get (_temperatures p) (_edited p);
    do t1 <- add_int t0 val;
    do a1 <- array_set (_temperatures p) (_edited p) t1;
    do t2 <- array_get a1 (_edited p);
    do a2 <- (if t2 <? MIN_TEMPERATURE
              then array_set a1 (_edited p) MIN_TEMPERATURE else Ok a1);
    do t3 <- array_get a2 (_edited p);
    do a3 <- (if t3 >? MAX_TEMPERATURE
              then array_set a2 (_edited p) MAX_TEMPERATURE else Ok a2);
    Ok (p <| _temperatures := a3 |>).

(** What the user interface may call on the store it borrows. *)
Inductive Call : Set :=
| Select (preset : Z)
| SetStandby
| EditSelect (preset : Z)
| EditEnd
| EditAdd (val : Z).

Definition call (c : Call) (p : t) : result t :=
  match c with
  | Select i => Ok (select i p)
  | SetStandby => Ok (set_standby p)
  | EditSelect i => Ok (edit_select i p)
  | EditEnd => Ok (edit_end p)
  | EditAdd v => edit_add v p
  end.

(** [edit_select(i); edit_add(delta); edit_end()] *)
Definition edit_roundtrip (i delta : Z) (p : t) : result t :=
  do p1 <- edit_add delta (edit_select i p);
  Ok (edit_end p1).

(** The value a temperature is clamped to. *)
Definition clamp (v : Z) : Z :=
  Z.min MAX_TEMPERATURE (Z.max MIN_TEMPERATURE v).

End Preset.

(* ================================================================== *)
(** * The board: clock, heater and ADC *)

(** [board::Clock::CORE_FREQ], the number of ticks per second, is declared
    in board/clock.hpp, which is not part of the sources: it is a parameter
    of the development. *)
Class Clock : Type := { CORE_FREQ : Z }.

(** The clock the code is written for: at least one tick per millisecond,
    and a value of a 32-bit integer type. *)
Definition clock_ok `{Clock} : Prop := 1000 <= CORE_FREQ < 2 ^ 31.

(** Modelled from the spec: board/adc.hpp and board/heater.hpp are not part
    of the sources.  Section 6 of the specification lists their calls: the
    heater has [on()] and [off()], both idempotent; the ADC starts a heat
    or an idle measurement without blocking, tells whether it is done, and
    returns the readings in mV, mA and 1/1000 degree C, here [int]s. *)
Module board.

(** What [board::adc] reports while one call of [process] runs. *)
Record Adc : Type := {
  measure_is_done : bool;
  get_cpu_voltage : Z;
  get_supply_voltage : Z;
  get_pen_current : Z;
  get_cpu_temperature : Z;
  get_pen_temperature : Z;
  is_pen_sensor_ok : bool
}.

Inductive AdcCommand : Set :=
| MEASURE_HEAT_START
| MEASURE_IDLE_START.

(** The heater output and the measurements started so far, latest first. *)
Record t : Type := mk {
  heater : bool;
  adc_commands : list AdcCommand
}.

Definition initial : t := {| heater := false; adc_commands := [] |}.

Definition heater_on (b : t) : t := mk true (adc_commands b).
Definition heater_off (b : t) : t := mk false (adc_commands b).
Definition adc_measure_heat_start (b : t) : t :=
  mk (heater b) (MEASURE_HEAT_START :: adc_commands b).
Definition adc_measure_idle_start (b : t) : t :=
  mk (heater b) (MEASURE_IDLE_START :: adc_commands b).

End board.

(* ================================================================== *)
(** * lib/pid.hpp (not part of the sources): the interface the engine uses *)

Module Pid.

Class Controller (P : Type) : Type := {
  initial : P;
  set_constants : Z -> Z -> Z -> Z -> Z -> P -> P;
  reset : P -> P;
  (** [process measured setpoint] returns the new state and the power *)
  process : Z -> Z -> P -> P * Z
}.

End Pid.

(* ================================================================== *)
(** * heating.hpp: class Heating *)

Module Heating.

Definition PERIOD_TIME_MS : Z := 150.
Definition STANDBY_TIME_MS : Z := 30000.
Definition PERIOD_TIME_MIN_MS : Z := 50.
Definition PID_K_PROPORTIONAL : Z := 700.
Definition PID_K_INTEGRAL : Z := 200.
Definition PID_K_DERIVATE : Z := 100.
Definition HEATING_POWER_MAX : Z := 40 * 1000.

Definition IDLE_MIN_TIME_MS : Z := 8.
Definition STABILIZE_TIME_MS : Z := 2.
Definition HEATING_MIN_POWER_MW : Z := 100.
Definition PEN_MAX_CURRENT_MA : Z := 6000.
Definition PEN_RESISTANCE_SHORTED : Z := 500.
Definition PEN_RESISTANCE_MIN : Z := 1500.
Definition PEN_RESISTANCE_MAX : Z := 2500.
Definition PEN_RESISTANCE_BROKEN : Z := 100000.

Module HeatingElementStatus.
Inductive t : Set :=
| UNKNOWN
| OK
| SHORTED
| LOW_RESISTANCE
| HIGH_RESISTANCE
| BROKEN.
Definition eqb (a b : t) : bool :=
  match a, b with
  | UNKNOWN, UNKNOWN | OK, OK | SHORTED, SHORTED
  | LOW_RESISTANCE, LOW_RESISTANCE | HIGH_RESISTANCE, HIGH_RESISTANCE
  | BROKEN, BROKEN => true
  | _, _ => false
  end.
End HeatingElementStatus.

Module PenSensorStatus.
Inductive t : Set :=
| UNKNOWN
| OK
| BROKEN
| SHORTED.
Definition eqb (a b : t) : bool :=
  match a, b with
  | UNKNOWN, UNKNOWN | OK, OK | BROKEN, BROKEN | SHORTED, SHORTED => true
  | _, _ => false
  end.
End PenSensorStatus.

Module State.
Inductive t : Set :=
| STOP
| START
| HEATING
| STABILIZE
| IDLE.
End State.

(** The data members; [P] is the state of [lib::Pid]. *)
Record t (P : Type) : Type := mk {
  _preset : Preset.t;
  _pid : P;
  _uptime_ticks : Z;
  _power_uwpt : Z;
  _requested_power_uwpt : Z;
  _energy_uwt : Z;
  _steady_ticks : Z;
  _period_ticks : Z;
  _remaining_ticks : Z;
  _measure_ticks : Z;
  _measurements_count : Z;
  _requested_power_mw : Z;
  _cpu_voltage_mv_heat : Z;
  _cpu_voltage_mv_idle : Z;
  _supply_voltage_mv_heat : Z;
  _supply_voltage_mv_idle : Z;
  _supply_voltage_mv_drop : Z;
  _pen_current_ma_heat : Z;
  _pen_current_ma_idle : Z;
  _pen_resistance_mo : Z;
  _pen_temperature_mc : Z;
  _cpu_temperature_mc : Z;
  _average_requested_power : Z;
  _average_requested_power_short : Z;
  _state : State.t;
  _heating_element_status : HeatingElementStatus.t;
  _pen_sensor_status : PenSensorStatus.t
}.
Arguments mk {P}.
Arguments _preset {P} _.
Arguments _pid {P} _.
Arguments _uptime_ticks {P} _.
Arguments _power_uwpt {P} _.
Arguments _requested_power_uwpt {P} _.
Arguments _energy_uwt {P} _.
Arguments _steady_ticks {P} _.
Arguments _period_ticks {P} _.
Arguments _remaining_ticks {P} _.
Arguments _measure_ticks {P} _.
Arguments _measurements_count {P} _.
Arguments _requested_power_mw {P} _.
Arguments _cpu_voltage_mv_heat {P} _.
Arguments _cpu_voltage_mv_idle {P} _.
Arguments _supply_voltage_mv_heat {P} _.
Arguments _supply_voltage_mv_idle {P} _.
Arguments _supply_voltage_mv_drop {P} _.
Arguments _pen_current_ma_heat {P} _.
Arguments _pen_current_ma_idle {P} _.
Arguments _pen_resistance_mo {P} _.
Arguments _pen_temperature_mc {P} _.
Arguments _cpu_temperature_mc {P} _.
Arguments _average_requested_power {P} _.
Arguments _average_requested_power_short {P} _.
Arguments _state {P} _.
Arguments _heating_element_status {P} _.
Arguments _pen_sensor_status {P} _.

#[global] Instance set_preset {P : Type} : Setter (@_preset P) :=
  fun v h => mk v (_pid h) (_uptime_ticks h) (_power_uwpt h)
    (_requested_power_uwpt h) (_energy_uwt h) (_steady_ticks h)
    (_period_ticks h) (_remaining_ticks h) (_measure_ticks h)
    (_measurements_count h) (_requested_power_mw h) (_cpu_voltage_mv_heat h)
    (_cpu_voltage_mv_idle h) (_supply_voltage_mv_heat h)
    (_supply_voltage_mv_idle h) (_supply_voltage_mv_drop h)
    (_pen_current_ma_heat h) (_pen_current_ma_idle h) (_pen_resistance_mo h)
    (_pen_temperature_mc h) (_cpu_temperature_mc h)
    (_average_requested_power h) (_average_requested_power_short h) (_state h)
    (_heating_element_status h) (_pen_sensor_status h).

#[global] Instance set_pid {P : Type} : Setter (@_pid P) :=
  fun v h => mk (_preset h) v (_uptime_ticks h) (_power_uwpt h)
    (_requested_power_uwpt h) (_energy_uwt h) (_steady_ticks h)
    (_period_ticks h) (_remaining_ticks h) (_measure_ticks h)
    (_measurements_count h) (_requested_power_mw h) (_cpu_voltage_mv_heat h)
    (_cpu_voltage_mv_idle h) (_supply_voltage_mv_heat h)
    (_supply_voltage_mv_idle h) (_supply_voltage_mv_drop h)
    (_pen_current_ma_heat h) (_pen_current_ma_idle h) (_pen_resistance_mo h)
    (_pen_temperature_mc h) (_cpu_temperature_mc h)
    (_average_requested_power h) (_average_requested_power_short h) (_state h)
    (_heating_element_status h) (_pen_sensor_status h).

#[global] Instance set_uptime_ticks {P : Type} : Setter (@_uptime_ticks P) :=
  fun v h => mk (_preset h) (_pid h) v (_power_uwpt h)
    (_requested_power_uwpt h) (_energy_uwt h) (_steady_ticks h)
    (_period_ticks h) (_remaining_ticks h) (_measure_ticks h)
    (_measurements_count h) (_requested_power_mw h) (_cpu_voltage_mv_heat h)
    (_cpu_voltage_mv_idle h) (_supply_voltage_mv_heat h)
    (_supply_voltage_mv_idle h) (_supply_voltage_mv_drop h)
    (_pen_current_ma_heat h) (_pen_current_ma_idle h) (_pen_resistance_mo h)
    (_pen_temperature_mc h) (_cpu_temperature_mc h)
    (_average_requested_power h) (_average_requested_power_short h) (_state h)
    (_heating_element_status h) (_pen_sensor_status h).

#[global] Instance set_power_uwpt {P : Type} : Setter (@_power_uwpt P) :=
  fun v h => mk (_preset h) (_pid h) (_uptime_ticks h) v
    (_requested_power_uwpt h) (_energy_uwt h) (_steady_ticks h)
    (_period_ticks h) (_remaining_ticks h) (_measure_ticks h)
    (_measurements_count h) (_requested_power_mw h) (_cpu_voltage_mv_heat h)
    (_cpu_voltage_mv_idle h) (_supply_voltage_mv_heat h)
    (_supply_voltage_mv_idle h) (_supply_voltage_mv_drop h)
    (_pen_current_ma_heat h) (_pen_current_ma_idle h) (_pen_resistance_mo h)
    (_pen_temperature_mc h) (_cpu_temperature_mc h)
    (_average_requested_power h) (_average_requested_power_short h) (_state h)
    (_heating_element_status h) (_pen_sensor_status h).

#[global] Instance set_requested_power_uwpt {P : Type} : Setter (@_requested_power_uwpt P) :=
  fun v h => mk (_preset h) (_pid h) (_uptime_ticks h) (_power_uwpt h) v
    (_energy_uwt h) (_steady_ticks h) (_period_ticks h) (_remaining_ticks h)
    (_measure_ticks h) (_measurements_count h) (_requested_power_mw h)
    (_cpu_voltage_mv_heat h) (_cpu_voltage_mv_idle h)
    (_supply_voltage_mv_heat h) (_supply_voltage_mv_idle h)
    (_supply_voltage_mv_drop h) (_pen_current_ma_heat h)
    (_pen_current_ma_idle h) (_pen_resistance_mo h) (_pen_temperature_mc h)
    (_cpu_temperature_mc h) (_average_requested_power h)
    (_average_requested_power_short h) (_state h) (_heating_element_status h)
    (_pen_sensor_status h).

#[global] Instance set_energy_uwt {P : Type} : Setter (@_energy_uwt P) :=
  fun v h => mk (_preset h) (_pid h) (_uptime_ticks h) (_power_uwpt h)
    (_requested_power_uwpt h) v (_steady_ticks h) (_period_ticks h)
    (_remaining_ticks h) (_measure_ticks h) (_measurements_count h)
    (_requested_power_mw h) (_cpu_voltage_mv_heat h) (_cpu_voltage_mv_idle h)
    (_supply_voltage_mv_heat h) (_supply_voltage_mv_idle h)
    (_supply_voltage_mv_drop h) (_pen_current_ma_heat h)
    (_pen_current_ma_idle h) (_pen_resistance_mo h) (_pen_temperature_mc h)
    (_cpu_temperature_mc h) (_average_requested_power h)
    (_average_requested_power_short h) (_state h) (_heating_element_status h)
    (_pen_sensor_status h).

#[global] Instance set_steady_ticks {P : Type} : Setter (@_steady_ticks P) :=
  fun v h => mk (_preset h) (_pid h) (_uptime_ticks h) (_power_uwpt h)
    (_requested_power_uwpt h) (_energy_uwt h) v (_period_ticks h)
    (_remaining_ticks h) (_measure_ticks h) (_measurements_count h)
    (_requested_power_mw h) (_cpu_voltage_mv_heat h) (_cpu_voltage_mv_idle h)
    (_supply_voltage_mv_heat h) (_supply_voltage_mv_idle h)
    (_supply_voltage_mv_drop h) (_pen_current_ma_heat h)
    (_pen_current_ma_idle h) (_pen_resistance_mo h) (_pen_temperature_mc h)
    (_cpu_temperature_mc h) (_average_requested_power h)
    (_average_requested_power_short h) (_state h) (_heating_element_status h)
    (_pen_sensor_status h).

#[global] Instance set_period_ticks {P : Type} : Setter (@_period_ticks P) :=
  fun v h => mk (_preset h) (_pid h) (_uptime_ticks h) (_power_uwpt h)
    (_requested_power_uwpt h) (_energy_uwt h) (_steady_ticks h) v
    (_remaining_ticks h) (_measure_ticks h) (_measurements_count h)
    (_requested_power_mw h) (_cpu_voltage_mv_heat h) (_cpu_voltage_mv_idle h)
    (_supply_voltage_mv_heat h) (_supply_voltage_mv_idle h)
    (_supply_voltage_mv_drop h) (_pen_current_ma_heat h)
    (_pen_current_ma_idle h) (_pen_resistance_mo h) (_pen_temperature_mc h)
    (_cpu_temperature_mc h) (_average_requested_power h)
    (_average_requested_power_short h) (_state h) (_heating_element_status h)
    (_pen_sensor_status h).

#[global] Instance set_remaining_ticks {P : Type} : Setter (@_remaining_ticks P) :=
  fun v h => mk (_preset h) (_pid h) (_uptime_ticks h) (_power_uwpt h)
    (_requested_power_uwpt h) (_energy_uwt h) (_steady_ticks h)
    (_period_ticks h) v (_measure_ticks h) (_measurements_count h)
    (_requested_power_mw h) (_cpu_voltage_mv_heat h) (_cpu_voltage_mv_idle h)
    (_supply_voltage_mv_heat h) (_supply_voltage_mv_idle h)
    (_supply_voltage_mv_drop h) (_pen_current_ma_heat h)
    (_pen_current_ma_idle h) (_pen_resistance_mo h) (_pen_temperature_mc h)
    (_cpu_temperature_mc h) (_average_requested_power h)
    (_average_requested_power_short h) (_state h) (_heating_element_status h)
    (_pen_sensor_status h).

#[global] Instance set_measure_ticks {P : Type} : Setter (@_measure_ticks P) :=
  fun v h => mk (_preset h) (_pid h) (_uptime_ticks h) (_power_uwpt h)
    (_requested_power_uwpt h) (_energy_uwt h) (_steady_ticks h)
    (_period_ticks h) (_remaining_ticks h) v (_measurements_count h)
    (_requested_power_mw h) (_cpu_voltage_mv_heat h) (_cpu_voltage_mv_idle h)
    (_supply_voltage_mv_heat h) (_supply_voltage_mv_idle h)
    (_supply_voltage_mv_drop h) (_pen_current_ma_heat h)
    (_pen_current_ma_idle h) (_pen_resistance_mo h) (_pen_temperature_mc h)
    (_cpu_temperature_mc h) (_average_requested_power h)
    (_average_requested_power_short h) (_state h) (_heating_element_status h)
    (_pen_sensor_status h).

#[global] Instance set_measurements_count {P : Type} : Setter (@_measurements_count P) :=
  fun v h => mk (_preset h) (_pid h) (_uptime_ticks h) (_power_uwpt h)
    (_requested_power_uwpt h) (_energy_uwt h) (_steady_ticks h)
    (_period_ticks h) (_remaining_ticks h) (_measure_ticks h) v
    (_requested_power_mw h) (_cpu_voltage_mv_heat h) (_cpu_voltage_mv_idle h)
    (_supply_voltage_mv_heat h) (_supply_voltage_mv_idle h)
    (_supply_voltage_mv_drop h) (_pen_current_ma_heat h)
    (_pen_current_ma_idle h) (_pen_resistance_mo h) (_pen_temperature_mc h)
    (_cpu_temperature_mc h) (_average_requested_power h)
    (_average_requested_power_short h) (_state h) (_heating_element_status h)
    (_pen_sensor_status h).

#[global] Instance set_requested_power_mw {P : Type} : Setter (@_requested_power_mw P) :=
  fun v h => mk (_preset h) (_pid h) (_uptime_ticks h) (_power_uwpt h)
    (_requested_power_uwpt h) (_energy_uwt h) (_steady_ticks h)
    (_period_ticks h) (_remaining_ticks h) (_measure_ticks h)
    (_measurements_count h) v (_cpu_voltage_mv_heat h)
    (_cpu_voltage_mv_idle h) (_supply_voltage_mv_heat h)
    (_supply_voltage_mv_idle h) (_supply_voltage_mv_drop h)
    (_pen_current_ma_heat h) (_pen_current_ma_idle h) (_pen_resistance_mo h)
    (_pen_temperature_mc h) (_cpu_temperature_mc h)
    (_average_requested_power h) (_average_requested_power_short h) (_state h)
    (_heating_element_status h) (_pen_sensor_status h).

#[global] Instance set_cpu_voltage_mv_heat {P : Type} : Setter (@_cpu_voltage_mv_heat P) :=
  fun v h => mk (_preset h) (_pid h) (_uptime_ticks h) (_power_uwpt h)
    (_requested_power_uwpt h) (_energy_uwt h) (_steady_ticks h)
    (_period_ticks h) (_remaining_ticks h) (_measure_ticks h)
    (_measurements_count h) (_requested_power_mw h) v (_cpu_voltage_mv_idle h)
    (_supply_voltage_mv_heat h) (_supply_voltage_mv_idle h)
    (_supply_voltage_mv_drop h) (_pen_current_ma_heat h)
    (_pen_current_ma_idle h) (_pen_resistance_mo h) (_pen_temperature_mc h)
    (_cpu_temperature_mc h) (_average_requested_power h)
    (_average_requested_power_short h) (_state h) (_heating_element_status h)
    (_pen_sensor_status h).

#[global] Instance set_cpu_voltage_mv_idle {P : Type} : Setter (@_cpu_voltage_mv_idle P) :=
  fun v h => mk (_preset h) (_pid h) (_uptime_ticks h) (_power_uwpt h)
    (_requested_power_uwpt h) (_energy_uwt h) (_steady_ticks h)
    (_period_ticks h) (_remaining_ticks h) (_measure_ticks h)
    (_measurements_count h) (_requested_power_mw h) (_cpu_voltage_mv_heat h) v
    (_supply_voltage_mv_heat h) (_supply_voltage_mv_idle h)
    (_supply_voltage_mv_drop h) (_pen_current_ma_heat h)
    (_pen_current_ma_idle h) (_pen_resistance_mo h) (_pen_temperature_mc h)
    (_cpu_temperature_mc h) (_average_requested_power h)
    (_average_requested_power_short h) (_state h) (_heating_element_status h)
    (_pen_sensor_status h).

#[global] Instance set_supply_voltage_mv_heat {P : Type} : Setter (@_supply_voltage_mv_heat P) :=
  fun v h => mk (_preset h) (_pid h) (_uptime_ticks h) (_power_uwpt h)
    (_requested_power_uwpt h) (_energy_uwt h) (_steady_ticks h)
    (_period_ticks h) (_remaining_ticks h) (_measure_ticks h)
    (_measurements_count h) (_requested_power_mw h) (_cpu_voltage_mv_heat h)
    (_cpu_voltage_mv_idle h) v (_supply_voltage_mv_idle h)
    (_supply_voltage_mv_drop h) (_pen_current_ma_heat h)
    (_pen_current_ma_idle h) (_pen_resistance_mo h) (_pen_temperature_mc h)
    (_cpu_temperature_mc h) (_average_requested_power h)
    (_average_requested_power_short h) (_state h) (_heating_element_status h)
    (_pen_sensor_status h).

#[global] Instance set_supply_voltage_mv_idle {P : Type} : Setter (@_supply_voltage_mv_idle P) :=
  fun v h => mk (_preset h) (_pid h) (_uptime_ticks h) (_power_uwpt h)
    (_requested_power_uwpt h) (_energy_uwt h) (_steady_ticks h)
    (_period_ticks h) (_remaining_ticks h) (_measure_ticks h)
    (_measurements_count h) (_requested_power_mw h) (_cpu_voltage_mv_heat h)
    (_cpu_voltage_mv_idle h) (_supply_voltage_mv_heat h) v
    (_supply_voltage_mv_drop h) (_pen_current_ma_heat h)
    (_pen_current_ma_idle h) (_pen_resistance_mo h) (_pen_temperature_mc h)
    (_cpu_temperature_mc h) (_average_requested_power h)
    (_average_requested_power_short h) (_state h) (_heating_element_status h)
    (_pen_sensor_status h).

#[global] Instance set_supply_voltage_mv_drop {P : Type} : Setter (@_supply_voltage_mv_drop P) :=
  fun v h => mk (_preset h) (_pid h) (_uptime_ticks h) (_power_uwpt h)
    (_requested_power_uwpt h) (_energy_uwt h) (_steady_ticks h)
    (_period_ticks h) (_remaining_ticks h) (_measure_ticks h)
    (_measurements_count h) (_requested_power_mw h) (_cpu_voltage_mv_heat h)
    (_cpu_voltage_mv_idle h) (_supply_voltage_mv_heat h)
    (_supply_voltage_mv_idle h) v (_pen_current_ma_heat h)
    (_pen_current_ma_idle h) (_pen_resistance_mo h) (_pen_temperature_mc h)
    (_cpu_temperature_mc h) (_average_requested_power h)
    (_average_requested_power_short h) (_state h) (_heating_element_status h)
    (_pen_sensor_status h).

#[global] Instance set_pen_current_ma_heat {P : Type} : Setter (@_pen_current_ma_heat P) :=
  fun v h => mk (_preset h) (_pid h) (_uptime_ticks h) (_power_uwpt h)
    (_requested_power_uwpt h) (_energy_uwt h) (_steady_ticks h)
    (_period_ticks h) (_remaining_ticks h) (_measure_ticks h)
    (_measurements_count h) (_requested_power_mw h) (_cpu_voltage_mv_heat h)
    (_cpu_voltage_mv_idle h) (_supply_voltage_mv_heat h)
    (_supply_voltage_mv_idle h) (_supply_voltage_mv_drop h) v
    (_pen_current_ma_idle h) (_pen_resistance_mo h) (_pen_temperature_mc h)
    (_cpu_temperature_mc h) (_average_requested_power h)
    (_average_requested_power_short h) (_state h) (_heating_element_status h)
    (_pen_sensor_status h).

#[global] Instance set_pen_current_ma_idle {P : Type} : Setter (@_pen_current_ma_idle P) :=
  fun v h => mk (_preset h) (_pid h) (_uptime_ticks h) (_power_uwpt h)
    (_requested_power_uwpt h) (_energy_uwt h) (_steady_ticks h)
    (_period_ticks h) (_remaining_ticks h) (_measure_ticks h)
    (_measurements_count h) (_requested_power_mw h) (_cpu_voltage_mv_heat h)
    (_cpu_voltage_mv_idle h) (_supply_voltage_mv_heat h)
    (_supply_voltage_mv_idle h) (_supply_voltage_mv_drop h)
    (_pen_current_ma_heat h) v (_pen_resistance_mo h) (_pen_temperature_mc h)
    (_cpu_temperature_mc h) (_average_requested_power h)
    (_average_requested_power_short h) (_state h) (_heating_element_status h)
    (_pen_sensor_status h).

#[global] Instance set_pen_resistance_mo {P : Type} : Setter (@_pen_resistance_mo P) :=
  fun v h => mk (_preset h) (_pid h) (_uptime_ticks h) (_power_uwpt h)
    (_requested_power_uwpt h) (_energy_uwt h) (_steady_ticks h)
    (_period_ticks h) (_remaining_ticks h) (_measure_ticks h)
    (_measurements_count h) (_requested_power_mw h) (_cpu_voltage_mv_heat h)
    (_cpu_voltage_mv_idle h) (_supply_voltage_mv_heat h)
    (_supply_voltage_mv_idle h) (_supply_voltage_mv_drop h)
    (_pen_current_ma_heat h) (_pen_current_ma_idle h) v
    (_pen_temperature_mc h) (_cpu_temperature_mc h)
    (_average_requested_power h) (_average_requested_power_short h) (_state h)
    (_heating_element_status h) (_pen_sensor_status h).

#[global] Instance set_pen_temperature_mc {P : Type} : Setter (@_pen_temperature_mc P) :=
  fun v h => mk (_preset h) (_pid h) (_uptime_ticks h) (_power_uwpt h)
    (_requested_power_uwpt h) (_energy_uwt h) (_steady_ticks h)
    (_period_ticks h) (_remaining_ticks h) (_measure_ticks h)
    (_measurements_count h) (_requested_power_mw h) (_cpu_voltage_mv_heat h)
    (_cpu_voltage_mv_idle h) (_supply_voltage_mv_heat h)
    (_supply_voltage_mv_idle h) (_supply_voltage_mv_drop h)
    (_pen_current_ma_heat h) (_pen_current_ma_idle h) (_pen_resistance_mo h) v
    (_cpu_temperature_mc h) (_average_requested_power h)
    (_average_requested_power_short h) (_state h) (_heating_element_status h)
    (_pen_sensor_status h).

#[global] Instance set_cpu_temperature_mc {P : Type} : Setter (@_cpu_temperature_mc P) :=
  fun v h => mk (_preset h) (_pid h) (_uptime_ticks h) (_power_uwpt h)
    (_requested_power_uwpt h) (_energy_uwt h) (_steady_ticks h)
    (_period_ticks h) (_remaining_ticks h) (_measure_ticks h)
    (_measurements_count h) (_requested_power_mw h) (_cpu_voltage_mv_heat h)
    (_cpu_voltage_mv_idle h) (_supply_voltage_mv_heat h)
    (_supply_voltage_mv_idle h) (_supply_voltage_mv_drop h)
    (_pen_current_ma_heat h) (_pen_current_ma_idle h) (_pen_resistance_mo h)
    (_pen_temperature_mc h) v (_average_requested_power h)
    (_average_requested_power_short h) (_state h) (_heating_element_status h)
    (_pen_sensor_status h).

#[global] Instance set_average_requested_power {P : Type} : Setter (@_average_requested_power P) :=
  fun v h => mk (_preset h) (_pid h) (_uptime_ticks h) (_power_uwpt h)
    (_requested_power_uwpt h) (_energy_uwt h) (_steady_ticks h)
    (_period_ticks h) (_remaining_ticks h) (_measure_ticks h)
    (_measurements_count h) (_requested_power_mw h) (_cpu_voltage_mv_heat h)
    (_cpu_voltage_mv_idle h) (_supply_voltage_mv_heat h)
    (_supply_voltage_mv_idle h) (_supply_voltage_mv_drop h)
    (_pen_current_ma_heat h) (_pen_current_ma_idle h) (_pen_resistance_mo h)
    (_pen_temperature_mc h) (_cpu_temperature_mc h) v
    (_average_requested_power_short h) (_state h) (_heating_element_status h)
    (_pen_sensor_status h).

#[global] Instance set_average_requested_power_short {P : Type} : Setter (@_average_requested_power_short P) :=
  fun v h => mk (_preset h) (_pid h) (_uptime_ticks h) (_power_uwpt h)
    (_requested_power_uwpt h) (_energy_uwt h) (_steady_ticks h)
    (_period_ticks h) (_remaining_ticks h) (_measure_ticks h)
    (_measurements_count h) (_requested_power_mw h) (_cpu_voltage_mv_heat h)
    (_cpu_voltage_mv_idle h) (_supply_voltage_mv_heat h)
    (_supply_voltage_mv_idle h) (_supply_voltage_mv_drop h)
    (_pen_current_ma_heat h) (_pen_current_ma_idle h) (_pen_resistance_mo h)
    (_pen_temperature_mc h) (_cpu_temperature_mc h)
    (_average_requested_power h) v (_state h) (_heating_element_status h)
    (_pen_sensor_status h).

#[global] Instance set_state {P : Type} : Setter (@_state P) :=
  fun v h => mk (_preset h) (_pid h) (_uptime_ticks h) (_power_uwpt h)
    (_requested_power_uwpt h) (_energy_uwt h) (_steady_ticks h)
    (_period_ticks h) (_remaining_ticks h) (_measure_ticks h)
    (_measurements_count h) (_requested_power_mw h) (_cpu_voltage_mv_heat h)
    (_cpu_voltage_mv_idle h) (_supply_voltage_mv_heat h)
    (_supply_voltage_mv_idle h) (_supply_voltage_mv_drop h)
    (_pen_current_ma_heat h) (_pen_current_ma_idle h) (_pen_resistance_mo h)
    (_pen_temperature_mc h) (_cpu_temperature_mc h)
    (_average_requested_power h) (_average_requested_power_short h) v
    (_heating_element_status h) (_pen_sensor_status h).

#[global] Instance set_heating_element_status {P : Type} : Setter (@_heating_element_status P) :=
  fun v h => mk (_preset h) (_pid h) (_uptime_ticks h) (_power_uwpt h)
    (_requested_power_uwpt h) (_energy_uwt h) (_steady_ticks h)
    (_period_ticks h) (_remaining_ticks h) (_measure_ticks h)
    (_measurements_count h) (_requested_power_mw h) (_cpu_voltage_mv_heat h)
    (_cpu_voltage_mv_idle h) (_supply_voltage_mv_heat h)
    (_supply_voltage_mv_idle h) (_supply_voltage_mv_drop h)
    (_pen_current_ma_heat h) (_pen_current_ma_idle h) (_pen_resistance_mo h)
    (_pen_temperature_mc h) (_cpu_temperature_mc h)
    (_average_requested_power h) (_average_requested_power_short h) (_state h)
    v (_pen_sensor_status h).

#[global] Instance set_pen_sensor_status {P : Type} : Setter (@_pen_sensor_status P) :=
  fun v h => mk (_preset h) (_pid h) (_uptime_ticks h) (_power_uwpt h)
    (_requested_power_uwpt h) (_energy_uwt h) (_steady_ticks h)
    (_period_ticks h) (_remaining_ticks h) (_measure_ticks h)
    (_measurements_count h) (_requested_power_mw h) (_cpu_voltage_mv_heat h)
    (_cpu_voltage_mv_idle h) (_supply_voltage_mv_heat h)
    (_supply_voltage_mv_idle h) (_supply_voltage_mv_drop h)
    (_pen_current_ma_heat h) (_pen_current_ma_idle h) (_pen_resistance_mo h)
    (_pen_temperature_mc h) (_cpu_temperature_mc h)
    (_average_requested_power h) (_average_requested_power_short h) (_state h)
    (_heating_element_status h) v.

Section Engine.

Context `{Clock} {P : Type} `{Pid.Controller P}.

(** The member initialisers. *)
Definition initial : t P :=
  {| _preset := Preset.initial;
     _pid := Pid.initial;
     _uptime_ticks := 0;
     _power_uwpt := 0;
     _requested_power_uwpt := 0;
     _energy_uwt := 0;
     _steady_ticks := 0;
     _period_ticks := 0;
     _remaining_ticks := 0;
     _measure_ticks := 0;
     _measurements_count := 0;
     _requested_power_mw := 0;
     _cpu_voltage_mv_heat := 0;
     _cpu_voltage_mv_idle := 0;
     _supply_voltage_mv_heat := 0;
     _supply_voltage_mv_idle := 0;
     _supply_voltage_mv_drop := 0;
     _pen_current_ma_heat := 0;
     _pen_current_ma_idle := 0;
     _pen_resistance_mo := 0;
     _pen_temperature_mc := 0;
     _cpu_temperature_mc := 0;
     _average_requested_power := 0;
     _average_requested_power_short := 0;
     _state := State.STOP;
     _heating_element_status := HeatingElementStatus.UNKNOWN;
     _pen_sensor_status := PenSensorStatus.UNKNOWN |}.

(** [1000 / PERIOD_TIME_MS] is the constant 6. *)
Definition init (h : t P) : t P :=
  h <| _pid := Pid.set_constants PID_K_PROPORTIONAL PID_K_INTEGRAL PID_K_DERIVATE
                 (Z.quot 1000 PERIOD_TIME_MS) HEATING_POWER_MAX (_pid h) |>.

Definition get_preset (h : t P) : Preset.t := _preset h.

(** ** Getters *)

Definition get_requested_power_mw (h : t P) : Z := _requested_power_mw h.

Definition get_pen_resistance_mo (h : t P) : Z := _pen_resistance_mo h.

(** [_energy_uwt / CORE_FREQ / 1000 / 3600], an [int64_t] returned as [int];
    the first division is by the clock constant. *)
Definition get_energy_mwh (h : t P) : result Z :=
  do q <- div_int64 (_energy_uwt h) CORE_FREQ;
  Ok (to_int (Z.quot (Z.quot q 1000) 3600)).

(** [_steady_ticks / (CORE_FREQ / 1000)], an [int64_t] returned as [int];
    the divisor is 0 for a clock below 1 kHz. *)
Definition get_steady_ms (h : t P) : result Z :=
  do q <- div_int64 (_steady_ticks h) (Z.quot CORE_FREQ 1000);
  Ok (to_int q).

Definition get_real_pen_temperature_mc (h : t P) : result Z :=
  add_int (_cpu_temperature_mc h) (_pen_temperature_mc h).

Definition getHeatingElementStatus (h : t P) : HeatingElementStatus.t :=
  _heating_element_status h.

Definition getPenSensorStatus (h : t P) : PenSensorStatus.t :=
  _pen_sensor_status h.

(** [time_ms * CORE_FREQ / 1000] in [int64_t]; called with 2 and with 10,
    where the product cannot overflow. *)
Definition _ms2ticks (time_ms : Z) : Z := Z.quot (time_ms * CORE_FREQ) 1000.

(** ** start *)

(** [PERIOD_TIME_MS * (CORE_FREQ / 1000)], which fits [int]. *)
Definition PERIOD_TICKS : Z := PERIOD_TIME_MS * Z.quot CORE_FREQ 1000.

(** [(uint64_t)power_mw * _period_ticks * 1000], stored in an [int64_t]. *)
Definition requested_uwpt (power_mw period_ticks : Z) : Z :=
  to_int64 (to_uint64 (to_uint64 (to_uint64 power_mw * to_uint64 period_ticks) * 1000)).

Definition start (h : t P) : result (t P) :=
  do (pid, power_mw) <-
    (if negb (PenSensorStatus.eqb (getPenSensorStatus h) PenSensorStatus.OK)
     then Ok (Pid.reset (_pid h), 0)
     else
       do measured <- get_real_pen_temperature_mc h;
       do setpoint <- Preset.get_temperature (_preset h);
       Ok (Pid.process measured setpoint (_pid h)));
  let h := h <| _pid := pid |> <| _period_ticks := PERIOD_TICKS |> in
  do remaining <- add_int (_remaining_ticks h) (_period_ticks h);
  Ok (h <| _remaining_ticks := remaining |>
        <| _requested_power_mw := power_mw |>
        <| _requested_power_uwpt := requested_uwpt power_mw (_period_ticks h) |>
        <| _state := State.START |>).

(** ** The state handlers; each works on the engine and the board. *)

Definition _state_stop (h : t P) : result (t P) :=
  let stop := negb (PenSensorStatus.eqb (getPenSensorStatus h) PenSensorStatus.OK) in
  let stop := stop || HeatingElementStatus.eqb (getHeatingElementStatus h)
                        HeatingElementStatus.SHORTED in
  let stop := stop || HeatingElementStatus.eqb (getHeatingElementStatus h)
                        HeatingElementStatus.BROKEN in
  do steady_ms <- get_steady_ms h;
  let stop := stop || (steady_ms >? STANDBY_TIME_MS) in
  Ok (if stop then h <| _preset := Preset.set_standby (_preset h) |> else h).

Definition _state_start (h : t P) (b : board.t) : result (t P * board.t) :=
  let h := h <| _measure_ticks := 0 |>
             <| _measurements_count := 0 |>
             <| _measurements_count := 0 |>
             <| _cpu_voltage_mv_heat := 0 |>
             <| _supply_voltage_mv_heat := 0 |>
             <| _pen_current_ma_heat := 0 |>
             <| _pen_current_ma_idle := 0 |>
             <| _power_uwpt := 0 |> in
  if _requested_power_mw h <? HEATING_MIN_POWER_MW then
    let b := board.adc_measure_idle_start b in
    Ok (h <| _requested_power_mw := 0 |>
          <| _requested_power_uwpt := 0 |>
          <| _steady_ticks := 0 |>
          <| _state := State.IDLE |>, b)
  else
    do s1 <- mul_int (_average_requested_power_short h) 2;
    do s2 <- add_int s1 (_requested_power_mw h);
    do s3 <- div_int s2 3;
    let h := h <| _average_requested_power_short := s3 |> in
    do a1 <- mul_int (_average_requested_power h) 9;
    do a2 <- add_int a1 (_requested_power_mw h);
    do a3 <- div_int a2 10;
    let h := h <| _average_requested_power := a3 |> in
    do derivate_requested_power <-
      sub_int (_average_requested_power_short h) (_average_requested_power h);
    let h := if (derivate_requested_power >? 150) || (derivate_requested_power <? -200)
             then h <| _steady_ticks := 0 |> else h in
    let b := board.heater_on b in
    let b := board.adc_measure_heat_start b in
    Ok (h <| _heating_element_status := HeatingElementStatus.UNKNOWN |>
          <| _pen_sensor_status := PenSensorStatus.UNKNOWN |>
          <| _state := State.HEATING |>, b).

(** [_measure_ticks += delta_ticks]: [int] plus [unsigned] is computed in
    [unsigned] and converted back. *)
Definition measure_ticks_add (delta_ticks : Z) (h : t P) : t P :=
  h <| _measure_ticks := to_int (to_uint (to_uint (_measure_ticks h) + delta_ticks)) |>.

(** Lines 365-372 of [_state_heating]: one completed sample is counted and
    accumulated. *)
Definition heating_accumulate (adc : board.Adc) (h : t P) : result (t P) :=
  do n <- add_int (_measurements_count h) 1;
  let h := h <| _measurements_count := n |> in
  do cv <- add_int (_cpu_voltage_mv_heat h) (board.get_cpu_voltage adc);
  let h := h <| _cpu_voltage_mv_heat := cv |> in
  do sv <- add_int (_supply_voltage_mv_heat h) (board.get_supply_voltage adc);
  let h := h <| _supply_voltage_mv_heat := sv |> in
  do pc <- add_int (_pen_current_ma_heat h) (board.get_pen_current adc);
  let h := h <| _pen_current_ma_heat := pc |> in
  do vi <- mul_int64 (board.get_supply_voltage adc) (board.get_pen_current adc);
  do vit <- mul_int64 vi (_measure_ticks h);
  do pw <- add_int64 (_power_uwpt h) vit;
  Ok (h <| _power_uwpt := pw |> <| _measure_ticks := 0 |>).

(** Lines 374-378: the three reasons to end the heat phase. *)
Definition heating_stop (h : t P) : result bool :=
  do average <- div_int (_pen_current_ma_heat h) (_measurements_count h);
  let stop := average >? PEN_MAX_CURRENT_MA in
  let stop := stop || (_power_uwpt h >? _requested_power_uwpt h) in
  let stop := stop || (_remaining_ticks h <?
                       _ms2ticks (STABILIZE_TIME_MS + IDLE_MIN_TIME_MS)) in
  Ok stop.

(** Lines 397-407: the status of the heating element for a resistance. *)
Definition heating_element_status_of (pen_resistance_mo : Z) : HeatingElementStatus.t :=
  if pen_resistance_mo <? PEN_RESISTANCE_SHORTED then HeatingElementStatus.SHORTED
  else if pen_resistance_mo <? PEN_RESISTANCE_MIN then HeatingElementStatus.LOW_RESISTANCE
  else if pen_resistance_mo >? PEN_RESISTANCE_BROKEN then HeatingElementStatus.BROKEN
  else if pen_resistance_mo >? PEN_RESISTANCE_MAX then HeatingElementStatus.HIGH_RESISTANCE
  else HeatingElementStatus.OK.

(** Lines 380-409: the heater is switched off, then the phase is summed up. *)
Definition heating_finish (h : t P) (b : board.t) : result (t P * board.t) :=
  let b := board.heater_off b in
  do e <- add_int64 (_energy_uwt h) (_power_uwpt h);
  let h := h <| _energy_uwt := e |> in
  do cv <- div_int (_cpu_voltage_mv_heat h) (_measurements_count h);
  let h := h <| _cpu_voltage_mv_heat := cv |> in
  do sv <- div_int (_supply_voltage_mv_heat h) (_measurements_count h);
  let h := h <| _supply_voltage_mv_heat := sv |> in
  do pc <- div_int (_pen_current_ma_heat h) (_measurements_count h);
  let h := h <| _pen_current_ma_heat := pc |> in
  do pc <- sub_int (_pen_current_ma_heat h) (_pen_current_ma_idle h);
  let h := h <| _pen_current_ma_heat := pc |> in
  do h <- (if _pen_current_ma_heat h <? 0
           then do pc <- mul_int (_pen_current_ma_heat h) (-1);
                Ok (h <| _pen_current_ma_heat := pc |>)
           else Ok h);
  do h <- (if _pen_current_ma_heat h >? 10
           then do sv1000 <- mul_int (_supply_voltage_mv_heat h) 1000;
                do r <- div_int sv1000 (_pen_current_ma_heat h);
                Ok (h <| _pen_resistance_mo := r |>)
           else Ok (h <| _pen_resistance_mo := 1000000000 |>));
  do drop <- sub_int (_supply_voltage_mv_heat h) (_supply_voltage_mv_idle h);
  let h := h <| _supply_voltage_mv_drop := drop |> in
  let h := h <| _heating_element_status :=
                  heating_element_status_of (_pen_resistance_mo h) |> in
  Ok (h <| _state := State.STABILIZE |>, b).

Definition _state_heating (delta_ticks : Z) (adc : board.Adc)
  (h : t P) (b : board.t) : result (t P * board.t) :=
  let h := measure_ticks_add delta_ticks h in
  if negb (board.measure_is_done adc) then Ok (h, b)
  else
    do h <- heating_accumulate adc h;
    do stop <- heating_stop h;
    if stop then heating_finish h b
    else Ok (h, board.adc_measure_heat_start b).

Definition _state_stabilize (delta_ticks : Z) (h : t P) (b : board.t) : t P * board.t :=
  let h := measure_ticks_add delta_ticks h in
  if _measure_ticks h <? _ms2ticks STABILIZE_TIME_MS then (h, b)
  else
    let b := board.adc_measure_idle_start b in
    (h <| _measure_ticks := 0 |>
       <| _measurements_count := 0 |>
       <| _cpu_voltage_mv_idle := 0 |>
       <| _supply_voltage_mv_idle := 0 |>
       <| _cpu_temperature_mc := 0 |>
       <| _pen_temperature_mc := 0 |>
       <| _state := State.IDLE |>, b).

(** Lines 430-436 of [_state_idle]. *)
Definition idle_accumulate (adc : board.Adc) (h : t P) : result (t P) :=
  do cv <- add_int (_cpu_voltage_mv_idle h) (board.get_cpu_voltage adc);
  let h := h <| _cpu_voltage_mv_idle := cv |> in
  do sv <- add_int (_supply_voltage_mv_idle h) (board.get_supply_voltage adc);
  let h := h <| _supply_voltage_mv_idle := sv |> in
  do pc <- add_int (_pen_current_ma_idle h) (board.get_pen_current adc);
  let h := h <| _pen_current_ma_idle := pc |> in
  do ct <- add_int (_cpu_temperature_mc h) (board.get_cpu_temperature adc);
  let h := h <| _cpu_temperature_mc := ct |> in
  do pt <- add_int (_pen_temperature_mc h) (board.get_pen_temperature adc);
  let h := h <| _pen_temperature_mc := pt |> in
  do n <- add_int (_measurements_count h) 1;
  Ok (h <| _measurements_count := n |>).

(** Lines 441-453 of [_state_idle]. *)
Definition idle_finish (adc : board.Adc) (h : t P) : result (t P) :=
  do cv <- div_int (_cpu_voltage_mv_idle h) (_measurements_count h);
  let h := h <| _cpu_voltage_mv_idle := cv |> in
  do sv <- div_int (_supply_voltage_mv_idle h) (_measurements_count h);
  let h := h <| _supply_voltage_mv_idle := sv |> in
  do pc <- div_int (_pen_current_ma_idle h) (_measurements_count h);
  let h := h <| _pen_current_ma_idle := pc |> in
  do ct <- div_int (_cpu_temperature_mc h) (_measurements_count h);
  let h := h <| _cpu_temperature_mc := ct |> in
  do pt <- div_int (_pen_temperature_mc h) (_measurements_count h);
  let h := h <| _pen_temperature_mc := pt |> in
  let h := if board.is_pen_sensor_ok adc
           then h <| _pen_sensor_status := PenSensorStatus.OK |>
           else h <| _pen_sensor_status := PenSensorStatus.BROKEN |>
                  <| _heating_element_status := HeatingElementStatus.UNKNOWN |> in
  Ok (h <| _state := State.STOP |>).

Definition _state_idle (adc : board.Adc) (h : t P) (b : board.t)
  : result (t P * board.t) :=
  if negb (board.measure_is_done adc) then Ok (h, b)
  else
    do h <- idle_accumulate adc h;
    if _remaining_ticks h >? 0 then Ok (h, board.adc_measure_idle_start b)
    else
      do h <- idle_finish adc h;
      Ok (h, b).

(** ** process *)

(** The three counters advanced at the head of [process]: [uint64_t] plus
    [unsigned]; [int] minus [unsigned], computed in [unsigned]; [int64_t]
    plus [unsigned], computed in [int64_t]. *)
Definition advance_ticks (delta_ticks : Z) (h : t P) : result (t P) :=
  let h := h <| _uptime_ticks := to_uint64 (_uptime_ticks h + delta_ticks) |> in
  let h := h <| _remaining_ticks :=
                  to_int (to_uint (to_uint (_remaining_ticks h) - delta_ticks)) |> in
  do steady <- add_int64 (_steady_ticks h) delta_ticks;
  Ok (h <| _steady_ticks := steady |>).

Definition process (delta_ticks : Z) (adc : board.Adc) (h : t P) (b : board.t)
  : result (t P * board.t * bool) :=
  do h <- advance_ticks delta_ticks h;
  match _state h with
  | State.STOP =>
      do h <- _state_stop h;
      Ok (h, b, false)
  | State.START =>
      do (h, b) <- _state_start h b;
      Ok (h, b, true)
  | State.HEATING =>
      do (h, b) <- _state_heating delta_ticks adc h b;
      Ok (h, b, true)
  | State.STABILIZE =>
      let '(h, b) := _state_stabilize delta_ticks h b in
      Ok (h, b, true)
  | State.IDLE =>
      do (h, b) <- _state_idle adc h b;
      Ok (h, b, true)
  end.

(** The engine after a call of [process] in the HEATING state has counted
    and accumulated a completed sample (line 372), before it decides
    whether the heat phase ends. *)
Definition sampled (delta_ticks : Z) (adc : board.Adc) (h : t P) : result (t P) :=
  do h <- advance_ticks delta_ticks h;
  heating_accumulate adc (measure_ticks_add delta_ticks h).

(** ** The remaining getters and the tick conversion back *)

(** [_power_uwpt / _period_ticks / 1000], an [int64_t] returned as [int]. *)
Definition get_power_mw (h : t P) : result Z :=
  do q <- div_int64 (_power_uwpt h) (_period_ticks h);
  Ok (to_int (Z.quot q 1000)).

Definition get_cpu_voltage_mv_heat (h : t P) : Z := _cpu_voltage_mv_heat h.
Definition get_cpu_voltage_mv_idle (h : t P) : Z := _cpu_voltage_mv_idle h.
Definition get_supply_voltage_mv_heat (h : t P) : Z := _supply_voltage_mv_heat h.
Definition get_supply_voltage_mv_idle (h : t P) : Z := _supply_voltage_mv_idle h.
Definition get_pen_current_ma_heat (h : t P) : Z := _pen_current_ma_heat h.
Definition get_pen_current_ma_idle (h : t P) : Z := _pen_current_ma_idle h.
Definition get_supply_voltage_mv_drop (h : t P) : Z := _supply_voltage_mv_drop h.
Definition get_cpu_temperature_mc (h : t P) : Z := _cpu_temperature_mc h.
Definition get_pen_temperature_mc (h : t P) : Z := _pen_temperature_mc h.

(** [ticks * 1000 / CORE_FREQ]: the product is an [int64_t], the result is
    returned as [int]. *)
Definition _ticks2ms (ticks : Z) : result Z :=
  do p <- mul_int64 ticks 1000;
  do q <- div_int64 p CORE_FREQ;
  Ok (to_int q).

(** The engine after a call of [process] in the IDLE state has accumulated
    and counted a completed sample (line 436), before it decides whether
    the idle phase ends. *)
Definition idle_sampled (delta_ticks : Z) (adc : board.Adc) (h : t P) : result (t P) :=
  do h <- advance_ticks delta_ticks h;
  idle_accumulate adc h.

End Engine.

End Heating.

(* ================================================================== *)
(** * The station: the engine, the board it drives and the host that
      calls it *)

Module Station.

(** What the host does between two instants: it starts a period, it lets
    the engine run for [delta_ticks] ticks while the ADC reports [adc], or
    the user interface calls the preset store. *)
Inductive Event : Type :=
| Start
| Process (delta_ticks : Z) (adc : board.Adc)
| Ui (c : Preset.Call).

Record t (P : Type) : Type := mk {
  engine : Heating.t P;
  brd : board.t
}.

Arguments mk {P}.
Arguments engine {P} _.
Arguments brd {P} _.

(** The readings of the ADC are [int]s. *)
Definition adc_ok (adc : board.Adc) : bool :=
  in_int (board.get_cpu_voltage adc) && in_int (board.get_supply_voltage adc)
  && in_int (board.get_pen_current adc) && in_int (board.get_cpu_temperature adc)
  && in_int (board.get_pen_temperature adc).

Section Host.

Context `{Clock} {P : Type} `{Pid.Controller P}.

(** The station after power-up: members initialised, [init()] called,
    heater off. *)
Definition initial : t P :=
  {| engine := Heating.init Heating.initial; brd := board.initial |}.

Definition state (m : t P) : Heating.State.t := Heating._state (engine m).

Definition heater (m : t P) : bool := board.heater (brd m).

Definition step (ev : Event) (m : t P) : result (t P) :=
  match ev with
  | Start =>
      do h <- Heating.start (engine m);
      Ok (mk h (brd m))
  | Process delta_ticks adc =>
      do (h, b, _) <- Heating.process delta_ticks adc (engine m) (brd m);
      Ok (mk h b)
  | Ui c =>
      do p <- Preset.call c (Heating._preset (engine m));
      Ok (mk ((engine m) <| Heating._preset := p |>) (brd m))
  end.

(** The arguments have the types of the parameters: [delta_ticks] is an
    [unsigned], the readings and the arguments of the preset calls are
    [int]s. *)
Definition well_typed (ev : Event) : bool :=
  match ev with
  | Start => true
  | Process delta_ticks adc =>
      (0 <=? delta_ticks) && (delta_ticks <? 2 ^ 32) && adc_ok adc
  | Ui (Preset.Select i) | Ui (Preset.EditSelect i) | Ui (Preset.EditAdd i) => in_int i
  | Ui _ => true
  end.

(** The host's side of the contract: [start()] is called when [process]
    has returned false, that is in the STOP state. *)
Definition in_turn (ev : Event) (m : t P) : bool :=
  match ev, state m with
  | Start, Heating.State.STOP => true
  | Start, _ => false
  | _, _ => true
  end.

(** The one call that takes the engine out of a heat phase with the heater
    on: [start()] in the HEATING state.  A host that calls [start()] in
    STOP only never makes it. *)
Definition uninterrupted (ev : Event) (m : t P) : bool :=
  match ev, state m with
  | Start, Heating.State.HEATING => false
  | _, _ => true
  end.

(** A heat-phase sample that cannot take energy away: the readings of the
    supply voltage and of the pen current are not negative, and neither is
    the length of the measurement as [_measure_ticks] holds it. *)
Definition supplies_energy (ev : Event) (m : t P) : bool :=
  match ev, state m with
  | Process delta_ticks adc, Heating.State.HEATING =>
      negb (board.measure_is_done adc)
      || ((0 <=? board.get_supply_voltage adc) && (0 <=? board.get_pen_current adc)
          && (0 <=? Heating._measure_ticks
                      (Heating.measure_ticks_add delta_ticks (engine m))))
  | _, _ => true
  end.

(** A run: every event is allowed by [allowed] and has a behaviour. *)
Fixpoint exec (allowed : Event -> t P -> bool) (evs : list Event) (m : t P)
  : option (t P) :=
  match evs with
  | [] => Some m
  | ev :: evs' =>
      if allowed ev m then
        match step ev m with
        | Ok m' => exec allowed evs' m'
        | Err _ => None
        end
      else None
  end.

(** Any sequence of calls. *)
Definition run_any : list Event -> t P -> option (t P) :=
  exec (fun ev _ => well_typed ev).

(** The calls of a host that calls [start()] in the STOP state only. *)
Definition run : list Event -> t P -> option (t P) :=
  exec (fun ev m => well_typed ev && in_turn ev m).

(** Any sequence of calls that does not restart a heat phase. *)
Definition run_uninterrupted : list Event -> t P -> option (t P) :=
  exec (fun ev m => well_typed ev && uninterrupted ev m).

(** Any sequence of calls in which the heat-phase samples supply energy. *)
Definition run_supplying : list Event -> t P -> option (t P) :=
  exec (fun ev m => well_typed ev && supplies_energy ev m).

(** The heater is on in the HEATING state only. *)
Definition heater_disciplined (m : t P) : Prop :=
  state m <> Heating.State.HEATING -> heater m = false.

(** While samples are taken their counter is not negative. *)
Definition counting (m : t P) : Prop :=
  state m = Heating.State.HEATING \/ state m = Heating.State.IDLE ->
  0 <= Heating._measurements_count (engine m).

(** Neither the total energy nor the energy of the running heat phase is
    negative. *)
Definition energy_supplied (m : t P) : Prop :=
  0 <= Heating._energy_uwt (engine m) <= INT64_MAX /\
  (state m = Heating.State.HEATING -> 0 <= Heating._power_uwpt (engine m)).

End Host.

End Station.

(* ================================================================== *)
(** * A controller and a clock to run the engine on *)

(** Modelled from the spec: lib/pid.hpp is not among the sources; this is
    the discrete PID of section 4.2 of the specification, on unbounded
    integers. *)
Module SpecPid.

Definition SCALE : Z := 1000.

Record t : Type := mk {
  kp : Z;
  ki : Z;
  kd : Z;
  fs : Z;
  out_max : Z;
  integral : Z;
  prev_error : Z
}.

Definition initial : t := mk 0 0 0 0 0 0 0.

Definition set_constants (Kp Ki Kd Fs OutMax : Z) (p : t) : t :=
  mk Kp Ki Kd Fs OutMax 0 0.

Definition reset (p : t) : t :=
  mk (kp p) (ki p) (kd p) (fs p) (out_max p) 0 0.

Definition process (measured setpoint : Z) (p : t) : t * Z :=
  let error := setpoint - measured in
  let i := integral p + Z.quot error (fs p) in
  let i := if ki p * i >? out_max p then Z.quot (out_max p) (ki p)
           else if ki p * i <? - out_max p then - Z.quot (out_max p) (ki p)
           else i in
  let derivative := (error - prev_error p) * fs p in
  let u := Z.quot (kp p * error) SCALE + Z.quot (ki p * i) SCALE
           + Z.quot (kd p * derivative) SCALE in
  let u := Z.max 0 (Z.min (out_max p) u) in
  (mk (kp p) (ki p) (kd p) (fs p) (out_max p) i error, u).

End SpecPid.

#[global] Instance SpecPid_Controller : Pid.Controller SpecPid.t :=
  {| Pid.initial := SpecPid.initial;
     Pid.set_constants := SpecPid.set_constants;
     Pid.reset := SpecPid.reset;
     Pid.process := SpecPid.process |}.

(** The simulated clock of the specification's scenarios. *)
Definition SimClock : Clock := {| CORE_FREQ := 1000000 |}.

(** A clock below 1 kHz, for which [CORE_FREQ / 1000] is 0. *)
Definition SlowClock : Clock := {| CORE_FREQ := 500 |}.

Module Sim.

#[local] Existing Instance SimClock.

(** The host calls [process] every millisecond, 1000 ticks. *)
Definition MS : Z := 1000.

Definition adc (done : bool) (supply_mv current_ma : Z) : board.Adc :=
  {| board.measure_is_done := done;
     board.get_cpu_voltage := 3300;
     board.get_supply_voltage := supply_mv;
     board.get_pen_current := current_ma;
     board.get_cpu_temperature := 25000;
     board.get_pen_temperature := 0;
     board.is_pen_sensor_ok := true |}.

(** Heater off: 12 V, no current. *)
Definition idle : board.Adc := adc true 12000 0.

(** Scenario S1 of the specification: 5 V, 3 A. *)
Definition nominal : board.Adc := adc true 5000 3000.

(** 12 V, 5 A: each millisecond brings 6e10 of the 6e12 uW ticks that
    40 W over a period are. *)
Definition strong : board.Adc := adc true 12000 5000.

(** A reversed current sensor: 12 V, -3 A. *)
Definition reversed : board.Adc := adc true 12000 (-3000).

Definition each_ms (a : board.Adc) (n : nat) : list Station.Event :=
  repeat (Station.Process MS a) n.

(** The first period: the sensor is not yet known to be good, nothing is
    requested, the START handler goes to IDLE and 150 ms later the engine
    is in STOP. *)
Definition first_period : list Station.Event :=
  Station.Start :: each_ms idle 150.

(** [process] returns false, the user selects preset 0, the host starts
    the second period and its START handler switches the heater on. *)
Definition warm_up : list Station.Event :=
  first_period ++
  [ Station.Process MS idle;
    Station.Ui (Preset.Select 0);
    Station.Start;
    Station.Process MS idle ].

Definition station0 : Station.t SpecPid.t := Station.initial.

Definition after (evs : list Station.Event) (m : Station.t SpecPid.t)
  : Station.t SpecPid.t :=
  match Station.run evs m with
  | Some m' => m'
  | None => m
  end.


(** The station after the first period, back in STOP. *)
Definition stopped0 : Station.t SpecPid.t :=
  Eval vm_compute in after first_period station0.

(** The station after [warm_up]: in the HEATING state, heater on, 40 W
    requested for the period, 148 ms of it remaining. *)
Definition heating0 : Station.t SpecPid.t :=
  Eval vm_compute in after warm_up station0.

(** 138 ms of heating at 5 V and 3 A later: 10 ms remain. *)
Definition late0 : Station.t SpecPid.t :=
  Eval vm_compute in after (each_ms nominal 138) heating0.

(** 99 ms of heating at 12 V and 5 A later: 5.94e12 uW ticks delivered. *)
Definition nearly0 : Station.t SpecPid.t :=
  Eval vm_compute in after (each_ms strong 99) heating0.

(** A heat phase at 12 V and 5 A, ended after 101 ms by the energy. *)
Definition heated : Station.t SpecPid.t :=
  Eval vm_compute in after (each_ms strong 101) heating0.

(** A heat phase at 12 V and -3 A, ended after 139 ms by the time. *)
Definition drained : Station.t SpecPid.t :=
  Eval vm_compute in after (each_ms reversed 139) heating0.

(** The host calls [start()] in the middle of the heat phase: the sensor
    status is UNKNOWN since the START handler, nothing is requested, and
    the next START handler goes to IDLE. *)
Definition early_start : list Station.Event :=
  [ Station.Start; Station.Process MS idle ].

Definition restarted : Station.t SpecPid.t :=
  Eval vm_compute in
    match Station.run_any early_start heating0 with
    | Some m => m
    | None => station0
    end.

(** The idle phase that follows, to its end in STOP. *)
Definition restarted_stop : Station.t SpecPid.t :=
  Eval vm_compute in
    match Station.run_any (each_ms idle 297) restarted with
    | Some m => m
    | None => station0
    end.

(** Scenario S4 of the specification, a broken heater: 5 V and 5 mA.  The
    heat phase runs out of time, the period goes on through STABILIZE and
    IDLE, and the engine is in STOP with the element BROKEN. *)
Definition weak : board.Adc := adc true 5000 5.

Definition broken_stop : Station.t SpecPid.t :=
  Eval vm_compute in after (each_ms weak 148) heating0.

(** What a call of [process] on station [m] yields. *)
Definition outcome (delta_ticks : Z) (a : board.Adc) (m : Station.t SpecPid.t)
  : Heating.t SpecPid.t * board.t * bool :=
  match Heating.process delta_ticks a (Station.engine m) (Station.brd m) with
  | Ok x => x
  | Err _ => (Station.engine m, Station.brd m, false)
  end.

End Sim.


(* ================================================================== *)
(** * lib/iofile.hpp: classes IFile, OFile and IOFile *)

Module iofile.

(** [IFile::read_char] and [IFile::read_data] of the base class. *)
Definition IFile_read_char : Z := -1.
Definition IFile_read_data (buffer : list Byte.byte) (size : Z) : Z := -1.

(** [OFile]: a class gives [write_char]; [F] is what the file has taken. *)
Class OFile (F : Type) : Type := { write_char : Byte.byte -> F -> F }.

(** The base class: [virtual void write_char(char) {}]. *)
Definition OFile_base : OFile unit := {| write_char := fun _ f => f |}.

(** [while (size-- > 0) write_char( *data++ );] where [data] points at the
    bytes of a buffer.  [None] when the fuel does not reach the end of the
    loop. *)
Fixpoint write_data_loop {F : Type} `{OFile F} (fuel : nat)
  (data : list Byte.byte) (size : Z) (f : F) : option (result F) :=
  match fuel with
  | O => None
  | S fuel' =>
      match sub_int size 1 with
      | Err e => Some (Err e)
      | Ok size' =>
          if size >? 0 then
            match data with
            | [] => Some (Err OutOfBounds)
            | c :: rest => write_data_loop fuel' rest size' (write_char c f)
            end
          else Some (Ok f)
      end
  end.

Definition write_data {F : Type} `{OFile F} (data : list Byte.byte) (size : Z) (f : F)
  : option (result F) :=
  write_data_loop (S (Z.to_nat size)) data size f.

(** A file that keeps what it is given, latest first. *)
Definition Recorder : OFile (list Byte.byte) := {| write_char := fun c f => c :: f |}.

End iofile.

(* ================================================================== *)
(** * Uses of the preset store and phases of the heating cycle *)

Module PresetUse.

(** A sequence of calls of the user interface. *)
Fixpoint calls (cs : list Preset.Call) (p : Preset.t) : result Preset.t :=
  match cs with
  | [] => Ok p
  | c :: cs' => do p' <- Preset.call c p; calls cs' p'
  end.

(** Every preset is a temperature within the limits. *)
Definition in_limits (p : Preset.t) : Prop :=
  Preset.wf p /\
  Forall (fun t => Preset.MIN_TEMPERATURE <= t <= Preset.MAX_TEMPERATURE)
    (Preset._temperatures p).

End PresetUse.

Module Phase.

(** What a list of calls of [process] reports and brings. *)
Definition reading (f : board.Adc -> Z) (ev : Station.Event) : Z :=
  match ev with
  | Station.Process _ adc => f adc
  | _ => 0
  end.

Definition total (f : board.Adc -> Z) (evs : list Station.Event) : Z :=
  fold_right (fun ev s => reading f ev + s) 0 evs.

Definition energy (ev : Station.Event) : Z :=
  match ev with
  | Station.Process delta_ticks adc =>
      board.get_supply_voltage adc * board.get_pen_current adc * delta_ticks
  | _ => 0
  end.

Definition total_energy (evs : list Station.Event) : Z :=
  fold_right (fun ev s => energy ev + s) 0 evs.

Definition samples (evs : list Station.Event) : Z := Z.of_nat (length evs).

Section Phases.

Context `{Clock} {P : Type} `{Pid.Controller P}.

(** A call of [process] in the HEATING state that finds the sample
    completed, less than 2^31 ticks after the previous one. *)
Definition heat_sample (ev : Station.Event) (m : Station.t P) : bool :=
  match ev, Station.state m with
  | Station.Process delta_ticks adc, Heating.State.HEATING =>
      board.measure_is_done adc && (0 <=? delta_ticks) && (delta_ticks <? 2 ^ 31)
  | _, _ => false
  end.

(** A call of [process] in the IDLE state that finds the sample completed. *)
Definition idle_sample (ev : Station.Event) (m : Station.t P) : bool :=
  match ev, Station.state m with
  | Station.Process delta_ticks adc, Heating.State.IDLE => board.measure_is_done adc
  | _, _ => false
  end.

(** The ADC never reports the pen sensor as good. *)
Definition sensor_failing (ev : Station.Event) : bool :=
  match ev with
  | Station.Process _ adc => negb (board.is_pen_sensor_ok adc)
  | _ => true
  end.

Definition heat_phase : list Station.Event -> Station.t P -> option (Station.t P) :=
  Station.exec heat_sample.

Definition idle_phase : list Station.Event -> Station.t P -> option (Station.t P) :=
  Station.exec idle_sample.

Definition run_sensor_failing : list Station.Event -> Station.t P -> option (Station.t P) :=
  Station.exec (fun ev _ => Station.well_typed ev && sensor_failing ev).

(** The engine while the sensor is not known to be good. *)
Definition sensor_unknown (m : Station.t P) : Prop :=
  Station.heater m = false /\
  Station.state m <> Heating.State.HEATING /\
  Station.state m <> Heating.State.STABILIZE /\
  Heating._requested_power_mw (Station.engine m) = 0 /\
  Heating._pen_sensor_status (Station.engine m) <> Heating.PenSensorStatus.OK /\
  ~ In board.MEASURE_HEAT_START (board.adc_commands (Station.brd m)).

End Phases.

End Phase.

(* ================================================================== *)
(** * More runs on the simulated clock *)

Module Scene.

#[local] Existing Instance SimClock.

(** The sensor is not plugged in: the ADC never reports it as good. *)
Definition unplugged : board.Adc :=
  {| board.measure_is_done := true;
     board.get_cpu_voltage := 3300;
     board.get_supply_voltage := 12000;
     board.get_pen_current := 0;
     board.get_cpu_temperature := 25000;
     board.get_pen_temperature := 0;
     board.is_pen_sensor_ok := false |}.

(** The measurement is not yet done. *)
Definition pending : board.Adc := Sim.adc false 5000 3000.

(** Two periods without a sensor. *)
Definition without_sensor : list Station.Event :=
  Station.Start :: Sim.each_ms unplugged 151 ++
  [ Station.Ui (Preset.Select 0); Station.Start; Station.Process Sim.MS unplugged ].

Definition no_sensor : Station.t SpecPid.t :=
  Eval vm_compute in
    match Phase.run_sensor_failing without_sensor Sim.station0 with
    | Some m => m
    | None => Sim.station0
    end.

(** The station after the first [start()], in START with nothing requested. *)
Definition first_start : Station.t SpecPid.t :=
  Eval vm_compute in Sim.after [Station.Start] Sim.station0.

(** The first call of [process] after it: IDLE. *)
Definition first_idle : Station.t SpecPid.t :=
  Eval vm_compute in Sim.after [Station.Process Sim.MS Sim.idle] first_start.

(** The station before the second [start()]: in STOP, preset 0 selected. *)
Definition selected : Station.t SpecPid.t :=
  Eval vm_compute in
    Sim.after [Station.Process Sim.MS Sim.idle; Station.Ui (Preset.Select 0)]
      Sim.stopped0.

(** The station after the second [start()]: in START, 40 W requested. *)
Definition requesting : Station.t SpecPid.t :=
  Eval vm_compute in Sim.after [Station.Start] selected.

(** A heat phase at 5 V and 3 A, ended after 139 ms by the time. *)
Definition heat_nominal : list Station.Event := Sim.each_ms Sim.nominal 139.

Definition heated_nominal : Station.t SpecPid.t :=
  Eval vm_compute in Sim.after heat_nominal Sim.heating0.

(** Two milliseconds later: IDLE. *)
Definition idling : Station.t SpecPid.t :=
  Eval vm_compute in Sim.after (Sim.each_ms Sim.idle 2) heated_nominal.

(** The idle phase to the end of the period. *)
Definition idle_rest : list Station.Event := Sim.each_ms Sim.idle 7.

Definition rested : Station.t SpecPid.t :=
  Eval vm_compute in Sim.after idle_rest idling.

End Scene.

(* ================================================================== *)
(** * Properties of results and machine integers *)

Lemma bind_Ok {A B : Type} (r : result A) (k : A -> result B) (b : B) :
  bind r k = Ok b -> exists a, r = Ok a /\ k a = Ok b.
Proof. destruct r as [a|f]; simpl; intros E; [eauto | discriminate]. Qed.

Lemma bind_div0 {A B : Type} (r : result A) (k : A -> result B) :
  bind r k = Err DivisionByZero ->
  r = Err DivisionByZero \/ exists a, r = Ok a /\ k a = Err DivisionByZero.
Proof.
  destruct r as [a|f]; simpl; intros E; [right; exists a; auto | left; inversion E; reflexivity].
Qed.

Lemma in_int_true (z : Z) : in_int z = true <-> INT_MIN <= z <= INT_MAX.
Proof. unfold in_int. rewrite andb_true_iff, !Z.leb_le. tauto. Qed.

Lemma in_int64_true (z : Z) : in_int64 z = true <-> INT64_MIN <= z <= INT64_MAX.
Proof. unfold in_int64. rewrite andb_true_iff, !Z.leb_le. tauto. Qed.

Lemma checked_Ok (fits : Z -> bool) (z v : Z) :
  checked fits z = Ok v -> v = z /\ fits z = true.
Proof. unfold checked. destruct (fits z); intros E; inversion E; auto. Qed.

Lemma checked_fits (fits : Z -> bool) (z : Z) :
  fits z = true -> checked fits z = Ok z.
Proof. unfold checked. intros ->. reflexivity. Qed.

Lemma checked_not_div0 (fits : Z -> bool) (z : Z) :
  checked fits z <> Err DivisionByZero.
Proof. unfold checked. destruct (fits z); discriminate. Qed.

Lemma add_int_Ok (a b v : Z) :
  add_int a b = Ok v -> v = a + b /\ INT_MIN <= a + b <= INT_MAX.
Proof. intros E. apply checked_Ok in E. rewrite in_int_true in E. exact E. Qed.

Lemma sub_int_Ok (a b v : Z) :
  sub_int a b = Ok v -> v = a - b /\ INT_MIN <= a - b <= INT_MAX.
Proof. intros E. apply checked_Ok in E. rewrite in_int_true in E. exact E. Qed.

Lemma mul_int_Ok (a b v : Z) :
  mul_int a b = Ok v -> v = a * b /\ INT_MIN <= a * b <= INT_MAX.
Proof. intros E. apply checked_Ok in E. rewrite in_int_true in E. exact E. Qed.

Lemma div_int_Ok (a b v : Z) :
  div_int a b = Ok v -> b <> 0 /\ v = Z.quot a b.
Proof.
  unfold div_int. destruct (Z.eqb_spec b 0) as [->|Hb]; [discriminate|].
  intros E. apply checked_Ok in E. tauto.
Qed.

Lemma div_int_div0 (a b : Z) : div_int a b = Err DivisionByZero -> b = 0.
Proof.
  unfold div_int. destruct (Z.eqb_spec b 0) as [->|Hb]; [reflexivity|].
  intros E. now apply checked_not_div0 in E.
Qed.

Lemma add_int64_Ok (a b v : Z) :
  add_int64 a b = Ok v -> v = a + b /\ INT64_MIN <= a + b <= INT64_MAX.
Proof. intros E. apply checked_Ok in E. rewrite in_int64_true in E. exact E. Qed.

Lemma mul_int64_Ok (a b v : Z) :
  mul_int64 a b = Ok v -> v = a * b /\ INT64_MIN <= a * b <= INT64_MAX.
Proof. intros E. apply checked_Ok in E. rewrite in_int64_true in E. exact E. Qed.

Lemma div_int64_Ok (a b v : Z) :
  div_int64 a b = Ok v -> b <> 0 /\ v = Z.quot a b.
Proof.
  unfold div_int64. destruct (Z.eqb_spec b 0) as [->|Hb]; [discriminate|].
  intros E. apply checked_Ok in E. tauto.
Qed.

Lemma div_int64_div0 (a b : Z) : div_int64 a b = Err DivisionByZero <-> b = 0.
Proof.
  unfold div_int64. destruct (Z.eqb_spec b 0) as [->|Hb]; [tauto|].
  split; [intros E; now apply checked_not_div0 in E|contradiction].
Qed.

Lemma quot_in_int64 (a b : Z) :
  INT64_MIN <= a <= INT64_MAX -> 0 < b -> INT64_MIN <= a ÷ b <= INT64_MAX.
Proof.
  intros Ha Hb. unfold INT64_MIN, INT64_MAX in *.
  destruct (Z.le_ge_cases 0 a) as [P0|N0].
  - rewrite Z.quot_div_nonneg by lia.
    pose proof (Z.div_pos a b P0 Hb). pose proof (Z.div_le_upper_bound a b a Hb).
    assert (a <= b * a) by nia. lia.
  - replace a with (- (- a)) by lia. rewrite Z.quot_opp_l by lia.
    rewrite Z.quot_div_nonneg by lia.
    assert (0 <= - a) as P0 by lia.
    pose proof (Z.div_pos (- a) b P0 Hb).
    pose proof (Z.div_le_upper_bound (- a) b (- a) Hb).
    assert (- a <= b * - a) by nia. lia.
Qed.

Lemma div_int64_fits (a b : Z) :
  INT64_MIN <= a <= INT64_MAX -> 0 < b -> div_int64 a b = Ok (Z.quot a b).
Proof.
  intros Ha Hb. unfold div_int64.
  destruct (Z.eqb_spec b 0) as [E|_]; [lia|].
  apply checked_fits. apply in_int64_true. apply quot_in_int64; assumption.
Qed.

(** ** Arrays *)

Lemma list_set_length (a : list Z) (n : nat) (v : Z) :
  length (list_set a n v) = length a.
Proof.
  revert n. induction a as [|x tl IH]; intros [|n]; simpl; auto.
Qed.

Lemma nth_error_list_set_same (a : list Z) (n : nat) (v : Z) :
  (n < length a)%nat -> nth_error (list_set a n v) n = Some v.
Proof.
  revert n. induction a as [|x tl IH]; intros [|n] Hn; simpl in *; try lia; auto.
  apply IH. lia.
Qed.

Lemma nth_error_list_set_other (a : list Z) (n m : nat) (v : Z) :
  n <> m -> nth_error (list_set a n v) m = nth_error a m.
Proof.
  revert n m. induction a as [|x tl IH]; intros [|n] [|m] Hnm; simpl; auto;
    congruence.
Qed.

Lemma list_set_twice (a : list Z) (n : nat) (v w : Z) :
  list_set (list_set a n v) n w = list_set a n w.
Proof.
  revert n. induction a as [|x tl IH]; intros [|n]; simpl; auto.
  now rewrite IH.
Qed.

Lemma array_get_Ok (a : list Z) (i v : Z) :
  array_get a i = Ok v -> 0 <= i < Z.of_nat (length a).
Proof.
  unfold array_get. destruct (Z.ltb_spec i 0); [discriminate|].
  destruct (nth_error a (Z.to_nat i)) eqn:E; [|discriminate].
  intros _. assert (Z.to_nat i < length a)%nat by (apply nth_error_Some; congruence).
  lia.
Qed.

Lemma array_get_in_range (a : list Z) (i : Z) :
  0 <= i < Z.of_nat (length a) -> exists v, array_get a i = Ok v.
Proof.
  intros Hi. unfold array_get. destruct (Z.ltb_spec i 0); [lia|].
  destruct (nth_error a (Z.to_nat i)) eqn:E; [eauto|].
  apply nth_error_None in E. lia.
Qed.

Lemma array_set_in_range (a : list Z) (i v : Z) :
  0 <= i < Z.of_nat (length a) -> array_set a i v = Ok (list_set a (Z.to_nat i) v).
Proof.
  intros Hi. unfold array_set.
  destruct (Z.ltb_spec i 0); [lia|]. destruct (Z.leb_spec (Z.of_nat (length a)) i); [lia|].
  reflexivity.
Qed.

Lemma array_get_set_same (a : list Z) (i v : Z) :
  0 <= i < Z.of_nat (length a) -> array_get (list_set a (Z.to_nat i) v) i = Ok v.
Proof.
  intros Hi. unfold array_get. destruct (Z.ltb_spec i 0); [lia|].
  rewrite nth_error_list_set_same by lia. reflexivity.
Qed.

Lemma array_get_set_other (a : list Z) (i j v : Z) :
  0 <= i -> i <> j -> array_get (list_set a (Z.to_nat i) v) j = array_get a j.
Proof.
  intros Hi Hij. unfold array_get. destruct (Z.ltb_spec j 0); [reflexivity|].
  rewrite nth_error_list_set_other by lia. reflexivity.
Qed.

(* ================================================================== *)
(** * The preset store *)

(** C5: in standby the effective setpoint is [STANDBY_TEMPERATURE] = 0;
    out of standby it is the array element [_temperatures[_selected]], the
    very read that [get_preset(get_selected())] makes, and a value of the
    array when the selection is one of the [PRESETS] presets.  This holds
    in every state of the store, reachable or not. *)
Theorem get_temperature_standby_or_selected (p : Preset.t) :
  (Preset.is_standby p = true -> Preset.get_temperature p = Ok 0) /\
  (Preset.is_standby p = false ->
   Preset.get_temperature p = Preset.get_preset (Preset.get_selected p) p) /\
  (Preset.is_standby p = false -> Preset.wf p ->
   0 <= Preset.get_selected p < Preset.PRESETS ->
   exists t, Preset.get_temperature p = Ok t /\
             nth_error (Preset._temperatures p) (Z.to_nat (Preset.get_selected p)) = Some t).
Proof.
  unfold Preset.is_standby, Preset.get_temperature, Preset.get_preset,
    Preset.get_selected, Preset.wf.
  split; [intros ->; reflexivity|]. split; [intros ->; reflexivity|].
  intros -> Hwf Hs. unfold array_get.
  destruct (Z.ltb_spec (Preset._selected p) 0); [lia|].
  destruct (nth_error (Preset._temperatures p) (Z.to_nat (Preset._selected p))) eqn:E.
  - eauto.
  - apply nth_error_None in E. lia.
Qed.

Lemma get_temperature_standby_or_selected_witness :
  Preset.get_temperature Preset.initial = Ok 0 /\
  Preset.get_temperature (Preset.select 1 Preset.initial) = Ok 250000.
Proof.
  split.
  - apply (proj1 (get_temperature_standby_or_selected Preset.initial)).
    reflexivity.
  - rewrite (proj1 (proj2 (get_temperature_standby_or_selected
                             (Preset.select 1 Preset.initial)))); reflexivity.
Defined.

(** C6 (the code does not do what the claim asks): the guard
    [(preset < 0) && (preset >= PRESETS)] of [select] and [edit_select]
    never holds, so every argument is stored, also one outside [0, 2):
    [select(2)] on the fresh store selects the absent preset 2 and leaves
    standby, [edit_select(2)] moves the edit cursor to it. *)
Theorem select_out_of_range_is_stored :
  (forall i p, Preset.select i p = p <| Preset._selected := i |> <| Preset._standby := false |>) /\
  (forall i p, Preset.edit_select i p = p <| Preset._edited := i |>) /\
  Preset.select 2 Preset.initial = Preset.mk [300000; 250000] 2 (-1) false /\
  Preset.edit_select 2 Preset.initial = Preset.mk [300000; 250000] 0 2 true /\
  Preset.select 2 Preset.initial <> Preset.initial /\
  Preset.edit_select 2 Preset.initial <> Preset.initial.
Proof.
  assert (G : forall i, (i <? 0) && (i >=? Preset.PRESETS) = false).
  { intros i. unfold Preset.PRESETS.
    destruct (Z.ltb_spec i 0); simpl; [|reflexivity].
    rewrite Z.geb_leb. apply Z.leb_gt. lia. }
  split; [|split; [|split; [|split; [|split]]]].
  - intros i p. unfold Preset.select. now rewrite G.
  - intros i p. unfold Preset.edit_select. now rewrite G.
  - reflexivity.
  - reflexivity.
  - discriminate.
  - discriminate.
Qed.

(** C7, as the claim states it, fails where [old + delta] leaves the range
    of [int]: the addition of [edit_add] then has no behaviour, and no
    final store holds the clamped sum 400000. *)
Lemma edit_roundtrip_overflow :
  Preset.edit_roundtrip 0 2147483647 Preset.initial = Err SignedOverflow /\
  ~ (exists p', Preset.edit_roundtrip 0 2147483647 Preset.initial = Ok p' /\
                Preset.get_preset 0 p' = Ok (Preset.clamp (300000 + 2147483647))).
Proof.
  split; [reflexivity|].
  intros [p' [E _]]. discriminate E.
Qed.

(** C7 (amended): for [i] in [0, PRESETS) and every [delta] whose sum with
    the old temperature is an [int], [edit_select(i); edit_add(delta);
    edit_end()] leaves [_temperatures[i]] equal to the sum clamped to
    [20000, 400000], no preset being edited, and every other preset, the
    selection and the standby flag as they were. *)
Theorem edit_roundtrip_clamps (p : Preset.t) (i delta old : Z) :
  Preset.wf p ->
  0 <= i < Preset.PRESETS ->
  Preset.get_preset i p = Ok old ->
  INT_MIN <= old + delta <= INT_MAX ->
  exists p', Preset.edit_roundtrip i delta p = Ok p' /\
    Preset.get_preset i p' = Ok (Preset.clamp (old + delta)) /\
    20000 <= Preset.clamp (old + delta) <= 400000 /\
    Preset.is_editing p' = false /\
    (forall j, j <> i -> Preset.get_preset j p' = Preset.get_preset j p) /\
    Preset.get_selected p' = Preset.get_selected p /\
    Preset.is_standby p' = Preset.is_standby p.
Proof.
  intros Hwf Hi Hold Hsum. unfold Preset.wf in Hwf.
  destruct p as [a sel ed sb]; simpl in Hwf.
  assert (Hr : 0 <= i < Z.of_nat (length a)) by lia.
  unfold Preset.edit_roundtrip, Preset.edit_select, Preset.edit_add.
  assert (G : (i <? 0) && (i >=? Preset.PRESETS) = false).
  { destruct (Z.ltb_spec i 0); [lia|reflexivity]. }
  rewrite G. cbn [Preset._edited Preset._temperatures set Preset.set_edited].
  assert (N : (i =? Preset.NO_EDIT) = false).
  { apply Z.eqb_neq. unfold Preset.NO_EDIT. lia. }
  rewrite N.
  unfold Preset.get_preset in Hold. simpl in Hold. rewrite Hold.
  cbn [bind]. unfold add_int. rewrite checked_fits by (now apply in_int_true).
  cbn [bind]. rewrite array_set_in_range by exact Hr.
  cbn [bind]. rewrite array_get_set_same by exact Hr. cbn [bind].
  set (s := old + delta) in *.
  assert (L1 : length (list_set a (Z.to_nat i) s) = length a)
    by apply list_set_length.
  unfold Preset.MIN_TEMPERATURE, Preset.MAX_TEMPERATURE.
  assert (C : 20000 <= Preset.clamp s <= 400000).
  { unfold Preset.clamp, Preset.MIN_TEMPERATURE, Preset.MAX_TEMPERATURE. lia. }
  assert (V : forall v, v = Preset.clamp s ->
            exists p', Ok (Preset.edit_end
                         (Preset.mk (list_set (list_set a (Z.to_nat i) s) (Z.to_nat i) v)
                            sel i sb)) = Ok p' /\
              Preset.get_preset i p' = Ok (Preset.clamp s) /\
              20000 <= Preset.clamp s <= 400000 /\
              Preset.is_editing p' = false /\
              (forall j, j <> i ->
                 Preset.get_preset j p' = Preset.get_preset j (Preset.mk a sel ed sb)) /\
              Preset.get_selected p' = sel /\ Preset.is_standby p' = sb).
  { intros v ->. eexists. split; [reflexivity|].
    unfold Preset.get_preset, Preset.edit_end, Preset.is_editing,
      Preset.get_selected, Preset.is_standby. simpl.
    split; [|split; [exact C|split; [reflexivity|split; [|split; reflexivity]]]].
    - apply array_get_set_same. rewrite L1. exact Hr.
    - intros j Hj. rewrite !array_get_set_other by lia. reflexivity. }
  destruct (Z.ltb_spec s (20 * 1000)) as [Hlo|Hlo].
  - (* below the minimum: the first [if] stores it, the second does nothing *)
    rewrite array_set_in_range by (rewrite L1; exact Hr). cbn [bind].
    rewrite array_get_set_same by (rewrite L1; exact Hr). cbn [bind].
    change (20 * 1000 >? 400 * 1000) with false. cbn [bind].
    apply V. unfold Preset.clamp, Preset.MIN_TEMPERATURE, Preset.MAX_TEMPERATURE. lia.
  - cbn [bind]. rewrite array_get_set_same by exact Hr. cbn [bind].
    destruct (Z.gtb_spec s (400 * 1000)) as [Hhi|Hhi].
    + (* above the maximum: the second [if] stores it *)
      rewrite array_set_in_range by (rewrite L1; exact Hr). cbn [bind].
      apply V. unfold Preset.clamp, Preset.MIN_TEMPERATURE, Preset.MAX_TEMPERATURE. lia.
    + (* within the limits: the sum stays *)
      cbn [bind].
      replace (list_set a (Z.to_nat i) s)
        with (list_set (list_set a (Z.to_nat i) s) (Z.to_nat i) s).
      * apply V. unfold Preset.clamp, Preset.MIN_TEMPERATURE, Preset.MAX_TEMPERATURE. lia.
      * apply list_set_twice.
Qed.

Lemma edit_roundtrip_clamps_witness :
  exists p', Preset.edit_roundtrip 0 1000000 Preset.initial = Ok p' /\
    Preset.get_preset 0 p' = Ok (Preset.clamp (300000 + 1000000)) /\
    20000 <= Preset.clamp (300000 + 1000000) <= 400000 /\
    Preset.is_editing p' = false /\
    (forall j, j <> 0 -> Preset.get_preset j p' = Preset.get_preset j Preset.initial) /\
    Preset.get_selected p' = Preset.get_selected Preset.initial /\
    Preset.is_standby p' = Preset.is_standby Preset.initial.
Proof.
  apply (edit_roundtrip_clamps Preset.initial 0 1000000 300000).
  - reflexivity.
  - unfold Preset.PRESETS. lia.
  - reflexivity.
  - unfold INT_MIN, INT_MAX. lia.
Defined.

(** In a well-formed store every preset in [0, PRESETS) can be read. *)
Lemma get_preset_in_range (p : Preset.t) (i : Z) :
  Preset.wf p -> 0 <= i < Preset.PRESETS -> exists old, Preset.get_preset i p = Ok old.
Proof.
  unfold Preset.wf, Preset.get_preset. intros Hwf Hi.
  apply array_get_in_range. lia.
Qed.

(* ================================================================== *)
(** * The heating cycle engine *)

(** Taking apart a hypothesis that says an operation has a behaviour. *)
Ltac ok_step :=
  match goal with
  | E : bind _ _ = Ok _ |- _ =>
      let a := fresh "v" in let Ea := fresh "E" in
      apply bind_Ok in E; destruct E as [a [Ea E]]
  | E : Ok _ = Ok _ |- _ => inversion E; subst; clear E
  | E : Err _ = Ok _ |- _ => discriminate E
  | E : add_int _ _ = Ok _ |- _ => apply add_int_Ok in E; destruct E as [? ?]; subst
  | E : sub_int _ _ = Ok _ |- _ => apply sub_int_Ok in E; destruct E as [? ?]; subst
  | E : mul_int _ _ = Ok _ |- _ => apply mul_int_Ok in E; destruct E as [? ?]; subst
  | E : div_int _ _ = Ok _ |- _ => apply div_int_Ok in E; destruct E as [? ?]; subst
  | E : add_int64 _ _ = Ok _ |- _ => apply add_int64_Ok in E; destruct E as [? ?]; subst
  | E : mul_int64 _ _ = Ok _ |- _ => apply mul_int64_Ok in E; destruct E as [? ?]; subst
  | E : (if ?c then _ else _) = Ok _ |- _ =>
      let C := fresh "C" in destruct c eqn:C
  | E : (let '(_, _) := ?x in _) = Ok _ |- _ =>
      let C := fresh "C" in destruct x eqn:C
  end.

(** Reading a field of an updated record. *)
Ltac fields :=
  cbn [set bind fst snd
    Preset.set_temperatures Preset.set_selected Preset.set_edited
    Preset.set_standby_flag Preset._temperatures Preset._selected
    Preset._edited Preset._standby
    board.heater board.adc_commands board.heater_on board.heater_off
    board.adc_measure_heat_start board.adc_measure_idle_start
    Station.engine Station.brd
    Heating.set_preset Heating._preset Heating.set_pid Heating._pid
    Heating.set_uptime_ticks Heating._uptime_ticks Heating.set_power_uwpt
    Heating._power_uwpt Heating.set_requested_power_uwpt
    Heating._requested_power_uwpt Heating.set_energy_uwt Heating._energy_uwt
    Heating.set_steady_ticks Heating._steady_ticks Heating.set_period_ticks
    Heating._period_ticks Heating.set_remaining_ticks Heating._remaining_ticks
    Heating.set_measure_ticks Heating._measure_ticks
    Heating.set_measurements_count Heating._measurements_count
    Heating.set_requested_power_mw Heating._requested_power_mw
    Heating.set_cpu_voltage_mv_heat Heating._cpu_voltage_mv_heat
    Heating.set_cpu_voltage_mv_idle Heating._cpu_voltage_mv_idle
    Heating.set_supply_voltage_mv_heat Heating._supply_voltage_mv_heat
    Heating.set_supply_voltage_mv_idle Heating._supply_voltage_mv_idle
    Heating.set_supply_voltage_mv_drop Heating._supply_voltage_mv_drop
    Heating.set_pen_current_ma_heat Heating._pen_current_ma_heat
    Heating.set_pen_current_ma_idle Heating._pen_current_ma_idle
    Heating.set_pen_resistance_mo Heating._pen_resistance_mo
    Heating.set_pen_temperature_mc Heating._pen_temperature_mc
    Heating.set_cpu_temperature_mc Heating._cpu_temperature_mc
    Heating.set_average_requested_power Heating._average_requested_power
    Heating.set_average_requested_power_short
    Heating._average_requested_power_short Heating.set_state Heating._state
    Heating.set_heating_element_status Heating._heating_element_status
    Heating.set_pen_sensor_status Heating._pen_sensor_status] in *.

Ltac ok_inv := fields; repeat (ok_step; fields).

(** Taking apart a hypothesis that says an operation divides by zero. *)
Ltac div0_step :=
  match goal with
  | E : bind _ _ = Err DivisionByZero |- _ =>
      let a := fresh "v" in let Ea := fresh "E" in
      apply bind_div0 in E; destruct E as [E | [a [Ea E]]]
  | E : Ok _ = Err _ |- _ => discriminate E
  | E : checked _ _ = Err DivisionByZero |- _ =>
      exfalso; exact (checked_not_div0 _ _ E)
  | E : add_int _ _ = Err DivisionByZero |- _ =>
      exfalso; exact (checked_not_div0 _ _ E)
  | E : sub_int _ _ = Err DivisionByZero |- _ =>
      exfalso; exact (checked_not_div0 _ _ E)
  | E : mul_int _ _ = Err DivisionByZero |- _ =>
      exfalso; exact (checked_not_div0 _ _ E)
  | E : add_int64 _ _ = Err DivisionByZero |- _ =>
      exfalso; exact (checked_not_div0 _ _ E)
  | E : mul_int64 _ _ = Err DivisionByZero |- _ =>
      exfalso; exact (checked_not_div0 _ _ E)
  | E : div_int _ _ = Err DivisionByZero |- _ => apply div_int_div0 in E
  | E : (if ?c then _ else _) = Err _ |- _ =>
      let C := fresh "C" in destruct c eqn:C
  end.

Ltac div0_inv := fields; repeat (first [div0_step | ok_step]; fields).

Section EngineFacts.

Context `{Clock} {P : Type} `{Pid.Controller P}.

Import Heating.

(** With the clock as [clock_ok] describes it the constants computed from
    [CORE_FREQ] are in the range of their types and positive. *)
Lemma clock_constants_fit :
  clock_ok ->
  INT_MIN <= PERIOD_TICKS <= INT_MAX /\ 0 < PERIOD_TICKS /\
  0 < Z.quot CORE_FREQ 1000 /\
  INT64_MIN <= (STABILIZE_TIME_MS + IDLE_MIN_TIME_MS) * CORE_FREQ <= INT64_MAX /\
  INT64_MIN <= STABILIZE_TIME_MS * CORE_FREQ <= INT64_MAX /\
  0 < _ms2ticks STABILIZE_TIME_MS <= _ms2ticks (STABILIZE_TIME_MS + IDLE_MIN_TIME_MS).
Proof.
  unfold clock_ok, PERIOD_TICKS, PERIOD_TIME_MS, _ms2ticks, STABILIZE_TIME_MS,
    IDLE_MIN_TIME_MS, INT_MIN, INT_MAX, INT64_MIN, INT64_MAX.
  intros C. cbn [Z.add Pos.add Pos.succ].
  Z.to_euclidean_division_equations. lia.
Qed.

Lemma heating_finish_Ok (h h' : Heating.t P) (b b' : board.t) :
  heating_finish h b = Ok (h', b') ->
  b' = board.heater_off b /\
  _state h' = State.STABILIZE /\
  _heating_element_status h' = heating_element_status_of (_pen_resistance_mo h') /\
  _energy_uwt h' = _energy_uwt h + _power_uwpt h /\
  INT64_MIN <= _energy_uwt h' <= INT64_MAX /\
  _measurements_count h' = _measurements_count h /\
  _measurements_count h <> 0 /\
  _preset h' = _preset h.
Proof.
  unfold heating_finish. intros E. ok_inv; repeat split; auto; lia.
Qed.


Lemma advance_ticks_Ok (delta : Z) (h h1 : Heating.t P) :
  advance_ticks delta h = Ok h1 ->
  h1 = h <| _uptime_ticks := to_uint64 (_uptime_ticks h + delta) |>
         <| _remaining_ticks := to_int (to_uint (to_uint (_remaining_ticks h) - delta)) |>
         <| _steady_ticks := _steady_ticks h + delta |> /\
  INT64_MIN <= _steady_ticks h + delta <= INT64_MAX.
Proof.
  unfold advance_ticks. intros E. ok_inv. split; [reflexivity|lia].
Qed.

Lemma advance_ticks_fits (delta : Z) (h : Heating.t P) :
  INT64_MIN <= _steady_ticks h + delta <= INT64_MAX ->
  exists h1, advance_ticks delta h = Ok h1.
Proof.
  intros F. unfold advance_ticks, add_int64. fields.
  rewrite checked_fits by (now apply in_int64_true). fields. eauto.
Qed.

(** What [process] does, state by state. *)
Lemma process_Ok (delta : Z) (adc : board.Adc) (h h' : Heating.t P)
  (b b' : board.t) (r : bool) :
  process delta adc h b = Ok (h', b', r) ->
  exists h1, advance_ticks delta h = Ok h1 /\ _state h1 = _state h /\
    match _state h with
    | State.STOP => _state_stop h1 = Ok h' /\ b' = b /\ r = false
    | State.START => _state_start h1 b = Ok (h', b') /\ r = true
    | State.HEATING => _state_heating delta adc h1 b = Ok (h', b') /\ r = true
    | State.STABILIZE => _state_stabilize delta h1 b = (h', b') /\ r = true
    | State.IDLE => _state_idle adc h1 b = Ok (h', b') /\ r = true
    end.
Proof.
  unfold process. intros E. apply bind_Ok in E. destruct E as [h1 [E1 E]].
  exists h1. split; [exact E1|].
  assert (S1 : _state h1 = _state h).
  { apply advance_ticks_Ok in E1. destruct E1 as [-> _]. reflexivity. }
  split; [exact S1|]. rewrite <- S1.
  destruct (_state h1).
  - apply bind_Ok in E. destruct E as [h2 [E2 E]]. inversion E; subst. auto.
  - apply bind_Ok in E. destruct E as [[h2 b2] [E2 E]]. inversion E; subst. auto.
  - apply bind_Ok in E. destruct E as [[h2 b2] [E2 E]]. inversion E; subst. auto.
  - destruct (_state_stabilize delta h1 b) as [h2 b2]. inversion E; subst. auto.
  - apply bind_Ok in E. destruct E as [[h2 b2] [E2 E]]. inversion E; subst. auto.
Qed.

Lemma heating_accumulate_Ok (adc : board.Adc) (h ha : Heating.t P) :
  heating_accumulate adc h = Ok ha ->
  _state ha = _state h /\
  _measurements_count ha = _measurements_count h + 1 /\
  _measurements_count ha <= INT_MAX /\
  _power_uwpt ha = _power_uwpt h
     + board.get_supply_voltage adc * board.get_pen_current adc * _measure_ticks h /\
  _energy_uwt ha = _energy_uwt h /\
  _preset ha = _preset h.
Proof.
  unfold heating_accumulate. intros E. ok_inv. repeat split; auto; lia.
Qed.

Lemma heating_stop_Ok (h : Heating.t P) (stop : bool) :
  heating_stop h = Ok stop ->
  _measurements_count h <> 0 /\
  (stop = true <->
   Z.quot (_pen_current_ma_heat h) (_measurements_count h) > PEN_MAX_CURRENT_MA \/
   _power_uwpt h > _requested_power_uwpt h \/
   _remaining_ticks h < _ms2ticks (STABILIZE_TIME_MS + IDLE_MIN_TIME_MS)).
Proof.
  unfold heating_stop. intros E. ok_inv. split; [assumption|].
  rewrite !orb_true_iff, !Z.gtb_gt, Z.ltb_lt. rewrite !Z.gt_lt_iff. tauto.
Qed.

(** What [_state_heating] does with a completed sample. *)
Lemma state_heating_done (delta : Z) (adc : board.Adc) (h h' : Heating.t P)
  (b b' : board.t) :
  board.measure_is_done adc = true ->
  _state_heating delta adc h b = Ok (h', b') ->
  exists ha stop,
    heating_accumulate adc (measure_ticks_add delta h) = Ok ha /\
    heating_stop ha = Ok stop /\
    (if stop then heating_finish ha b = Ok (h', b')
     else h' = ha /\ b' = board.adc_measure_heat_start b).
Proof.
  unfold _state_heating. intros D E. rewrite D in E. cbn [negb] in E.
  apply bind_Ok in E. destruct E as [ha [Ea E]].
  apply bind_Ok in E. destruct E as [stop [Es E]].
  exists ha, stop. split; [exact Ea|]. split; [exact Es|].
  destruct stop; [exact E|]. inversion E; subst. auto.
Qed.

(** C2: when a call of [process] ends the heat phase (HEATING to
    STABILIZE), the status of the heating element is the one of the
    resistance [pen_resistance_mo] computed in that call: SHORTED below
    500, LOW_RESISTANCE from 500 to 1499, OK from 1500 to 2500,
    HIGH_RESISTANCE from 2501 to 100000, BROKEN above 100000. *)
Theorem heating_element_status_after_heating
  (delta : Z) (adc : board.Adc) (h h' : Heating.t P) (b b' : board.t) (r : bool) :
  _state h = State.HEATING ->
  process delta adc h b = Ok (h', b', r) ->
  _state h' = State.STABILIZE ->
  let R := get_pen_resistance_mo h' in
  getHeatingElementStatus h' = heating_element_status_of R /\
  (R < 500 -> getHeatingElementStatus h' = HeatingElementStatus.SHORTED) /\
  (500 <= R < 1500 -> getHeatingElementStatus h' = HeatingElementStatus.LOW_RESISTANCE) /\
  (R > 100000 -> getHeatingElementStatus h' = HeatingElementStatus.BROKEN) /\
  (2500 < R <= 100000 -> getHeatingElementStatus h' = HeatingElementStatus.HIGH_RESISTANCE) /\
  (1500 <= R <= 2500 -> getHeatingElementStatus h' = HeatingElementStatus.OK) /\
  map heating_element_status_of [499; 500; 1499; 1500; 2500; 2501; 100000; 100001]
  = [HeatingElementStatus.SHORTED; HeatingElementStatus.LOW_RESISTANCE;
     HeatingElementStatus.LOW_RESISTANCE; HeatingElementStatus.OK;
     HeatingElementStatus.OK; HeatingElementStatus.HIGH_RESISTANCE;
     HeatingElementStatus.HIGH_RESISTANCE; HeatingElementStatus.BROKEN].
Proof.
  intros S E S' R.
  assert (St : getHeatingElementStatus h' = heating_element_status_of R).
  { apply process_Ok in E. destruct E as [h1 [E1 [S1 E]]]. rewrite S in E.
    destruct E as [E _]. unfold _state_heating in E.
    destruct (board.measure_is_done adc); cbn [negb] in E.
    - apply bind_Ok in E. destruct E as [ha [Ea E]].
      apply bind_Ok in E. destruct E as [stop [Es E]].
      apply heating_accumulate_Ok in Ea. destruct Ea as [Sa _].
      destruct stop.
      + apply heating_finish_Ok in E. unfold getHeatingElementStatus, R,
          get_pen_resistance_mo. tauto.
      + inversion E; subst. rewrite Sa in S'. unfold measure_ticks_add in S'.
        fields. congruence.
    - inversion E; subst. unfold measure_ticks_add in S'. fields. congruence. }
  rewrite St. unfold heating_element_status_of, PEN_RESISTANCE_SHORTED,
    PEN_RESISTANCE_MIN, PEN_RESISTANCE_MAX, PEN_RESISTANCE_BROKEN.
  split; [reflexivity|].
  repeat split; try reflexivity; intros HR;
    destruct (Z.ltb_spec R 500); try lia;
    destruct (Z.ltb_spec R 1500); try lia;
    destruct (Z.gtb_spec R 100000); try lia;
    destruct (Z.gtb_spec R 2500); try lia; reflexivity.
Qed.

(** C1 (amended): in the HEATING state, a call of [process] that finds the
    ADC sample completed ends the heat phase (heater off, STABILIZE) if and
    only if, after that sample is accumulated, the running average of the
    pen current exceeds 6000 mA, or [power_uwpt] is strictly greater than
    [requested_power_uwpt], or [remaining_ticks] is below the ticks of
    10 ms; otherwise it starts another heat-phase measurement and stays in
    HEATING with the heater as it was. *)
Theorem heating_ends_iff
  (delta : Z) (adc : board.Adc) (h h' : Heating.t P) (b b' : board.t) (r : bool) :
  _state h = State.HEATING ->
  board.measure_is_done adc = true ->
  process delta adc h b = Ok (h', b', r) ->
  exists ha, sampled delta adc h = Ok ha /\
    _measurements_count ha <> 0 /\
    let stop :=
      Z.quot (_pen_current_ma_heat ha) (_measurements_count ha) > PEN_MAX_CURRENT_MA \/
      _power_uwpt ha > _requested_power_uwpt ha \/
      _remaining_ticks ha < _ms2ticks (STABILIZE_TIME_MS + IDLE_MIN_TIME_MS) in
    (stop <-> _state h' = State.STABILIZE /\ board.heater b' = false) /\
    (~ stop -> _state h' = State.HEATING /\ b' = board.adc_measure_heat_start b /\
               board.heater b' = board.heater b).
Proof.
  intros S D E.
  apply process_Ok in E. destruct E as [h1 [E1 [S1 E]]]. rewrite S in E.
  destruct E as [E _].
  destruct (state_heating_done _ _ _ _ _ _ D E) as [ha [stop [Ea [Es K]]]].
  exists ha. split.
  { unfold sampled. rewrite E1. exact Ea. }
  pose proof (heating_accumulate_Ok _ _ _ Ea) as [Sa _].
  unfold measure_ticks_add in Sa. fields.
  apply heating_stop_Ok in Es. destruct Es as [Hn Hs].
  split; [exact Hn|]. cbv zeta.
  destruct stop.
  - apply heating_finish_Ok in K. destruct K as [-> [K _]].
    split; [|intros N; exfalso; apply N; apply Hs; reflexivity].
    split; [intros _; split; [exact K|reflexivity]|intros _; apply Hs; reflexivity].
  - destruct K as [-> ->].
    assert (N : ~ (Z.quot (_pen_current_ma_heat ha) (_measurements_count ha) > PEN_MAX_CURRENT_MA \/
                   _power_uwpt ha > _requested_power_uwpt ha \/
                   _remaining_ticks ha < _ms2ticks (STABILIZE_TIME_MS + IDLE_MIN_TIME_MS))).
    { intros C. apply Hs in C. discriminate C. }
    split.
    + split; [intros C; contradiction|].
      intros [K _]. rewrite Sa, S1, S in K. discriminate K.
    + intros _. split; [congruence|]. split; reflexivity.
Qed.

Lemma PenSensorStatus_eqb_eq (a b : PenSensorStatus.t) :
  PenSensorStatus.eqb a b = true <-> a = b.
Proof. destruct a, b; simpl; split; intros E; try reflexivity; discriminate E. Qed.

Lemma HeatingElementStatus_eqb_eq (a b : HeatingElementStatus.t) :
  HeatingElementStatus.eqb a b = true <-> a = b.
Proof. destruct a, b; simpl; split; intros E; try reflexivity; discriminate E. Qed.

(** What decides in [_state_stop]. *)
Lemma state_stop_spec (h h' : Heating.t P) :
  _state_stop h = Ok h' ->
  exists steady_ms, get_steady_ms h = Ok steady_ms /\
    let forced :=
      getPenSensorStatus h <> PenSensorStatus.OK \/
      getHeatingElementStatus h = HeatingElementStatus.SHORTED \/
      getHeatingElementStatus h = HeatingElementStatus.BROKEN \/
      steady_ms > STANDBY_TIME_MS in
    (forced -> h' = h <| _preset := Preset.set_standby (_preset h) |>) /\
    (~ forced -> h' = h).
Proof.
  unfold _state_stop. intros E.
  apply bind_Ok in E. destruct E as [ms [Em E]].
  exists ms. split; [exact Em|]. cbv zeta. inversion E; subst; clear E.
  destruct (PenSensorStatus.eqb (getPenSensorStatus h) PenSensorStatus.OK) eqn:E1;
  destruct (HeatingElementStatus.eqb (getHeatingElementStatus h)
              HeatingElementStatus.SHORTED) eqn:E2;
  destruct (HeatingElementStatus.eqb (getHeatingElementStatus h)
              HeatingElementStatus.BROKEN) eqn:E3;
  destruct (Z.gtb_spec ms STANDBY_TIME_MS) as [E4|E4];
  cbn [negb orb];
  try (split; [reflexivity | intros N; exfalso; apply N]).
  all: try apply PenSensorStatus_eqb_eq in E1.
  all: try apply HeatingElementStatus_eqb_eq in E2.
  all: try apply HeatingElementStatus_eqb_eq in E3.
  all: try (right; left; assumption).
  all: try (right; right; left; assumption).
  all: try (right; right; right; lia).
  all: try (left; intros K; rewrite <- PenSensorStatus_eqb_eq in K; congruence).
  split; [|reflexivity]. intros [K|[K|[K|K]]].
  - contradiction.
  - rewrite <- HeatingElementStatus_eqb_eq in K. congruence.
  - rewrite <- HeatingElementStatus_eqb_eq in K. congruence.
  - lia.
Qed.

(** [_state_stop] changes the preset only. *)
Lemma state_stop_preset (h h' : Heating.t P) :
  _state_stop h = Ok h' -> exists p, h' = h <| _preset := p |>.
Proof.
  unfold _state_stop. intros E.
  apply bind_Ok in E. destruct E as [ms [_ E]]. inversion E; subst; clear E.
  destruct (_ || _); [eauto|].
  exists (_preset h). destruct h; reflexivity.
Qed.

(** [get_steady_ms] has a value on a clock of at least 1 kHz, and divides
    by zero on a slower one. *)
Lemma get_steady_ms_defined (h : Heating.t P) :
  clock_ok -> INT64_MIN <= _steady_ticks h <= INT64_MAX ->
  get_steady_ms h = Ok (to_int (Z.quot (_steady_ticks h) (Z.quot CORE_FREQ 1000))).
Proof.
  intros C F. destruct (clock_constants_fit C) as [_ [_ [Q _]]].
  unfold get_steady_ms. rewrite (div_int64_fits _ _ F Q). reflexivity.
Qed.

Lemma get_steady_ms_div0 (h : Heating.t P) :
  get_steady_ms h = Err DivisionByZero <-> Z.quot CORE_FREQ 1000 = 0.
Proof.
  unfold get_steady_ms. rewrite <- (div_int64_div0 (_steady_ticks h)).
  destruct (div_int64 _ _) as [q|f]; cbn [bind]; [|tauto].
  split; intros E; discriminate E.
Qed.

Lemma state_stop_div0 (h : Heating.t P) :
  _state_stop h = Err DivisionByZero <-> Z.quot CORE_FREQ 1000 = 0.
Proof.
  rewrite <- (get_steady_ms_div0 h). unfold _state_stop. cbv zeta.
  destruct (get_steady_ms h) as [q|f]; cbn [bind].
  - split; intros E; discriminate E.
  - split; intros E; inversion E; reflexivity.
Qed.

(** C3: a call of [process] in the STOP state returns false, leaves the
    engine in STOP and the board alone, and puts the preset in standby when
    the pen sensor status is not OK, or the heating element is SHORTED or
    BROKEN, or [get_steady_ms()] (as the call itself reads it, after adding
    [delta_ticks], and as the caller reads it afterwards) exceeds 30000;
    when none of these holds the preset is as it was.  On a clock of at
    least 1 kHz the call has a behaviour whenever adding [delta_ticks] to
    the 64-bit [_steady_ticks] does not overflow; on a clock below 1 kHz
    the divisor [CORE_FREQ / 1000] of [get_steady_ms()] is 0 and the call
    divides by zero. *)
Theorem stop_forces_standby
  (delta : Z) (adc : board.Adc) (h : Heating.t P) (b : board.t) :
  _state h = State.STOP ->
  (clock_ok -> INT64_MIN <= _steady_ticks h + delta <= INT64_MAX ->
   exists h', process delta adc h b = Ok (h', b, false)) /\
  (forall h' b' r, process delta adc h b = Ok (h', b', r) ->
     r = false /\ b' = b /\ _state h' = State.STOP /\
     exists steady_ms,
       get_steady_ms h' = Ok steady_ms /\
       let forced :=
         getPenSensorStatus h <> PenSensorStatus.OK \/
         getHeatingElementStatus h = HeatingElementStatus.SHORTED \/
         getHeatingElementStatus h = HeatingElementStatus.BROKEN \/
         steady_ms > STANDBY_TIME_MS in
       (forced -> Preset.is_standby (get_preset h') = true /\
                  get_preset h' = Preset.set_standby (get_preset h)) /\
       (~ forced -> get_preset h' = get_preset h)) /\
  (Z.quot CORE_FREQ 1000 = 0 ->
   INT64_MIN <= _steady_ticks h + delta <= INT64_MAX ->
   process delta adc h b = Err DivisionByZero).
Proof.
  intros S. split; [|split].
  - intros C F. destruct (advance_ticks_fits delta h F) as [h1 E1].
    unfold process. rewrite E1. cbn [bind].
    apply advance_ticks_Ok in E1. destruct E1 as [E1 _].
    assert (A : _state h1 = _state h /\ _steady_ticks h1 = _steady_ticks h + delta).
    { rewrite E1. fields. auto. }
    destruct A as [A1 A2]. rewrite A1, S.
    assert (G : exists ms, get_steady_ms h1 = Ok ms).
    { eexists. apply get_steady_ms_defined; [exact C|]. rewrite A2. exact F. }
    destruct G as [ms G]. unfold _state_stop. rewrite G. cbn [bind]. eauto.
  - intros h' b' r E.
    apply process_Ok in E. destruct E as [h1 [E1 [S1 E]]]. rewrite S in E.
    destruct E as [E [-> ->]].
    apply advance_ticks_Ok in E1. destruct E1 as [E1 _].
    assert (A : getPenSensorStatus h1 = getPenSensorStatus h /\
                getHeatingElementStatus h1 = getHeatingElementStatus h /\
                _preset h1 = _preset h).
    { rewrite E1. unfold getPenSensorStatus, getHeatingElementStatus. fields. auto. }
    destruct A as [A1 [A2 A3]].
    destruct (state_stop_preset _ _ E) as [p Ep].
    destruct (state_stop_spec _ _ E) as [ms [G [Kf Kn]]].
    rewrite A1, A2 in Kf, Kn.
    assert (G' : get_steady_ms h' = get_steady_ms h1).
    { rewrite Ep. reflexivity. }
    assert (T : _state h' = State.STOP).
    { rewrite Ep. fields. congruence. }
    split; [reflexivity|]. split; [reflexivity|]. split; [exact T|].
    exists ms. split; [rewrite G'; exact G|].
    cbv zeta. unfold get_preset. split.
    + intros F. rewrite (Kf F). fields. rewrite A3. split; reflexivity.
    + intros N. rewrite (Kn N). exact A3.
  - intros Q F. destruct (advance_ticks_fits delta h F) as [h1 E1].
    unfold process. rewrite E1. cbn [bind].
    apply advance_ticks_Ok in E1. destruct E1 as [E1 _].
    assert (A : _state h1 = _state h) by (rewrite E1; reflexivity).
    rewrite A, S. rewrite (proj2 (state_stop_div0 h1) Q). reflexivity.
Qed.


(** ** What each handler does to the state, the heater, the counter of
       measurements and the energy *)

Lemma state_start_Ok (h h' : Heating.t P) (b b' : board.t) :
  _state_start h b = Ok (h', b') ->
  _measurements_count h' = 0 /\ _power_uwpt h' = 0 /\
  _energy_uwt h' = _energy_uwt h /\
  ((_state h' = State.IDLE /\ board.heater b' = board.heater b) \/
   (_state h' = State.HEATING /\ board.heater b' = true)).
Proof.
  unfold _state_start. intros E. ok_inv;
    try match goal with |- context [if ?c then _ else _] => destruct c end;
    fields; repeat split; auto.
Qed.

Lemma state_heating_Ok (delta : Z) (adc : board.Adc) (h h' : Heating.t P)
  (b b' : board.t) :
  _state_heating delta adc h b = Ok (h', b') ->
  (_state h' = _state h /\ board.heater b' = board.heater b /\
   _energy_uwt h' = _energy_uwt h /\
   (_measurements_count h' = _measurements_count h \/
    _measurements_count h' = _measurements_count h + 1) /\
   (_power_uwpt h' = _power_uwpt h \/
    (board.measure_is_done adc = true /\
     _power_uwpt h' = _power_uwpt h
       + board.get_supply_voltage adc * board.get_pen_current adc
         * _measure_ticks (measure_ticks_add delta h)))) \/
  (_state h' = State.STABILIZE /\ board.heater b' = false /\
   board.measure_is_done adc = true /\
   _measurements_count h' = _measurements_count h + 1 /\
   _energy_uwt h' = _energy_uwt h + (_power_uwpt h
       + board.get_supply_voltage adc * board.get_pen_current adc
         * _measure_ticks (measure_ticks_add delta h)) /\
   INT64_MIN <= _energy_uwt h' <= INT64_MAX).
Proof.
  intros E. destruct (board.measure_is_done adc) eqn:D.
  - destruct (state_heating_done _ _ _ _ _ _ D E) as [ha [stop [Ea [Es K]]]].
    apply heating_accumulate_Ok in Ea.
    destruct Ea as [Sa [Ca [_ [Pa [Ea _]]]]].
    unfold measure_ticks_add in Sa, Ca, Pa, Ea. fields.
    destruct stop.
    + right. apply heating_finish_Ok in K.
      destruct K as [-> [K1 [_ [K2 [K3 [K4 _]]]]]].
      repeat split; try tauto; try lia.
      unfold measure_ticks_add. fields. lia.
    + left. destruct K as [-> ->]. repeat split; auto.
  - left. unfold _state_heating in E. rewrite D in E. cbn [negb] in E.
    inversion E; subst. unfold measure_ticks_add. fields. repeat split; auto.
Qed.

Lemma state_stabilize_eq (delta : Z) (h h' : Heating.t P) (b b' : board.t) :
  _state_stabilize delta h b = (h', b') ->
  board.heater b' = board.heater b /\ _energy_uwt h' = _energy_uwt h /\
  ((_state h' = _state h /\ _measurements_count h' = _measurements_count h) \/
   (_state h' = State.IDLE /\ _measurements_count h' = 0)).
Proof.
  unfold _state_stabilize.
  destruct (_measure_ticks (measure_ticks_add delta h) <? _ms2ticks STABILIZE_TIME_MS);
    intros E; inversion E; subst; unfold measure_ticks_add; fields; auto.
Qed.

Lemma idle_accumulate_Ok (adc : board.Adc) (h ha : Heating.t P) :
  idle_accumulate adc h = Ok ha ->
  _state ha = _state h /\ _energy_uwt ha = _energy_uwt h /\
  _measurements_count ha = _measurements_count h + 1.
Proof.
  unfold idle_accumulate. intros E. ok_inv. auto.
Qed.

Lemma idle_finish_Ok (adc : board.Adc) (h h' : Heating.t P) :
  idle_finish adc h = Ok h' ->
  _state h' = State.STOP /\ _energy_uwt h' = _energy_uwt h /\
  _measurements_count h' = _measurements_count h /\
  _measurements_count h <> 0.
Proof.
  unfold idle_finish. intros E. ok_inv.
  destruct (board.is_pen_sensor_ok adc); fields; auto.
Qed.

Lemma state_idle_Ok (adc : board.Adc) (h h' : Heating.t P) (b b' : board.t) :
  _state_idle adc h b = Ok (h', b') ->
  board.heater b' = board.heater b /\ _energy_uwt h' = _energy_uwt h /\
  ((_state h' = _state h /\
    (_measurements_count h' = _measurements_count h \/
     _measurements_count h' = _measurements_count h + 1)) \/
   (_state h' = State.STOP /\
    _measurements_count h' = _measurements_count h + 1)).
Proof.
  unfold _state_idle. destruct (board.measure_is_done adc); cbn [negb]; intros E.
  - apply bind_Ok in E. destruct E as [ha [Ea E]].
    apply idle_accumulate_Ok in Ea. destruct Ea as [Sa [Ea Ca]].
    destruct (_remaining_ticks ha >? 0).
    + inversion E; subst. fields. rewrite Sa, Ea, Ca.
      split; [reflexivity|]. split; [reflexivity|]. left. split; [reflexivity|].
      right. reflexivity.
    + apply bind_Ok in E. destruct E as [hf [Ef E]]. inversion E; subst.
      apply idle_finish_Ok in Ef. destruct Ef as [Sf [Ef [Cf _]]].
      split; [reflexivity|]. split; [congruence|]. right. split; [exact Sf|lia].
  - inversion E; subst.
    split; [reflexivity|]. split; [reflexivity|]. left. split; [reflexivity|].
    left. reflexivity.
Qed.

Lemma start_Ok (h h' : Heating.t P) :
  start h = Ok h' ->
  _state h' = State.START /\ _energy_uwt h' = _energy_uwt h /\
  _measurements_count h' = _measurements_count h /\
  _power_uwpt h' = _power_uwpt h.
Proof.
  unfold start. intros E.
  apply bind_Ok in E. destruct E as [[pid power] [_ E]].
  apply bind_Ok in E. destruct E as [remaining [_ E]].
  inversion E; subst. fields. auto.
Qed.

Lemma state_stop_same (h h' : Heating.t P) :
  _state_stop h = Ok h' ->
  _state h' = _state h /\
  _energy_uwt h' = _energy_uwt h /\
  _measurements_count h' = _measurements_count h.
Proof.
  intros E. destruct (state_stop_preset _ _ E) as [p ->]. fields. auto.
Qed.

(** ** One event of a run *)

Import Station.

Lemma process_effect (delta : Z) (adc : board.Adc) (h h' : Heating.t P)
  (b b' : board.t) (r : bool) :
  process delta adc h b = Ok (h', b', r) ->
  match _state h with
  | State.STOP =>
      _state h' = State.STOP /\ board.heater b' = board.heater b /\
      _energy_uwt h' = _energy_uwt h
  | State.START =>
      _measurements_count h' = 0 /\ _power_uwpt h' = 0 /\
      _energy_uwt h' = _energy_uwt h /\
      ((_state h' = State.IDLE /\ board.heater b' = board.heater b) \/
       (_state h' = State.HEATING /\ board.heater b' = true))
  | State.HEATING =>
      (_state h' = State.HEATING /\ board.heater b' = board.heater b /\
       _energy_uwt h' = _energy_uwt h /\
       (_measurements_count h' = _measurements_count h \/
        _measurements_count h' = _measurements_count h + 1) /\
       (_power_uwpt h' = _power_uwpt h \/
        (board.measure_is_done adc = true /\
         _power_uwpt h' = _power_uwpt h
           + board.get_supply_voltage adc * board.get_pen_current adc
             * _measure_ticks (measure_ticks_add delta h)))) \/
      (_state h' = State.STABILIZE /\ board.heater b' = false /\
       board.measure_is_done adc = true /\
       _measurements_count h' = _measurements_count h + 1 /\
       _energy_uwt h' = _energy_uwt h + (_power_uwpt h
           + board.get_supply_voltage adc * board.get_pen_current adc
             * _measure_ticks (measure_ticks_add delta h)) /\
       INT64_MIN <= _energy_uwt h' <= INT64_MAX)
  | State.STABILIZE =>
      board.heater b' = board.heater b /\ _energy_uwt h' = _energy_uwt h /\
      ((_state h' = State.STABILIZE /\
        _measurements_count h' = _measurements_count h) \/
       (_state h' = State.IDLE /\ _measurements_count h' = 0))
  | State.IDLE =>
      board.heater b' = board.heater b /\ _energy_uwt h' = _energy_uwt h /\
      ((_state h' = State.IDLE /\
        (_measurements_count h' = _measurements_count h \/
         _measurements_count h' = _measurements_count h + 1)) \/
       (_state h' = State.STOP /\
        _measurements_count h' = _measurements_count h + 1))
  end.
Proof.
  intros E1. apply process_Ok in E1. destruct E1 as [h1 [E1 [S1 K]]].
  apply advance_ticks_Ok in E1. destruct E1 as [E1 _].
  assert (F : _energy_uwt h1 = _energy_uwt h /\
              _measurements_count h1 = _measurements_count h /\
              _power_uwpt h1 = _power_uwpt h /\
              _measure_ticks (measure_ticks_add delta h1)
              = _measure_ticks (measure_ticks_add delta h)).
  { rewrite E1. unfold measure_ticks_add. fields. auto. }
  destruct F as [F1 [F2 [F3 F4]]].
  destruct (_state h) eqn:S.
  - destruct K as [K [-> _]]. pose proof (state_stop_same _ _ K) as [T1 [T2 _]].
    rewrite T1, T2, S1, F1. auto.
  - destruct K as [K _]. apply state_start_Ok in K. rewrite F1 in K. exact K.
  - destruct K as [K _]. apply state_heating_Ok in K.
    rewrite S1, F1, F2, F3, F4 in K. exact K.
  - destruct K as [K _]. apply state_stabilize_eq in K.
    rewrite S1, F1, F2 in K. exact K.
  - destruct K as [K _]. apply state_idle_Ok in K.
    rewrite S1, F1, F2 in K. exact K.
Qed.

Lemma step_effect (ev : Event) (m m' : Station.t P) :
  step ev m = Ok m' ->
  match ev with
  | Start =>
      state m' = State.START /\ heater m' = heater m /\
      _energy_uwt (engine m') = _energy_uwt (engine m)
  | Ui _ =>
      state m' = state m /\ heater m' = heater m /\
      _energy_uwt (engine m') = _energy_uwt (engine m) /\
      _measurements_count (engine m') = _measurements_count (engine m) /\
      _power_uwpt (engine m') = _power_uwpt (engine m)
  | Process delta adc =>
      exists r, process delta adc (engine m) (brd m) = Ok (engine m', brd m', r)
  end.
Proof.
  intros E. destruct m as [h b].
  destruct ev as [|delta adc|c]; cbn [step] in *;
    unfold state, heater in *; fields.
  - apply bind_Ok in E. destruct E as [h' [E1 E]]. inversion E; subst. fields.
    apply start_Ok in E1. tauto.
  - apply bind_Ok in E. destruct E as [[[h' b'] r] [E1 E]]. inversion E; subst.
    fields. eauto.
  - apply bind_Ok in E. destruct E as [p [_ E]]. inversion E; subst. fields. auto.
Qed.

Lemma exec_invariant (allowed : Event -> Station.t P -> bool)
  (I : Station.t P -> Prop) :
  (forall ev m m', I m -> allowed ev m = true -> step ev m = Ok m' -> I m') ->
  forall evs m m', I m -> exec allowed evs m = Some m' -> I m'.
Proof.
  intros Hstep evs. induction evs as [|ev evs IH]; intros m m' Im E; simpl in E.
  - inversion E; subst. exact Im.
  - destruct (allowed ev m) eqn:A; [|discriminate E].
    destruct (step ev m) as [m1|f] eqn:S; [|discriminate E].
    apply (IH m1 m'); [|exact E]. exact (Hstep ev m m1 Im A S).
Qed.

Lemma step_heater_disciplined (ev : Event) (m m' : Station.t P) :
  heater_disciplined m -> uninterrupted ev m = true -> step ev m = Ok m' ->
  heater_disciplined m'.
Proof.
  intros I A E. pose proof (step_effect ev m m' E) as K.
  unfold heater_disciplined in *.
  destruct ev as [|delta adc|c].
  - destruct K as [S' [Hh _]]. intros _. rewrite Hh. apply I.
    unfold uninterrupted in A. destruct (state m); discriminate.
  - destruct K as [r K]. apply process_effect in K. unfold state, heater in *.
    destruct (_state (engine m)) eqn:S.
    + destruct K as [S' [Hh _]]. intros _. rewrite Hh. apply I. discriminate.
    + destruct K as [_ [_ [_ [[S' Hh]|[S' Hh]]]]]; intros N.
      * rewrite Hh. apply I. discriminate.
      * congruence.
    + destruct K as [[S' _]|[S' [Hh _]]]; intros N; [congruence|exact Hh].
    + destruct K as [Hh _]. intros _. rewrite Hh. apply I. discriminate.
    + destruct K as [Hh _]. intros _. rewrite Hh. apply I. discriminate.
  - destruct K as [S' [Hh _]]. rewrite S', Hh. exact I.
Qed.

Lemma step_counting (ev : Event) (m m' : Station.t P) :
  counting m -> step ev m = Ok m' -> counting m'.
Proof.
  intros I E. pose proof (step_effect ev m m' E) as K.
  unfold counting in *.
  destruct ev as [|delta adc|c].
  - destruct K as [S' _]. rewrite S'. intros [N|N]; discriminate N.
  - destruct K as [r K]. apply process_effect in K. unfold state, heater in *.
    destruct (_state (engine m)) eqn:S.
    + destruct K as [S' _]. rewrite S'. intros [N|N]; discriminate N.
    + destruct K as [C _]. intros _. rewrite C. lia.
    + assert (I0 : 0 <= _measurements_count (engine m)) by (apply I; auto).
      destruct K as [[_ [_ [_ [[C|C] _]]]]|[S' _]].
      * intros _. lia.
      * intros _. lia.
      * rewrite S'. intros [N|N]; discriminate N.
    + destruct K as [_ [_ [[S' _]|[_ C]]]].
      * rewrite S'. intros [N|N]; discriminate N.
      * intros _. lia.
    + assert (I0 : 0 <= _measurements_count (engine m)) by (apply I; auto).
      destruct K as [_ [_ [[_ [C|C]]|[S' _]]]].
      * intros _. lia.
      * intros _. lia.
      * rewrite S'. intros [N|N]; discriminate N.
  - destruct K as [S' [_ [_ [C _]]]]. rewrite S', C. exact I.
Qed.

Lemma initial_heater_disciplined : heater_disciplined (@Station.initial P _).
Proof. intros _. reflexivity. Qed.

Lemma initial_counting : counting (@Station.initial P _).
Proof. intros _. cbn. lia. Qed.

Lemma run_is_uninterrupted (evs : list Event) (m m' : Station.t P) :
  run evs m = Some m' -> run_uninterrupted evs m = Some m'.
Proof.
  unfold run, run_uninterrupted. revert m.
  induction evs as [|ev evs IH]; intros m E; simpl in *; [exact E|].
  destruct (well_typed ev); [|discriminate E]. cbn [andb] in *.
  assert (A : in_turn ev m = true -> uninterrupted ev m = true).
  { unfold in_turn, uninterrupted. destruct ev, (state m); auto. }
  destruct (in_turn ev m); [|discriminate E]. rewrite (A eq_refl).
  destruct (step ev m); [apply IH; exact E|discriminate E].
Qed.

(** C8 (amended): after any sequence of calls from power-up (heater off)
    in which [start()] is not called while the engine is in the HEATING
    state, as when the host calls it only after [process] has returned
    false, the heater is on in the HEATING state only: whenever the engine
    is in STABILIZE, IDLE or STOP (or in START) the heater is off.  The
    call of [process] that leaves HEATING goes to STABILIZE, and all it
    does to the board is to switch the heater off, which [heating_finish]
    does before it computes the averages, the resistance and the status. *)
Theorem heater_off_outside_heating (evs : list Event) (m : Station.t P) :
  run_uninterrupted evs Station.initial = Some m ->
  (state m = State.STABILIZE \/ state m = State.IDLE \/ state m = State.STOP \/
   state m = State.START -> heater m = false) /\
  (forall delta adc m',
     state m = State.HEATING ->
     step (Process delta adc) m = Ok m' ->
     state m' <> State.HEATING ->
     state m' = State.STABILIZE /\ heater m' = false /\
     brd m' = board.heater_off (brd m)).
Proof.
  intros R.
  assert (I : heater_disciplined m).
  { apply (exec_invariant (fun ev m => well_typed ev && uninterrupted ev m)
             heater_disciplined) with (evs := evs)
      (m := Station.initial); [|apply initial_heater_disciplined|exact R].
    intros ev m1 m2 I1 A E. apply andb_true_iff in A.
    exact (step_heater_disciplined ev m1 m2 I1 (proj2 A) E). }
  split.
  - intros S. apply I. destruct S as [S|[S|[S|S]]]; rewrite S; discriminate.
  - intros delta adc m' S E N.
    destruct m as [h b]. unfold state, heater in *. cbn [step] in E. fields.
    apply bind_Ok in E. destruct E as [[[h' b'] r] [E1 E]]. inversion E; subst.
    fields. apply process_Ok in E1. destruct E1 as [h1 [_ [S1 K]]].
    rewrite S in K. destruct K as [K _].
    unfold _state_heating in K.
    destruct (board.measure_is_done adc); cbn [negb] in K.
    + apply bind_Ok in K. destruct K as [ha [Ea K]].
      apply bind_Ok in K. destruct K as [stop [_ K]].
      apply heating_accumulate_Ok in Ea. destruct Ea as [Sa _].
      unfold measure_ticks_add in Sa. fields.
      destruct stop.
      * apply heating_finish_Ok in K. destruct K as [-> [K _]].
        split; [exact K|]. split; reflexivity.
      * inversion K; subst. exfalso. apply N. congruence.
    + inversion K; subst. exfalso. apply N.
      unfold measure_ticks_add. fields. congruence.
Qed.

(** ** Division by the counter of measurements *)

Lemma state_start_not_div0 (h : Heating.t P) (b : board.t) :
  _state_start h b <> Err DivisionByZero.
Proof.
  unfold _state_start. intros E. div0_inv; discriminate.
Qed.

Lemma heating_accumulate_not_div0 (adc : board.Adc) (h : Heating.t P) :
  heating_accumulate adc h <> Err DivisionByZero.
Proof.
  unfold heating_accumulate. intros E. div0_inv.
Qed.

Lemma heating_stop_div0 (h : Heating.t P) :
  heating_stop h = Err DivisionByZero -> _measurements_count h = 0.
Proof.
  unfold heating_stop. intros E. div0_inv. assumption.
Qed.

Lemma heating_finish_div0 (h : Heating.t P) (b : board.t) :
  heating_finish h b = Err DivisionByZero -> _measurements_count h = 0.
Proof.
  unfold heating_finish. intros E. div0_inv; try assumption;
    match goal with
    | C : (?x >? 10) = true, E0 : ?x = 0 |- _ => rewrite E0 in C; discriminate C
    end.
Qed.

Lemma idle_accumulate_not_div0 (adc : board.Adc) (h : Heating.t P) :
  idle_accumulate adc h <> Err DivisionByZero.
Proof.
  unfold idle_accumulate. intros E. div0_inv.
Qed.

Lemma idle_finish_div0 (adc : board.Adc) (h : Heating.t P) :
  idle_finish adc h = Err DivisionByZero -> _measurements_count h = 0.
Proof.
  unfold idle_finish. intros E. div0_inv; assumption.
Qed.

(** The only division by zero of [process] is the one by [CORE_FREQ / 1000]
    in the STOP state. *)
Lemma process_div0 (delta : Z) (adc : board.Adc) (h : Heating.t P) (b : board.t) :
  (_state h = State.HEATING \/ _state h = State.IDLE -> 0 <= _measurements_count h) ->
  process delta adc h b = Err DivisionByZero ->
  _state h = State.STOP /\ Z.quot CORE_FREQ 1000 = 0.
Proof.
  intros I E. unfold process in E.
  apply bind_div0 in E. destruct E as [E|[h1 [E1 E]]].
  { unfold advance_ticks in E. div0_inv. }
  apply advance_ticks_Ok in E1. destruct E1 as [E1 _].
  assert (F : _state h1 = _state h /\ _measurements_count h1 = _measurements_count h).
  { rewrite E1. fields. auto. }
  destruct F as [F1 F2]. rewrite F1 in E.
  destruct (_state h) eqn:S; [|exfalso..].
  - apply bind_div0 in E. destruct E as [E|[h2 [_ E]]]; [|discriminate E].
    apply state_stop_div0 in E. split; [reflexivity|exact E].
  - apply bind_div0 in E. destruct E as [E|[[h2 b2] [_ E]]]; [|discriminate E].
    now apply state_start_not_div0 in E.
  - assert (I0 : 0 <= _measurements_count h1) by (rewrite F2; auto).
    apply bind_div0 in E. destruct E as [E|[[h2 b2] [_ E]]]; [|discriminate E].
    unfold _state_heating in E. destruct (board.measure_is_done adc); cbn [negb] in E;
      [|discriminate E].
    apply bind_div0 in E. destruct E as [E|[ha [Ea E]]].
    { now apply heating_accumulate_not_div0 in E. }
    apply heating_accumulate_Ok in Ea. destruct Ea as [_ [Ca _]].
    unfold measure_ticks_add in Ca. fields.
    apply bind_div0 in E. destruct E as [E|[stop [_ E]]].
    { apply heating_stop_div0 in E. lia. }
    destruct stop; [|discriminate E]. apply heating_finish_div0 in E. lia.
  - destruct (_state_stabilize delta h1 b). discriminate E.
  - assert (I0 : 0 <= _measurements_count h1) by (rewrite F2; auto).
    apply bind_div0 in E. destruct E as [E|[[h2 b2] [_ E]]]; [|discriminate E].
    unfold _state_idle in E. destruct (board.measure_is_done adc); cbn [negb] in E;
      [|discriminate E].
    apply bind_div0 in E. destruct E as [E|[ha [Ea E]]].
    { now apply idle_accumulate_not_div0 in E. }
    apply idle_accumulate_Ok in Ea. destruct Ea as [_ [_ Ca]].
    destruct (_remaining_ticks ha >? 0); [discriminate E|].
    apply bind_div0 in E. destruct E as [E|[hf [_ E]]]; [|discriminate E].
    apply idle_finish_div0 in E. lia.
Qed.

(** C10: after any sequence of calls from power-up, a call that finalises
    the heat phase (HEATING to STABILIZE) or the idle phase (IDLE to STOP)
    has counted the sample it completes: [_measurements_count], the divisor
    of the averages and of the over-current check, is the previous count
    plus one and at least 1.  No division by [_measurements_count] is a
    division by zero: a call of [process] divides by zero only in STOP and
    only by the [CORE_FREQ / 1000] of [get_steady_ms()], which is 0 on a
    clock below 1 kHz, and never on a clock of at least 1 kHz. *)
Theorem measurements_count_positive (evs : list Event) (m : Station.t P) :
  run_any evs Station.initial = Some m ->
  forall delta adc,
    (process delta adc (engine m) (brd m) = Err DivisionByZero ->
     state m = State.STOP /\ Z.quot CORE_FREQ 1000 = 0) /\
    (clock_ok -> process delta adc (engine m) (brd m) <> Err DivisionByZero) /\
    (forall h' b' r,
       process delta adc (engine m) (brd m) = Ok (h', b', r) ->
       (state m = State.HEATING /\ _state h' = State.STABILIZE) \/
       (state m = State.IDLE /\ _state h' = State.STOP) ->
       _measurements_count h' = _measurements_count (engine m) + 1 /\
       1 <= _measurements_count h').
Proof.
  intros R delta adc.
  assert (I : counting m).
  { apply (exec_invariant (fun ev _ => well_typed ev) counting) with (evs := evs)
      (m := Station.initial); [|apply initial_counting|exact R].
    intros ev m1 m2 I1 _ E. exact (step_counting ev m1 m2 I1 E). }
  unfold counting, state in I. split; [|split].
  - intros E. exact (process_div0 _ _ _ _ I E).
  - intros C E. destruct (process_div0 _ _ _ _ I E) as [_ Q].
    destruct (clock_constants_fit C) as [_ [_ [Q0 _]]]. lia.
  - intros h' b' r E T. apply process_effect in E. unfold state in T.
    destruct T as [[S S']|[S S']]; rewrite S in E.
    + assert (I0 : 0 <= _measurements_count (engine m)) by (apply I; auto).
      destruct E as [[S2 _]|[_ [_ [_ [C0 _]]]]]; [congruence|]. lia.
    + assert (I0 : 0 <= _measurements_count (engine m)) by (apply I; auto).
      destruct E as [_ [_ [[S2 _]|[_ C0]]]]; [congruence|]. lia.
Qed.

(** ** The total energy *)

Lemma to_int_small (z : Z) : 0 <= z <= INT_MAX -> to_int z = z.
Proof.
  unfold INT_MAX, to_int. intros Hz.
  rewrite Z.mod_small by lia.
  destruct (Z.ltb_spec z (2 ^ 31)); [reflexivity|lia].
Qed.

(** With at least 1194 ticks per second the [int] that [get_energy_mwh]
    returns holds the quotient for every value of the 64-bit accumulator,
    and the getter is monotone. *)
Lemma get_energy_mwh_mono (h1 h2 : Heating.t P) :
  1194 <= CORE_FREQ ->
  0 <= _energy_uwt h1 ->
  _energy_uwt h1 <= _energy_uwt h2 ->
  _energy_uwt h2 <= INT64_MAX ->
  exists e1 e2,
    get_energy_mwh h1 = Ok e1 /\ get_energy_mwh h2 = Ok e2 /\ e1 <= e2.
Proof.
  intros F L1 L12 L2. unfold get_energy_mwh.
  rewrite !div_int64_fits by (unfold INT64_MIN, INT64_MAX in *; lia).
  cbn [bind]. eexists. eexists. split; [reflexivity|]. split; [reflexivity|].
  assert (B : forall e, 0 <= e <= INT64_MAX ->
            0 <= Z.quot (Z.quot (Z.quot e CORE_FREQ) 1000) 3600 <= INT_MAX).
  { intros e He. split.
    - repeat apply Z.quot_pos; lia.
    - transitivity (Z.quot (Z.quot (Z.quot INT64_MAX 1194) 1000) 3600);
        [|vm_compute; discriminate].
      apply Z.quot_le_mono; [lia|]. apply Z.quot_le_mono; [lia|].
      transitivity (Z.quot e 1194).
      + apply Z.quot_le_compat_l; lia.
      + apply Z.quot_le_mono; lia. }
  rewrite !to_int_small by (apply B; lia).
  apply Z.quot_le_mono; [lia|]. apply Z.quot_le_mono; [lia|].
  apply Z.quot_le_mono; lia.
Qed.

Lemma step_energy_supplied (ev : Event) (m m' : Station.t P) :
  energy_supplied m ->
  supplies_energy ev m = true ->
  step ev m = Ok m' ->
  energy_supplied m' /\ _energy_uwt (engine m) <= _energy_uwt (engine m').
Proof.
  intros [[I1 I2] I3] G E.
  pose proof (step_effect ev m m' E) as K. unfold energy_supplied.
  destruct ev as [|delta adc|c].
  - destruct K as [S' [_ Ee]]. rewrite S', Ee.
    repeat split; try lia. intros N; discriminate N.
  - destruct K as [r K]. apply process_effect in K.
    unfold supplies_energy in G. unfold state in *.
    destruct (_state (engine m)) eqn:S.
    + destruct K as [S' [_ Ee]]. rewrite S', Ee.
      repeat split; try lia. intros N; discriminate N.
    + destruct K as [_ [Pw [Ee _]]]. rewrite Pw, Ee. repeat split; lia.
    + assert (I0 : 0 <= _power_uwpt (engine m)) by (apply I3; reflexivity).
      assert (V : board.measure_is_done adc = true ->
                  0 <= board.get_supply_voltage adc * board.get_pen_current adc
                       * _measure_ticks (measure_ticks_add delta (engine m))).
      { intros D. rewrite D in G. cbn [negb orb] in G.
        apply andb_true_iff in G. destruct G as [G G3].
        apply andb_true_iff in G. destruct G as [G1 G2].
        apply Z.leb_le in G1, G2, G3.
        apply Z.mul_nonneg_nonneg; [apply Z.mul_nonneg_nonneg|]; assumption. }
      destruct K as [[S' [_ [Ee [_ Pw]]]]|[S' [_ [D [_ [Ee Er]]]]]].
      * rewrite Ee. split; [|lia]. split; [lia|]. intros _.
        destruct Pw as [Pw|[D Pw]]; rewrite Pw; [lia|]. specialize (V D). lia.
      * specialize (V D). rewrite S'. split; [|lia]. split; [lia|].
        intros N; discriminate N.
    + destruct K as [_ [Ee [[S' _]|[S' _]]]]; rewrite S', Ee;
        repeat split; try lia; intros N; discriminate N.
    + destruct K as [_ [Ee [[S' _]|[S' _]]]]; rewrite S', Ee;
        repeat split; try lia; intros N; discriminate N.
  - destruct K as [S' [_ [Ee [_ Pw]]]]. unfold state in *. rewrite S', Ee, Pw.
    repeat split; try lia. exact I3.
Qed.

Lemma run_supplying_energy (evs : list Event) (m m' : Station.t P) :
  energy_supplied m ->
  run_supplying evs m = Some m' ->
  energy_supplied m' /\ _energy_uwt (engine m) <= _energy_uwt (engine m').
Proof.
  unfold run_supplying. revert m.
  induction evs as [|ev evs IH]; intros m I E; simpl in E.
  - inversion E; subst. split; [exact I|lia].
  - destruct (well_typed ev && supplies_energy ev m) eqn:A; [|discriminate E].
    destruct (step ev m) as [m1|f] eqn:S; [|discriminate E].
    apply andb_true_iff in A.
    destruct (step_energy_supplied ev m m1 I (proj2 A) S) as [I1 L1].
    destruct (IH m1 I1 E) as [I' L']. split; [exact I'|lia].
Qed.

Lemma initial_energy_supplied : energy_supplied (@Station.initial P _).
Proof.
  split; [cbn; unfold INT64_MAX; lia|]. intros N; discriminate N.
Qed.

(** With a current sensor that is not reversed the total is monotone:
    after any sequence of calls from power-up in which every completed
    heat-phase sample reports a supply voltage and a pen current that are
    not negative and has a measurement length that is not negative in
    [_measure_ticks], and in which no operation overflows,
    [get_energy_mwh()] never decreases (on a clock of at least 1194 ticks
    per second, for which the [int] it returns holds the value). *)
Lemma energy_non_decreasing (evs evs' : list Event) (m m' : Station.t P) :
  1194 <= CORE_FREQ ->
  run_supplying evs Station.initial = Some m ->
  run_supplying evs' m = Some m' ->
  exists e e',
    get_energy_mwh (engine m) = Ok e /\ get_energy_mwh (engine m') = Ok e' /\
    e <= e'.
Proof.
  intros F R R'.
  destruct (run_supplying_energy evs _ _ initial_energy_supplied R) as [[[I1 I2] I3] _].
  destruct (run_supplying_energy evs' m m' (conj (conj I1 I2) I3) R') as [[[J1 J2] _] L].
  apply get_energy_mwh_mono; assumption.
Qed.

End EngineFacts.

(* ================================================================== *)
(** * The engine on the simulated clock *)

#[local] Existing Instance SimClock.

Lemma sim_clock_ok : clock_ok.
Proof. unfold clock_ok. cbn. lia. Qed.

Lemma warm_up_reaches_heating :
  Station.run Sim.warm_up Sim.station0 = Some Sim.heating0 /\
  Station.state Sim.heating0 = Heating.State.HEATING /\
  Station.heater Sim.heating0 = true /\
  Heating.get_requested_power_mw (Station.engine Sim.heating0) = 40000 /\
  Heating._requested_power_uwpt (Station.engine Sim.heating0) = 6000000000000 /\
  Heating._remaining_ticks (Station.engine Sim.heating0) = 148000.
Proof. vm_compute. repeat split. Qed.

(** C1, as the claim states it, fails when the accumulated energy equals
    the requested energy.  After [Sim.warm_up] and 99 samples of 1 ms at
    12 V and 5 A, the 100th sample brings [power_uwpt] to 6e12, which is
    [requested_power_uwpt]; the average current is 5000 mA and 48 ms
    remain.  The engine starts another measurement and stays in HEATING
    with the heater on. *)
Lemma heating_continues_at_requested_energy :
  Station.run (Sim.warm_up ++ Sim.each_ms Sim.strong 99) Sim.station0
  = Some Sim.nearly0 /\
  exists ha,
    Heating.sampled Sim.MS Sim.strong (Station.engine Sim.nearly0) = Ok ha /\
    Heating._power_uwpt ha = 6000000000000 /\
    Heating._requested_power_uwpt ha = 6000000000000 /\
    Heating._power_uwpt ha >= Heating._requested_power_uwpt ha /\
    Heating.process Sim.MS Sim.strong
      (Station.engine Sim.nearly0) (Station.brd Sim.nearly0)
    = Ok (ha, board.adc_measure_heat_start (Station.brd Sim.nearly0), true) /\
    Heating._state ha = Heating.State.HEATING /\
    board.heater (board.adc_measure_heat_start (Station.brd Sim.nearly0)) = true.
Proof.
  split; [vm_compute; reflexivity|].
  eexists. split; [vm_compute; reflexivity|].
  split; [reflexivity|]. split; [reflexivity|].
  split; [vm_compute; discriminate|].
  split; [vm_compute; reflexivity|].
  split; reflexivity.
Qed.

Lemma heating_ends_iff_witness :
  Heating._state (fst (fst (Sim.outcome Sim.MS Sim.nominal Sim.late0)))
  = Heating.State.STABILIZE /\
  board.heater (snd (fst (Sim.outcome Sim.MS Sim.nominal Sim.late0))) = false.
Proof.
  destruct (heating_ends_iff Sim.MS Sim.nominal (Station.engine Sim.late0)
              (fst (fst (Sim.outcome Sim.MS Sim.nominal Sim.late0)))
              (Station.brd Sim.late0)
              (snd (fst (Sim.outcome Sim.MS Sim.nominal Sim.late0)))
              (snd (Sim.outcome Sim.MS Sim.nominal Sim.late0)))
    as [ha [Hs [_ [Hiff _]]]].
  - reflexivity.
  - reflexivity.
  - vm_compute. reflexivity.
  - apply Hiff. right. right.
    vm_compute in Hs. inversion Hs. vm_compute. reflexivity.
Defined.

(** Scenario S1: 5 V and 3 A give 1666 mOhm, status OK. *)
Lemma heating_element_status_after_heating_witness :
  Heating.getHeatingElementStatus
    (fst (fst (Sim.outcome Sim.MS Sim.nominal Sim.late0)))
  = Heating.HeatingElementStatus.OK.
Proof.
  apply (heating_element_status_after_heating Sim.MS Sim.nominal
           (Station.engine Sim.late0)
           (fst (fst (Sim.outcome Sim.MS Sim.nominal Sim.late0)))
           (Station.brd Sim.late0)
           (snd (fst (Sim.outcome Sim.MS Sim.nominal Sim.late0)))
           (snd (Sim.outcome Sim.MS Sim.nominal Sim.late0))).
  - reflexivity.
  - vm_compute. reflexivity.
  - vm_compute. reflexivity.
  - vm_compute. split; discriminate.
Defined.

(** Scenario S4: the heater is found BROKEN (1e9 mOhm), and the next call
    of [process], in STOP, puts the selected preset in standby. *)
Lemma stop_forces_standby_witness :
  Heating.getHeatingElementStatus (Station.engine Sim.broken_stop)
  = Heating.HeatingElementStatus.BROKEN /\
  Preset.is_standby (Heating.get_preset (Station.engine Sim.broken_stop)) = false /\
  Preset.is_standby
    (Heating.get_preset (fst (fst (Sim.outcome Sim.MS Sim.weak Sim.broken_stop))))
  = true /\
  exists h', Heating.process Sim.MS Sim.weak (Station.engine Sim.broken_stop)
               (Station.brd Sim.broken_stop)
             = Ok (h', Station.brd Sim.broken_stop, false).
Proof.
  split; [reflexivity|]. split; [reflexivity|].
  assert (E : Heating.process Sim.MS Sim.weak (Station.engine Sim.broken_stop)
                (Station.brd Sim.broken_stop)
              = Ok (fst (fst (Sim.outcome Sim.MS Sim.weak Sim.broken_stop)),
                    snd (fst (Sim.outcome Sim.MS Sim.weak Sim.broken_stop)),
                    snd (Sim.outcome Sim.MS Sim.weak Sim.broken_stop)))
    by (vm_compute; reflexivity).
  assert (F : INT64_MIN <= Heating._steady_ticks (Station.engine Sim.broken_stop)
                           + Sim.MS <= INT64_MAX)
    by (vm_compute; split; discriminate).
  destruct (stop_forces_standby Sim.MS Sim.weak (Station.engine Sim.broken_stop)
              (Station.brd Sim.broken_stop) eq_refl) as [D [K _]].
  split; [|exact (D sim_clock_ok F)].
  destruct (K _ _ _ E) as [_ [_ [_ [ms [_ [Kf _]]]]]].
  apply Kf. right. right. left. reflexivity.
Defined.


(** C8, as the claim states it, fails when [start()] is called during the
    heat phase: after [Sim.warm_up] the engine is in HEATING with the
    heater on; [start()] puts it in START without touching the heater, the
    START handler finds nothing requested and goes to IDLE, and the heater
    is on in IDLE and still on in the STOP that ends the period. *)
Lemma heater_left_on_by_early_start :
  Station.run Sim.warm_up Sim.station0 = Some Sim.heating0 /\
  Station.state Sim.heating0 = Heating.State.HEATING /\
  Station.run_any Sim.early_start Sim.heating0 = Some Sim.restarted /\
  Station.state Sim.restarted = Heating.State.IDLE /\
  Station.heater Sim.restarted = true /\
  Station.run_any (Sim.each_ms Sim.idle 297) Sim.restarted = Some Sim.restarted_stop /\
  Station.state Sim.restarted_stop = Heating.State.STOP /\
  Station.heater Sim.restarted_stop = true.
Proof. vm_compute. repeat split. Qed.

(** Scenario S1 through its heat phase: the heater is on after 138 ms of
    heating, and the call that ends the phase switches it off. *)
Lemma heater_off_outside_heating_witness :
  Station.state Sim.late0 = Heating.State.HEATING /\
  Station.heater Sim.late0 = true /\
  Station.state Scene.heated_nominal = Heating.State.STABILIZE /\
  Station.heater Scene.heated_nominal = false /\
  Station.brd Scene.heated_nominal = board.heater_off (Station.brd Sim.late0).
Proof.
  assert (R : Station.run_uninterrupted (Sim.warm_up ++ Sim.each_ms Sim.nominal 138)
                Station.initial = Some Sim.late0)
    by (vm_compute; reflexivity).
  assert (R' : Station.run_uninterrupted (Sim.warm_up ++ Scene.heat_nominal)
                 Station.initial = Some Scene.heated_nominal)
    by (vm_compute; reflexivity).
  assert (St : Station.step (Station.Process Sim.MS Sim.nominal) Sim.late0
               = Ok Scene.heated_nominal)
    by (vm_compute; reflexivity).
  assert (N : Station.state Scene.heated_nominal <> Heating.State.HEATING)
    by (vm_compute; discriminate).
  split; [reflexivity|]. split; [reflexivity|].
  destruct (proj2 (heater_off_outside_heating
                     (Sim.warm_up ++ Sim.each_ms Sim.nominal 138) Sim.late0 R)
              Sim.MS Sim.nominal Scene.heated_nominal eq_refl St N)
    as [K1 [_ K3]].
  split; [exact K1|]. split; [|exact K3].
  apply (proj1 (heater_off_outside_heating (Sim.warm_up ++ Scene.heat_nominal)
                  Scene.heated_nominal R')).
  left. reflexivity.
Defined.

Lemma measurements_count_positive_witness :
  1 <= Heating._measurements_count
         (fst (fst (Sim.outcome Sim.MS Sim.nominal Sim.late0))) /\
  Heating.process Sim.MS Sim.nominal (Station.engine Sim.late0) (Station.brd Sim.late0)
  <> Err DivisionByZero.
Proof.
  assert (R : Station.run_any (Sim.warm_up ++ Sim.each_ms Sim.nominal 138)
                Station.initial = Some Sim.late0)
    by (vm_compute; reflexivity).
  assert (E : Heating.process Sim.MS Sim.nominal (Station.engine Sim.late0)
                (Station.brd Sim.late0)
              = Ok (fst (fst (Sim.outcome Sim.MS Sim.nominal Sim.late0)),
                    snd (fst (Sim.outcome Sim.MS Sim.nominal Sim.late0)),
                    snd (Sim.outcome Sim.MS Sim.nominal Sim.late0)))
    by (vm_compute; reflexivity).
  destruct (measurements_count_positive
              (Sim.warm_up ++ Sim.each_ms Sim.nominal 138) Sim.late0
              R Sim.MS Sim.nominal) as [_ [N K]].
  split; [|exact (N sim_clock_ok)].
  apply (K _ _ _ E). left. split; reflexivity.
Defined.

(** C9 (the code does not do what the claim asks): with a reversed
    current sensor, which line 388 provides for when it takes the absolute
    value of the pen current, the energy added at line 382 is the signed
    product of the readings.  After [Sim.warm_up] the total is 0 mWh; 139
    samples of 1 ms at 12 V and -3 A later the period is out of time, the
    heat phase ends with [power_uwpt] = -5.004e12 and a pen current
    reported as 3000 mA, and the total reads -1 mWh. *)
Theorem energy_decreases_with_reversed_current :
  Station.run Sim.warm_up Sim.station0 = Some Sim.heating0 /\
  Station.run (Sim.each_ms Sim.reversed 139) Sim.heating0 = Some Sim.drained /\
  Station.state Sim.drained = Heating.State.STABILIZE /\
  Heating.get_pen_current_ma_heat (Station.engine Sim.drained) = 3000 /\
  Heating._power_uwpt (Station.engine Sim.drained) = -5004000000000 /\
  Heating._energy_uwt (Station.engine Sim.drained) = -5004000000000 /\
  Heating.get_energy_mwh (Station.engine Sim.heating0) = Ok 0 /\
  Heating.get_energy_mwh (Station.engine Sim.drained) = Ok (-1).
Proof.
  vm_compute. repeat split.
Qed.

Lemma energy_non_decreasing_witness :
  exists e e',
    Heating.get_energy_mwh (Station.engine Sim.heating0) = Ok e /\
    Heating.get_energy_mwh (Station.engine Sim.heated) = Ok e' /\
    e <= e'.
Proof.
  assert (F : 1194 <= CORE_FREQ) by (vm_compute; discriminate).
  assert (R : Station.run_supplying Sim.warm_up Station.initial = Some Sim.heating0)
    by (vm_compute; reflexivity).
  assert (R' : Station.run_supplying (Sim.each_ms Sim.strong 101) Sim.heating0
               = Some Sim.heated)
    by (vm_compute; reflexivity).
  exact (energy_non_decreasing Sim.warm_up (Sim.each_ms Sim.strong 101)
           Sim.heating0 Sim.heated F R R').
Defined.

(** On a clock of 500 Hz the first call of [process], in STOP, divides by
    zero in [get_steady_ms()]. *)
Example process_on_slow_clock :
  @Heating.get_steady_ms SlowClock SpecPid.t (Station.engine Sim.station0)
  = Err DivisionByZero /\
  @Heating.process SlowClock SpecPid.t Sim.MS Sim.idle
    (Station.engine Sim.station0) (Station.brd Sim.station0)
  = Err DivisionByZero.
Proof. split; reflexivity. Qed.

Example energy_after_heating :
  Heating._energy_uwt (Station.engine Sim.heated) = 6060000000000 /\
  Heating.get_energy_mwh (Station.engine Sim.heated) = Ok 1.
Proof. split; reflexivity. Qed.

(* ================================================================== *)
(** * More of the preset store *)

(** What [edit_add] does when it has a behaviour. *)
Lemma edit_add_Ok (val : Z) (p p' : Preset.t) :
  Preset.edit_add val p = Ok p' ->
  (Preset._edited p = Preset.NO_EDIT /\ p' = p) \/
  (Preset._edited p <> Preset.NO_EDIT /\
   exists old,
     array_get (Preset._temperatures p) (Preset._edited p) = Ok old /\
     INT_MIN <= old + val <= INT_MAX /\
     p' = p <| Preset._temperatures :=
                 list_set (Preset._temperatures p) (Z.to_nat (Preset._edited p))
                   (Preset.clamp (old + val)) |>).
Proof.
  unfold Preset.edit_add.
  destruct (Z.eqb_spec (Preset._edited p) Preset.NO_EDIT) as [E|E].
  { intros K. inversion K; subst. left. auto. }
  intros K. right. split; [exact E|].
  apply bind_Ok in K. destruct K as [old [Hold K]]. exists old.
  split; [exact Hold|].
  pose proof (array_get_Ok _ _ _ Hold) as Hr.
  apply bind_Ok in K. destruct K as [t1 [H1 K]].
  apply add_int_Ok in H1. destruct H1 as [-> Hsum]. split; [exact Hsum|].
  set (a := Preset._temperatures p) in *. set (e := Preset._edited p) in *.
  set (s := old + val) in *.
  assert (L1 : length (list_set a (Z.to_nat e) s) = length a)
    by apply list_set_length.
  rewrite array_set_in_range in K by exact Hr. cbn [bind] in K.
  rewrite array_get_set_same in K by exact Hr. cbn [bind] in K.
  unfold Preset.MIN_TEMPERATURE, Preset.MAX_TEMPERATURE in K.
  destruct (Z.ltb_spec s (20 * 1000)) as [Hlo|Hlo].
  - rewrite array_set_in_range in K by (rewrite L1; exact Hr). cbn [bind] in K.
    rewrite array_get_set_same in K by (rewrite L1; exact Hr). cbn [bind] in K.
    change (20 * 1000 >? 400 * 1000) with false in K. cbn [bind] in K.
    inversion K; subst. rewrite list_set_twice. do 2 f_equal.
    unfold Preset.clamp, Preset.MIN_TEMPERATURE, Preset.MAX_TEMPERATURE. lia.
  - cbn [bind] in K. rewrite array_get_set_same in K by exact Hr. cbn [bind] in K.
    destruct (Z.gtb_spec s (400 * 1000)) as [Hhi|Hhi].
    + rewrite array_set_in_range in K by (rewrite L1; exact Hr). cbn [bind] in K.
      inversion K; subst. rewrite list_set_twice. do 2 f_equal.
      unfold Preset.clamp, Preset.MIN_TEMPERATURE, Preset.MAX_TEMPERATURE. lia.
    + cbn [bind] in K. inversion K; subst. do 2 f_equal.
      unfold Preset.clamp, Preset.MIN_TEMPERATURE, Preset.MAX_TEMPERATURE. lia.
Qed.

Lemma Forall_list_set (Q : Z -> Prop) (a : list Z) (n : nat) (v : Z) :
  Forall Q a -> Q v -> Forall Q (list_set a n v).
Proof.
  intros Ha Hv. revert n. induction Ha as [|x tl Hx Htl IH]; intros [|n]; simpl;
    constructor; auto.
Qed.

Lemma list_set_same (a : list Z) (n : nat) (v : Z) :
  nth_error a n = Some v -> list_set a n v = a.
Proof.
  revert n. induction a as [|x tl IH]; intros [|n] E; simpl in *;
    try discriminate E.
  - inversion E; subst. reflexivity.
  - f_equal. apply IH. exact E.
Qed.

Lemma array_get_nth (a : list Z) (i v : Z) :
  array_get a i = Ok v -> nth_error a (Z.to_nat i) = Some v.
Proof.
  unfold array_get. destruct (i <? 0); [discriminate|].
  destruct (nth_error a (Z.to_nat i)); intros E; inversion E; reflexivity.
Qed.

Lemma array_get_outside (a : list Z) (i : Z) :
  ~ 0 <= i < Z.of_nat (length a) -> array_get a i = Err OutOfBounds.
Proof.
  intros Hi. unfold array_get. destruct (Z.ltb_spec i 0); [reflexivity|].
  destruct (nth_error a (Z.to_nat i)) eqn:E; [|reflexivity].
  assert (Z.to_nat i < length a)%nat by (apply nth_error_Some; congruence). lia.
Qed.

Lemma call_keeps_limits (c : Preset.Call) (p p' : Preset.t) :
  PresetUse.in_limits p -> Preset.call c p = Ok p' -> PresetUse.in_limits p'.
Proof.
  intros [Hwf Hall] E. unfold PresetUse.in_limits, Preset.wf in *.
  destruct c as [i| |i| |v]; simpl in E.
  - inversion E; subst. unfold Preset.select.
    destruct (_ && _); simpl; auto.
  - inversion E; subst. simpl. auto.
  - inversion E; subst. unfold Preset.edit_select.
    destruct (_ && _); simpl; auto.
  - inversion E; subst. simpl. auto.
  - apply edit_add_Ok in E. destruct E as [[_ ->]|[_ [old [_ [_ ->]]]]]; [auto|].
    simpl. rewrite list_set_length. split; [exact Hwf|].
    apply Forall_list_set; [exact Hall|].
    unfold Preset.clamp, Preset.MIN_TEMPERATURE, Preset.MAX_TEMPERATURE. lia.
Qed.

(** X1: whatever the user interface calls, in whatever order and with
    whatever arguments, as long as the calls have a behaviour both presets
    stay within [20000, 400000], and the temperature the store hands to
    the engine is 0 or within these limits. *)
Theorem presets_stay_in_limits (cs : list Preset.Call) (p' : Preset.t) :
  PresetUse.calls cs Preset.initial = Ok p' ->
  PresetUse.in_limits p' /\
  (forall i t, Preset.get_preset i p' = Ok t -> 20000 <= t <= 400000) /\
  (forall t, Preset.get_temperature p' = Ok t -> t = 0 \/ 20000 <= t <= 400000).
Proof.
  intros E.
  assert (I : PresetUse.in_limits p').
  { assert (I0 : PresetUse.in_limits Preset.initial).
    { split; [reflexivity|]. unfold Preset.initial, Preset.MIN_TEMPERATURE,
        Preset.MAX_TEMPERATURE. simpl. repeat constructor; lia. }
    revert E I0. generalize Preset.initial as p. revert p'.
    induction cs as [|c cs IH]; intros p' p E I0; simpl in E.
    - inversion E; subst. exact I0.
    - apply bind_Ok in E. destruct E as [p1 [E1 E]].
      apply (IH p' p1 E). exact (call_keeps_limits c p p1 I0 E1). }
  split; [exact I|].
  assert (G : forall i t, Preset.get_preset i p' = Ok t -> 20000 <= t <= 400000).
  { intros i t Ht. destruct I as [_ Hall]. unfold Preset.get_preset in Ht.
    apply array_get_nth in Ht. apply nth_error_In in Ht.
    rewrite Forall_forall in Hall. apply (Hall t Ht). }
  split; [exact G|].
  intros t Ht. unfold Preset.get_temperature in Ht.
  destruct (Preset._standby p').
  - inversion Ht. left. reflexivity.
  - right. apply (G (Preset._selected p') t). exact Ht.
Qed.

Lemma presets_stay_in_limits_witness :
  PresetUse.in_limits (Preset.mk [400000; 20000] 1 (-1) false).
Proof.
  apply (presets_stay_in_limits
           [Preset.EditSelect 0; Preset.EditAdd 1000000; Preset.EditSelect 1;
            Preset.EditAdd (-1000000); Preset.EditEnd; Preset.Select 1]).
  reflexivity.
Defined.

(** X2: [edit_add] touches nothing but the preset under the edit cursor:
    the selection, the cursor, the standby flag and every other preset are
    as they were; and without a preset under the cursor (after
    [edit_end]) it does nothing, whatever its argument. *)
Theorem edit_add_frame (val : Z) (p p' : Preset.t) :
  Preset.edit_add val p = Ok p' ->
  Preset.get_selected p' = Preset.get_selected p /\
  Preset.get_edited p' = Preset.get_edited p /\
  Preset.is_standby p' = Preset.is_standby p /\
  (forall j, j <> Preset.get_edited p -> Preset.get_preset j p' = Preset.get_preset j p) /\
  (Preset.is_editing p = false -> p' = p) /\
  Preset.edit_add val (Preset.edit_end p) = Ok (Preset.edit_end p).
Proof.
  intros E. apply edit_add_Ok in E.
  assert (N : Preset.edit_add val (Preset.edit_end p) = Ok (Preset.edit_end p))
    by reflexivity.
  unfold Preset.get_selected, Preset.get_edited, Preset.is_standby,
    Preset.get_preset, Preset.is_editing.
  destruct E as [[E ->]|[E [old [Hold [_ ->]]]]].
  - repeat split; auto.
  - simpl. repeat split; auto.
    + intros j Hj. apply array_get_set_other; [|congruence].
      apply array_get_Ok in Hold. lia.
    + intros K. apply negb_false_iff, Z.eqb_eq in K. contradiction.
Qed.

Lemma edit_add_frame_witness :
  Preset.get_preset 1 (Preset.mk [300100; 250000] 0 0 true) = Ok 250000.
Proof.
  rewrite (proj1 (proj2 (proj2 (proj2
            (edit_add_frame 100 (Preset.edit_select 0 Preset.initial)
               (Preset.mk [300100; 250000] 0 0 true) eq_refl)))) 1).
  - reflexivity.
  - discriminate.
Defined.

Lemma select_guard_false (i : Z) :
  (i <? 0) && (i >=? Preset.PRESETS) = false.
Proof.
  unfold Preset.PRESETS.
  destruct (Z.ltb_spec i 0); simpl; [|reflexivity].
  rewrite Z.geb_leb. apply Z.leb_gt. lia.
Qed.

(** X3: an argument outside [0, 2) that [select] or [edit_select] has
    stored makes the next array access leave the array: after [select(i)]
    the engine's [get_temperature()] has no behaviour, after
    [edit_select(i)] with [i] other than -1 [edit_add] has none;
    [edit_select(-1)] is [edit_end()]. *)
Theorem out_of_range_preset_is_accessed (i val : Z) (p : Preset.t) :
  Preset.wf p ->
  ~ 0 <= i < Preset.PRESETS ->
  Preset.get_temperature (Preset.select i p) = Err OutOfBounds /\
  (i <> Preset.NO_EDIT -> Preset.edit_add val (Preset.edit_select i p) = Err OutOfBounds) /\
  Preset.edit_select Preset.NO_EDIT p = Preset.edit_end p.
Proof.
  intros Hwf Hi. unfold Preset.wf in Hwf.
  pose proof (select_guard_false i) as G.
  split; [|split].
  - unfold Preset.select. rewrite G. unfold Preset.get_temperature. simpl.
    apply array_get_outside. lia.
  - intros N. unfold Preset.edit_select. rewrite G. unfold Preset.edit_add. simpl.
    destruct (Z.eqb_spec i Preset.NO_EDIT); [contradiction|].
    rewrite array_get_outside by lia. reflexivity.
  - reflexivity.
Qed.

Lemma out_of_range_preset_is_accessed_witness :
  Preset.get_temperature (Preset.select 2 Preset.initial) = Err OutOfBounds.
Proof.
  apply (out_of_range_preset_is_accessed 2 0 Preset.initial).
  - reflexivity.
  - unfold Preset.PRESETS. lia.
Defined.

(** When the sum is an [int], [edit_add] stores it clamped. *)
Lemma edit_add_defined (val old : Z) (p : Preset.t) :
  array_get (Preset._temperatures p) (Preset._edited p) = Ok old ->
  INT_MIN <= old + val <= INT_MAX ->
  Preset.edit_add val p
  = Ok (p <| Preset._temperatures :=
               list_set (Preset._temperatures p) (Z.to_nat (Preset._edited p))
                 (Preset.clamp (old + val)) |>).
Proof.
  intros Hold Hsum. pose proof (array_get_Ok _ _ _ Hold) as Hr.
  unfold Preset.edit_add.
  destruct (Z.eqb_spec (Preset._edited p) Preset.NO_EDIT) as [E|E].
  { unfold Preset.NO_EDIT in E. lia. }
  rewrite Hold. cbn [bind]. unfold add_int.
  rewrite checked_fits by (now apply in_int_true). cbn [bind].
  set (a := Preset._temperatures p) in *. set (e := Preset._edited p) in *.
  set (s := old + val) in *.
  assert (L1 : length (list_set a (Z.to_nat e) s) = length a)
    by apply list_set_length.
  rewrite array_set_in_range by exact Hr. cbn [bind].
  rewrite array_get_set_same by exact Hr. cbn [bind].
  unfold Preset.MIN_TEMPERATURE, Preset.MAX_TEMPERATURE.
  destruct (Z.ltb_spec s (20 * 1000)) as [Hlo|Hlo].
  - rewrite array_set_in_range by (rewrite L1; exact Hr). cbn [bind].
    rewrite array_get_set_same by (rewrite L1; exact Hr). cbn [bind].
    change (20 * 1000 >? 400 * 1000) with false. cbn [bind].
    rewrite list_set_twice. do 3 f_equal.
    unfold Preset.clamp, Preset.MIN_TEMPERATURE, Preset.MAX_TEMPERATURE. lia.
  - cbn [bind]. rewrite array_get_set_same by exact Hr. cbn [bind].
    destruct (Z.gtb_spec s (400 * 1000)) as [Hhi|Hhi].
    + rewrite array_set_in_range by (rewrite L1; exact Hr). cbn [bind].
      rewrite list_set_twice. do 3 f_equal.
      unfold Preset.clamp, Preset.MIN_TEMPERATURE, Preset.MAX_TEMPERATURE. lia.
    + cbn [bind]. do 3 f_equal.
      unfold Preset.clamp, Preset.MIN_TEMPERATURE, Preset.MAX_TEMPERATURE. lia.
Qed.

(** X4: as long as the clamp does not act, adding [delta] and then
    [-delta] to the edited preset gives the store back; when it acts the
    way back starts from the limit. *)
Theorem edit_add_round_trip (delta old : Z) (p : Preset.t) :
  Preset.get_preset (Preset.get_edited p) p = Ok old ->
  20000 <= old <= 400000 ->
  INT_MIN <= old + delta <= INT_MAX ->
  (20000 <= old + delta <= 400000 ->
   bind (Preset.edit_add delta p) (Preset.edit_add (- delta)) = Ok p) /\
  (400000 < old + delta -> INT_MIN <= 400000 - delta ->
   bind (bind (Preset.edit_add delta p) (Preset.edit_add (- delta)))
     (Preset.get_preset (Preset.get_edited p))
   = Ok (Z.max 20000 (400000 - delta))).
Proof.
  unfold Preset.get_preset, Preset.get_edited. intros Hold Hr Hsum.
  pose proof (array_get_Ok _ _ _ Hold) as Hi.
  rewrite (edit_add_defined delta old p Hold Hsum). cbn [bind].
  set (c := Preset.clamp (old + delta)).
  assert (Hc : array_get
                 (Preset._temperatures
                    (p <| Preset._temperatures :=
                            list_set (Preset._temperatures p)
                              (Z.to_nat (Preset._edited p)) c |>))
                 (Preset._edited
                    (p <| Preset._temperatures :=
                            list_set (Preset._temperatures p)
                              (Z.to_nat (Preset._edited p)) c |>)) = Ok c).
  { simpl. apply array_get_set_same. exact Hi. }
  assert (Cb : 20000 <= c <= 400000).
  { unfold c, Preset.clamp, Preset.MIN_TEMPERATURE, Preset.MAX_TEMPERATURE. lia. }
  split.
  - intros Hin.
    assert (Hs : INT_MIN <= c + - delta <= INT_MAX).
    { unfold c, Preset.clamp, Preset.MIN_TEMPERATURE, Preset.MAX_TEMPERATURE,
        INT_MIN, INT_MAX in *. lia. }
    rewrite (edit_add_defined (- delta) c _ Hc Hs). simpl.
    rewrite list_set_twice. f_equal.
    replace (Preset.clamp (c + - delta)) with old.
    + rewrite list_set_same by (apply array_get_nth; exact Hold).
      destruct p; reflexivity.
    + unfold c, Preset.clamp, Preset.MIN_TEMPERATURE, Preset.MAX_TEMPERATURE. lia.
  - intros Hhi Hlo.
    assert (Hs2 : INT_MIN <= c + - delta <= INT_MAX).
    { unfold c, Preset.clamp, Preset.MIN_TEMPERATURE, Preset.MAX_TEMPERATURE,
        INT_MIN, INT_MAX in *. lia. }
    rewrite (edit_add_defined (- delta) c _ Hc Hs2). fields.
    rewrite list_set_twice. rewrite array_get_set_same by exact Hi. f_equal.
    unfold c, Preset.clamp, Preset.MIN_TEMPERATURE, Preset.MAX_TEMPERATURE. lia.
Qed.

Lemma edit_add_round_trip_witness :
  bind (Preset.edit_add 5000 (Preset.edit_select 0 Preset.initial))
    (Preset.edit_add (- 5000))
  = Ok (Preset.edit_select 0 Preset.initial).
Proof.
  apply (proj1 (edit_add_round_trip 5000 300000 (Preset.edit_select 0 Preset.initial)
                  eq_refl ltac:(lia) ltac:(unfold INT_MIN, INT_MAX; lia))).
  lia.
Defined.

(** X5: standby hides the selection without losing it: [select(i)] makes
    preset [i] the temperature handed to the engine, [set_standby()] makes
    that temperature 0 and keeps the selection and the presets, and
    selecting the selection again brings the temperature back. *)
Theorem standby_keeps_selection (i : Z) (p : Preset.t) :
  Preset.get_temperature (Preset.select i p) = Preset.get_preset i p /\
  Preset.is_standby (Preset.select i p) = false /\
  Preset.get_temperature (Preset.set_standby (Preset.select i p)) = Ok 0 /\
  Preset.get_selected (Preset.set_standby (Preset.select i p)) = i /\
  Preset.select (Preset.get_selected (Preset.set_standby (Preset.select i p)))
    (Preset.set_standby (Preset.select i p)) = Preset.select i p.
Proof.
  unfold Preset.select. rewrite !select_guard_false.
  unfold Preset.get_temperature, Preset.get_preset, Preset.is_standby,
    Preset.get_selected, Preset.set_standby. simpl.
  rewrite ?select_guard_false. repeat split; reflexivity.
Qed.

(* ================================================================== *)
(** * lib/iofile.hpp *)

Lemma write_data_loop_spec {F : Type} `{iofile.OFile F} (fuel : nat) :
  forall (data : list Byte.byte) (size : Z) (f : F),
    INT_MIN < size <= INT_MAX ->
    (Z.to_nat size < fuel)%nat ->
    iofile.write_data_loop fuel data size f
    = Some (if size <=? Z.of_nat (length data)
            then Ok (fold_left (fun f c => iofile.write_char c f)
                       (firstn (Z.to_nat size) data) f)
            else Err OutOfBounds).
Proof.
  induction fuel as [|fuel IH]; intros data size f Hs Hf; [lia|].
  cbn [iofile.write_data_loop]. unfold sub_int.
  rewrite checked_fits by (apply in_int_true; lia).
  assert (Hs1 : 0 < size -> INT_MIN < size - 1 <= INT_MAX)
    by (unfold INT_MIN in *; lia).
  destruct (Z.gtb_spec size 0) as [Hp|Hp].
  - destruct data as [|c rest].
    + simpl. destruct (Z.leb_spec size 0); [lia|reflexivity].
    + rewrite IH by (try apply Hs1; lia).
      replace (Z.to_nat size) with (S (Z.to_nat (size - 1))) by lia.
      cbn [firstn fold_left length].
      destruct (Z.leb_spec (size - 1) (Z.of_nat (length rest)));
        destruct (Z.leb_spec size (Z.of_nat (S (length rest)))); try lia; reflexivity.
  - replace (Z.to_nat size) with O by lia.
    destruct (Z.leb_spec size (Z.of_nat (length data))); [reflexivity|lia].
Qed.

(** X6: [OFile::write_data(data, size)] always leaves its loop; it hands
    the first [size] bytes of the buffer to [write_char], in their order,
    and nothing when [size] is 0 or negative; with [size] beyond the
    buffer it reads outside it; with [size = INT_MIN] the decrement of
    [size--] overflows.  On the base class, whose [write_char] is empty,
    nothing is written. *)
Theorem write_data_writes_prefix {F : Type} `{iofile.OFile F}
  (data : list Byte.byte) (size : Z) (f : F) :
  INT_MIN <= size <= INT_MAX ->
  iofile.write_data data size f
  = Some (if size =? INT_MIN then Err SignedOverflow
          else if size <=? Z.of_nat (length data)
               then Ok (fold_left (fun f c => iofile.write_char c f)
                          (firstn (Z.to_nat size) data) f)
               else Err OutOfBounds) /\
  (size <= 0 -> INT_MIN < size -> iofile.write_data data size f = Some (Ok f)) /\
  @iofile.write_data unit iofile.OFile_base data size tt
  = Some (if size =? INT_MIN then Err SignedOverflow
          else if size <=? Z.of_nat (length data) then Ok tt else Err OutOfBounds).
Proof.
  intros Hs.
  assert (G : forall (G : Type) (I : iofile.OFile G) (g : G),
            @iofile.write_data G I data size g
            = Some (if size =? INT_MIN then Err SignedOverflow
                    else if size <=? Z.of_nat (length data)
                         then Ok (fold_left (fun f c => iofile.write_char c f)
                                    (firstn (Z.to_nat size) data) g)
                         else Err OutOfBounds)).
  { intros G I g. unfold iofile.write_data.
    destruct (Z.eqb_spec size INT_MIN) as [E|E].
    - subst size. reflexivity.
    - apply write_data_loop_spec; lia. }
  split; [apply G|]. split.
  - intros Hn Hm. rewrite G.
    destruct (Z.eqb_spec size INT_MIN); [lia|].
    destruct (Z.leb_spec size (Z.of_nat (length data))); [|lia].
    replace (Z.to_nat size) with O by lia. reflexivity.
  - rewrite G. destruct (size =? INT_MIN); [reflexivity|].
    destruct (size <=? Z.of_nat (length data)); [|reflexivity].
    f_equal. f_equal. generalize (firstn (Z.to_nat size) data).
    intros l. induction l as [|c l IHl]; simpl; [reflexivity|exact IHl].
Qed.

Lemma write_data_writes_prefix_witness :
  @iofile.write_data _ iofile.Recorder
    [Byte.x68; Byte.x65; Byte.x79; Byte.x21] 3 []
  = Some (Ok [Byte.x79; Byte.x65; Byte.x68]).
Proof.
  rewrite (proj1 (@write_data_writes_prefix _ iofile.Recorder
                    [Byte.x68; Byte.x65; Byte.x79; Byte.x21] 3 []
                    ltac:(unfold INT_MIN, INT_MAX; lia))).
  reflexivity.
Defined.

(* ================================================================== *)
(** * More of the heating cycle engine *)

Section MoreEngineFacts.

Context `{Clock} {P : Type} `{Pid.Controller P}.

Import Heating.

(** X7: [process] returns false exactly when it is called in STOP, and it
    moves the state along the cycle only: STOP stays; START goes to IDLE or
    HEATING; HEATING stays or goes to STABILIZE; STABILIZE stays or goes to
    IDLE; IDLE stays or goes to STOP.  [start()] goes to START from
    everywhere. *)
Theorem process_follows_cycle
  (delta : Z) (adc : board.Adc) (h h' : Heating.t P) (b b' : board.t) (r : bool) :
  process delta adc h b = Ok (h', b', r) ->
  (r = false <-> _state h = State.STOP) /\
  match _state h with
  | State.STOP => _state h' = State.STOP
  | State.START => _state h' = State.IDLE \/ _state h' = State.HEATING
  | State.HEATING => _state h' = State.HEATING \/ _state h' = State.STABILIZE
  | State.STABILIZE => _state h' = State.STABILIZE \/ _state h' = State.IDLE
  | State.IDLE => _state h' = State.IDLE \/ _state h' = State.STOP
  end /\
  (forall h2, start h' = Ok h2 -> _state h2 = State.START).
Proof.
  intros E. pose proof (process_effect _ _ _ _ _ _ _ E) as K.
  apply process_Ok in E. destruct E as [h1 [_ [_ R]]].
  assert (Hr : r = false <-> _state h = State.STOP).
  { destruct (_state h).
    - destruct R as [_ [_ ->]]. tauto.
    - destruct R as [_ ->]. split; intros N; discriminate N.
    - destruct R as [_ ->]. split; intros N; discriminate N.
    - destruct R as [_ ->]. split; intros N; discriminate N.
    - destruct R as [_ ->]. split; intros N; discriminate N. }
  split; [exact Hr|]. split.
  - destruct (_state h); tauto.
  - intros h2 E2. apply start_Ok in E2. tauto.
Qed.

(** What the START handler does, field by field. *)
Lemma state_start_values (h h' : Heating.t P) (b b' : board.t) :
  _state_start h b = Ok (h', b') ->
  _measure_ticks h' = 0 /\ _measurements_count h' = 0 /\
  _cpu_voltage_mv_heat h' = 0 /\ _supply_voltage_mv_heat h' = 0 /\
  _pen_current_ma_heat h' = 0 /\ _pen_current_ma_idle h' = 0 /\
  _power_uwpt h' = 0 /\
  _cpu_voltage_mv_idle h' = _cpu_voltage_mv_idle h /\
  _supply_voltage_mv_idle h' = _supply_voltage_mv_idle h /\
  _cpu_temperature_mc h' = _cpu_temperature_mc h /\
  _pen_temperature_mc h' = _pen_temperature_mc h /\
  _period_ticks h' = _period_ticks h /\
  _preset h' = _preset h /\ _pid h' = _pid h /\
  ((_requested_power_mw h < HEATING_MIN_POWER_MW /\
    _state h' = State.IDLE /\ b' = board.adc_measure_idle_start b /\
    _requested_power_mw h' = 0 /\ _requested_power_uwpt h' = 0 /\
    _steady_ticks h' = 0 /\
    _heating_element_status h' = _heating_element_status h /\
    _pen_sensor_status h' = _pen_sensor_status h /\
    _average_requested_power h' = _average_requested_power h /\
    _average_requested_power_short h' = _average_requested_power_short h) \/
   (HEATING_MIN_POWER_MW <= _requested_power_mw h /\
    _state h' = State.HEATING /\
    b' = board.adc_measure_heat_start (board.heater_on b) /\
    _requested_power_mw h' = _requested_power_mw h /\
    _requested_power_uwpt h' = _requested_power_uwpt h /\
    _heating_element_status h' = HeatingElementStatus.UNKNOWN /\
    _pen_sensor_status h' = PenSensorStatus.UNKNOWN /\
    _average_requested_power_short h'
    = Z.quot (_average_requested_power_short h * 2 + _requested_power_mw h) 3 /\
    _average_requested_power h'
    = Z.quot (_average_requested_power h * 9 + _requested_power_mw h) 10 /\
    _steady_ticks h'
    = if (_average_requested_power_short h' - _average_requested_power h' >? 150)
         || (_average_requested_power_short h' - _average_requested_power h' <? -200)
      then 0 else _steady_ticks h)).
Proof.
  destruct h. unfold _state_start. fields.
  destruct (Z.ltb_spec _requested_power_mw0 HEATING_MIN_POWER_MW) as [C|C].
  - intros E. inversion E; subst; clear E. fields.
    repeat split; try reflexivity. left. repeat split; try reflexivity. exact C.
  - intros E.
    apply bind_Ok in E. destruct E as [s1 [E1 E]].
    apply bind_Ok in E. destruct E as [s2 [E2 E]].
    apply bind_Ok in E. destruct E as [s3 [E3 E]]. fields.
    apply bind_Ok in E. destruct E as [a1 [E4 E]].
    apply bind_Ok in E. destruct E as [a2 [E5 E]].
    apply bind_Ok in E. destruct E as [a3 [E6 E]]. fields.
    apply bind_Ok in E. destruct E as [d [E7 E]].
    apply mul_int_Ok in E1. apply add_int_Ok in E2. apply div_int_Ok in E3.
    apply mul_int_Ok in E4. apply add_int_Ok in E5. apply div_int_Ok in E6.
    apply sub_int_Ok in E7.
    destruct E1 as [-> _]. destruct E2 as [-> _]. destruct E3 as [_ ->].
    destruct E4 as [-> _]. destruct E5 as [-> _]. destruct E6 as [_ ->].
    destruct E7 as [-> _].
    destruct ((_ >? 150) || (_ <? -200)) eqn:D;
      inversion E; subst; clear E; fields;
      repeat split; try reflexivity; right;
      repeat split; try reflexivity; try exact C; rewrite D; reflexivity.
Qed.

(** What [process] does in START, field by field. *)
Lemma process_start_Ok
  (delta : Z) (adc : board.Adc) (h h' : Heating.t P) (b b' : board.t) (r : bool) :
  _state h = State.START ->
  process delta adc h b = Ok (h', b', r) ->
  _measure_ticks h' = 0 /\ _measurements_count h' = 0 /\
  _cpu_voltage_mv_heat h' = 0 /\ _supply_voltage_mv_heat h' = 0 /\
  _pen_current_ma_heat h' = 0 /\ _pen_current_ma_idle h' = 0 /\
  _power_uwpt h' = 0 /\
  _cpu_voltage_mv_idle h' = _cpu_voltage_mv_idle h /\
  _supply_voltage_mv_idle h' = _supply_voltage_mv_idle h /\
  _cpu_temperature_mc h' = _cpu_temperature_mc h /\
  _pen_temperature_mc h' = _pen_temperature_mc h /\
  _period_ticks h' = _period_ticks h /\
  _preset h' = _preset h /\ _pid h' = _pid h /\
  ((_requested_power_mw h < HEATING_MIN_POWER_MW /\
    _state h' = State.IDLE /\ b' = board.adc_measure_idle_start b /\
    _requested_power_mw h' = 0 /\ _requested_power_uwpt h' = 0 /\
    _steady_ticks h' = 0 /\
    _heating_element_status h' = _heating_element_status h /\
    _pen_sensor_status h' = _pen_sensor_status h /\
    _average_requested_power h' = _average_requested_power h /\
    _average_requested_power_short h' = _average_requested_power_short h) \/
   (HEATING_MIN_POWER_MW <= _requested_power_mw h /\
    _state h' = State.HEATING /\
    b' = board.adc_measure_heat_start (board.heater_on b) /\
    _requested_power_mw h' = _requested_power_mw h /\
    _requested_power_uwpt h' = _requested_power_uwpt h /\
    _heating_element_status h' = HeatingElementStatus.UNKNOWN /\
    _pen_sensor_status h' = PenSensorStatus.UNKNOWN /\
    _average_requested_power_short h'
    = Z.quot (_average_requested_power_short h * 2 + _requested_power_mw h) 3 /\
    _average_requested_power h'
    = Z.quot (_average_requested_power h * 9 + _requested_power_mw h) 10 /\
    _steady_ticks h'
    = if (_average_requested_power_short h' - _average_requested_power h' >? 150)
         || (_average_requested_power_short h' - _average_requested_power h' <? -200)
      then 0 else _steady_ticks h + delta)).
Proof.
  intros S E. apply process_Ok in E. destruct E as [h1 [E1 [_ K]]].
  rewrite S in K. destruct K as [K _].
  apply advance_ticks_Ok in E1. destruct E1 as [E1 _].
  apply state_start_values in K.
  assert (F : _cpu_voltage_mv_idle h1 = _cpu_voltage_mv_idle h /\
              _supply_voltage_mv_idle h1 = _supply_voltage_mv_idle h /\
              _cpu_temperature_mc h1 = _cpu_temperature_mc h /\
              _pen_temperature_mc h1 = _pen_temperature_mc h /\
              _period_ticks h1 = _period_ticks h /\
              _preset h1 = _preset h /\ _pid h1 = _pid h /\
              _requested_power_mw h1 = _requested_power_mw h /\
              _requested_power_uwpt h1 = _requested_power_uwpt h /\
              _heating_element_status h1 = _heating_element_status h /\
              _pen_sensor_status h1 = _pen_sensor_status h /\
              _average_requested_power h1 = _average_requested_power h /\
              _average_requested_power_short h1 = _average_requested_power_short h /\
              _steady_ticks h1 = _steady_ticks h + delta).
  { rewrite E1. fields. repeat split; reflexivity. }
  destruct F as [F1 [F2 [F3 [F4 [F5 [F6 [F7 [F8 [F9 [F10 [F11 [F12 [F13 F14]]]]]]]]]]]]].
  rewrite F1, F2, F3, F4, F5, F6, F7, F8, F9, F10, F11, F12, F13, F14 in K.
  exact K.
Qed.

(** X8: the START handler clears the counters and sums of the heat phase
    and the idle current.  With less than 100 mW requested it does not
    switch the heater on: it starts an idle measurement, goes to IDLE,
    requests nothing (0 mW, 0 uW ticks), restarts the steady time and
    leaves both statuses and both averages alone.  With 100 mW or more it
    switches the heater on, then starts a heat measurement, forgets both
    statuses and goes to HEATING with the request as [start()] made it. *)
Theorem start_handler_branches
  (delta : Z) (adc : board.Adc) (h h' : Heating.t P) (b b' : board.t) (r : bool) :
  _state h = State.START ->
  process delta adc h b = Ok (h', b', r) ->
  (_measure_ticks h' = 0 /\ _measurements_count h' = 0 /\
   get_cpu_voltage_mv_heat h' = 0 /\ get_supply_voltage_mv_heat h' = 0 /\
   get_pen_current_ma_heat h' = 0 /\ get_pen_current_ma_idle h' = 0 /\
   _power_uwpt h' = 0) /\
  (get_requested_power_mw h < 100 ->
   _state h' = State.IDLE /\ b' = board.adc_measure_idle_start b /\
   board.heater b' = board.heater b /\
   get_requested_power_mw h' = 0 /\ _requested_power_uwpt h' = 0 /\
   _steady_ticks h' = 0 /\
   getHeatingElementStatus h' = getHeatingElementStatus h /\
   getPenSensorStatus h' = getPenSensorStatus h) /\
  (100 <= get_requested_power_mw h ->
   _state h' = State.HEATING /\
   b' = board.adc_measure_heat_start (board.heater_on b) /\
   board.heater b' = true /\
   get_requested_power_mw h' = get_requested_power_mw h /\
   _requested_power_uwpt h' = _requested_power_uwpt h /\
   getHeatingElementStatus h' = HeatingElementStatus.UNKNOWN /\
   getPenSensorStatus h' = PenSensorStatus.UNKNOWN).
Proof.
  intros S E. pose proof (process_start_Ok _ _ _ _ _ _ _ S E) as K.
  unfold get_cpu_voltage_mv_heat, get_supply_voltage_mv_heat,
    get_pen_current_ma_heat, get_pen_current_ma_idle, get_requested_power_mw,
    getHeatingElementStatus, getPenSensorStatus, HEATING_MIN_POWER_MW in *.
  destruct K as [K1 [K2 [K3 [K4 [K5 [K6 [K7 [_ [_ [_ [_ [_ [_ [_ K]]]]]]]]]]]]]].
  split; [tauto|]. split; intros R.
  - destruct K as [K|K]; [|lia].
    destruct K as [_ [Ks [-> [Kr [Ku [Kt [Ke [Kp _]]]]]]]]. tauto.
  - destruct K as [K|K]; [lia|].
    destruct K as [_ [Ks [-> [Kr [Ku [Ke [Kp _]]]]]]]. tauto.
Qed.

(** X9: when heating starts, the short average of the requested power
    becomes (2 short + requested) / 3 and the long one (9 long +
    requested) / 10, each between its old value and the request; the
    steady time restarts exactly when short - long is above 150 or below
    -200, and goes on counting otherwise; when both averages equal the
    request they stay so and the steady time goes on. *)
Theorem requested_power_averages
  (delta : Z) (adc : board.Adc) (h h' : Heating.t P) (b b' : board.t) (r : bool) :
  _state h = State.START ->
  100 <= get_requested_power_mw h ->
  process delta adc h b = Ok (h', b', r) ->
  let q := get_requested_power_mw h in
  let s := _average_requested_power_short h in
  let l := _average_requested_power h in
  let s' := _average_requested_power_short h' in
  let l' := _average_requested_power h' in
  s' = Z.quot (2 * s + q) 3 /\ l' = Z.quot (9 * l + q) 10 /\
  Z.min s q <= s' <= Z.max s q /\ Z.min l q <= l' <= Z.max l q /\
  (s' - l' > 150 \/ s' - l' < -200 -> _steady_ticks h' = 0) /\
  (-200 <= s' - l' <= 150 -> _steady_ticks h' = _steady_ticks h + delta) /\
  (s = q -> l = q -> s' = q /\ l' = q /\ _steady_ticks h' = _steady_ticks h + delta).
Proof.
  intros S R E. pose proof (process_start_Ok _ _ _ _ _ _ _ S E) as K.
  unfold get_requested_power_mw, HEATING_MIN_POWER_MW in *. cbv zeta.
  destruct K as [_ [_ [_ [_ [_ [_ [_ [_ [_ [_ [_ [_ [_ [_ K]]]]]]]]]]]]]].
  destruct K as [K|K]; [lia|].
  destruct K as [_ [_ [_ [_ [_ [_ [_ [Ks [Kl Kt]]]]]]]]].
  set (q := _requested_power_mw h) in *.
  set (s := _average_requested_power_short h) in *.
  set (l := _average_requested_power h) in *.
  assert (Es : _average_requested_power_short h' = Z.quot (2 * s + q) 3)
    by (rewrite Ks; f_equal; lia).
  assert (El : _average_requested_power h' = Z.quot (9 * l + q) 10)
    by (rewrite Kl; f_equal; lia).
  assert (Bs : Z.min s q <= Z.quot (2 * s + q) 3 <= Z.max s q)
    by (Z.to_euclidean_division_equations; lia).
  assert (Bl : Z.min l q <= Z.quot (9 * l + q) 10 <= Z.max l q)
    by (Z.to_euclidean_division_equations; lia).
  rewrite Es, El in *.
  set (s' := Z.quot (2 * s + q) 3) in *. set (l' := Z.quot (9 * l + q) 10) in *.
  split; [reflexivity|]. split; [reflexivity|].
  split; [exact Bs|]. split; [exact Bl|].
  assert (T1 : s' - l' > 150 \/ s' - l' < -200 -> _steady_ticks h' = 0).
  { intros D. rewrite Kt.
    destruct (Z.gtb_spec (s' - l') 150); [reflexivity|].
    destruct (Z.ltb_spec (s' - l') (-200)); [reflexivity|lia]. }
  assert (T2 : -200 <= s' - l' <= 150 -> _steady_ticks h' = _steady_ticks h + delta).
  { intros D. rewrite Kt.
    destruct (Z.gtb_spec (s' - l') 150); [lia|].
    destruct (Z.ltb_spec (s' - l') (-200)); [lia|reflexivity]. }
  split; [exact T1|]. split; [exact T2|].
  intros Hs Hl.
  assert (s' = q) by (unfold s'; Z.to_euclidean_division_equations; lia).
  assert (l' = q) by (unfold l'; Z.to_euclidean_division_equations; lia).
  split; [assumption|]. split; [assumption|]. apply T2. lia.
Qed.

(** X10: a call of [process] in HEATING or IDLE that finds the
    measurement not yet done only advances the tick counters: it calls
    neither the heater nor the ADC, stays in its state, returns true, and
    leaves every sum, counter of samples, status and the energy alone. *)
Theorem waiting_changes_nothing
  (delta : Z) (adc : board.Adc) (h h' : Heating.t P) (b b' : board.t) (r : bool) :
  _state h = State.HEATING \/ _state h = State.IDLE ->
  board.measure_is_done adc = false ->
  process delta adc h b = Ok (h', b', r) ->
  b' = b /\ r = true /\ _state h' = _state h /\
  exists h1, advance_ticks delta h = Ok h1 /\
    h' = match _state h with
         | State.HEATING => measure_ticks_add delta h1
         | _ => h1
         end.
Proof.
  intros S D E. apply process_Ok in E. destruct E as [h1 [E1 [S1 K]]].
  destruct S as [S|S]; rewrite S in K; destruct K as [K ->].
  - unfold _state_heating in K. rewrite D in K. cbn [negb] in K.
    inversion K; subst. split; [reflexivity|]. split; [reflexivity|].
    split; [unfold measure_ticks_add; fields; congruence|].
    exists h1. rewrite S. auto.
  - unfold _state_idle in K. rewrite D in K. cbn [negb] in K.
    inversion K; subst. split; [reflexivity|]. split; [reflexivity|].
    split; [congruence|]. exists h'. rewrite S. auto.
Qed.

(** ** The sums and the averages of a phase, field by field *)

Lemma heating_accumulate_values (adc : board.Adc) (h ha : Heating.t P) :
  heating_accumulate adc h = Ok ha ->
  _measurements_count ha = _measurements_count h + 1 /\
  _cpu_voltage_mv_heat ha = _cpu_voltage_mv_heat h + board.get_cpu_voltage adc /\
  _supply_voltage_mv_heat ha = _supply_voltage_mv_heat h + board.get_supply_voltage adc /\
  _pen_current_ma_heat ha = _pen_current_ma_heat h + board.get_pen_current adc /\
  _power_uwpt ha = _power_uwpt h
    + board.get_supply_voltage adc * board.get_pen_current adc * _measure_ticks h /\
  _measure_ticks ha = 0 /\
  _state ha = _state h /\ _energy_uwt ha = _energy_uwt h /\
  _pen_current_ma_idle ha = _pen_current_ma_idle h /\
  _supply_voltage_mv_idle ha = _supply_voltage_mv_idle h /\
  _remaining_ticks ha = _remaining_ticks h /\
  _requested_power_uwpt ha = _requested_power_uwpt h /\
  _pen_sensor_status ha = _pen_sensor_status h /\
  _period_ticks ha = _period_ticks h.
Proof.
  destruct h. unfold heating_accumulate. intros E. ok_inv.
  repeat split; reflexivity.
Qed.

Lemma heating_finish_values (h h' : Heating.t P) (b b' : board.t) :
  heating_finish h b = Ok (h', b') ->
  let n := _measurements_count h in
  let v := Z.quot (_supply_voltage_mv_heat h) n in
  let c := Z.abs (Z.quot (_pen_current_ma_heat h) n - _pen_current_ma_idle h) in
  _cpu_voltage_mv_heat h' = Z.quot (_cpu_voltage_mv_heat h) n /\
  _supply_voltage_mv_heat h' = v /\
  _pen_current_ma_heat h' = c /\
  _pen_resistance_mo h' = (if c >? 10 then Z.quot (v * 1000) c else 1000000000) /\
  _supply_voltage_mv_drop h' = v - _supply_voltage_mv_idle h /\
  _pen_current_ma_idle h' = _pen_current_ma_idle h /\
  _pen_sensor_status h' = _pen_sensor_status h /\
  _period_ticks h' = _period_ticks h /\
  _power_uwpt h' = _power_uwpt h.
Proof.
  destruct h. unfold heating_finish. cbv zeta. fields. intros E.
  apply bind_Ok in E. destruct E as [e [E0 E]]. fields.
  apply bind_Ok in E. destruct E as [cv [E1 E]]. fields.
  apply bind_Ok in E. destruct E as [sv [E2 E]]. fields.
  apply bind_Ok in E. destruct E as [pc [E3 E]]. fields.
  apply bind_Ok in E. destruct E as [pc2 [E4 E]]. fields.
  apply div_int_Ok in E1, E2, E3. apply sub_int_Ok in E4.
  destruct E1 as [_ ->]. destruct E2 as [_ ->]. destruct E3 as [_ ->].
  destruct E4 as [-> _].
  set (x := Z.quot _pen_current_ma_heat0 _measurements_count0 - _pen_current_ma_idle0) in *.
  set (v := Z.quot _supply_voltage_mv_heat0 _measurements_count0) in *.
  apply bind_Ok in E. destruct E as [h2 [E5 E]].
  assert (A : exists rest, h2 = rest /\ _pen_current_ma_heat rest = Z.abs x /\
              _supply_voltage_mv_heat rest = v /\
              _cpu_voltage_mv_heat rest
              = Z.quot _cpu_voltage_mv_heat0 _measurements_count0 /\
              _supply_voltage_mv_idle rest = _supply_voltage_mv_idle0 /\
              _pen_current_ma_idle rest = _pen_current_ma_idle0 /\
              _pen_sensor_status rest = _pen_sensor_status0 /\
              _period_ticks rest = _period_ticks0 /\
              _power_uwpt rest = _power_uwpt0).
  { destruct (Z.ltb_spec x 0) as [Hx|Hx].
    - apply bind_Ok in E5. destruct E5 as [pc3 [E5 E6]].
      apply mul_int_Ok in E5. destruct E5 as [-> _]. inversion E6; subst.
      eexists. split; [reflexivity|]. fields. repeat split; try reflexivity. lia.
    - inversion E5; subst. eexists. split; [reflexivity|]. fields.
      repeat split; try reflexivity. lia. }
  destruct A as [rest [-> [A1 [A2 [A3 [A4 [A5 [A6 [A7 A8]]]]]]]]]. clear E5.
  destruct rest. fields. subst.
  apply bind_Ok in E. destruct E as [h3 [E6 E]].
  destruct (Z.gtb_spec (Z.abs x) 10) as [Hc|Hc].
  - apply bind_Ok in E6. destruct E6 as [m [E6 E7]].
    apply bind_Ok in E7. destruct E7 as [q [E7 E8]].
    apply mul_int_Ok in E6. destruct E6 as [-> _].
    apply div_int_Ok in E7. destruct E7 as [_ ->].
    inversion E8; subst; clear E8. fields.
    apply bind_Ok in E. destruct E as [d [E9 E]].
    apply sub_int_Ok in E9. destruct E9 as [-> _].
    inversion E; subst. fields. repeat split; reflexivity.
  - inversion E6; subst; clear E6. fields.
    apply bind_Ok in E. destruct E as [d [E9 E]].
    apply sub_int_Ok in E9. destruct E9 as [-> _].
    inversion E; subst. fields. repeat split; reflexivity.
Qed.

Lemma idle_accumulate_values (adc : board.Adc) (h ha : Heating.t P) :
  idle_accumulate adc h = Ok ha ->
  _measurements_count ha = _measurements_count h + 1 /\
  _cpu_voltage_mv_idle ha = _cpu_voltage_mv_idle h + board.get_cpu_voltage adc /\
  _supply_voltage_mv_idle ha = _supply_voltage_mv_idle h + board.get_supply_voltage adc /\
  _pen_current_ma_idle ha = _pen_current_ma_idle h + board.get_pen_current adc /\
  _cpu_temperature_mc ha = _cpu_temperature_mc h + board.get_cpu_temperature adc /\
  _pen_temperature_mc ha = _pen_temperature_mc h + board.get_pen_temperature adc /\
  _state ha = _state h /\ _remaining_ticks ha = _remaining_ticks h /\
  _heating_element_status ha = _heating_element_status h /\
  _pen_sensor_status ha = _pen_sensor_status h /\
  _requested_power_mw ha = _requested_power_mw h /\
  _period_ticks ha = _period_ticks h.
Proof.
  destruct h. unfold idle_accumulate. intros E. ok_inv.
  repeat split; reflexivity.
Qed.

Lemma idle_finish_values (adc : board.Adc) (h h' : Heating.t P) :
  idle_finish adc h = Ok h' ->
  let n := _measurements_count h in
  _state h' = State.STOP /\
  _cpu_voltage_mv_idle h' = Z.quot (_cpu_voltage_mv_idle h) n /\
  _supply_voltage_mv_idle h' = Z.quot (_supply_voltage_mv_idle h) n /\
  _pen_current_ma_idle h' = Z.quot (_pen_current_ma_idle h) n /\
  _cpu_temperature_mc h' = Z.quot (_cpu_temperature_mc h) n /\
  _pen_temperature_mc h' = Z.quot (_pen_temperature_mc h) n /\
  _pen_sensor_status h'
  = (if board.is_pen_sensor_ok adc then PenSensorStatus.OK else PenSensorStatus.BROKEN) /\
  _heating_element_status h'
  = (if board.is_pen_sensor_ok adc then _heating_element_status h
     else HeatingElementStatus.UNKNOWN) /\
  _requested_power_mw h' = _requested_power_mw h /\
  _period_ticks h' = _period_ticks h.
Proof.
  destruct h. unfold idle_finish. cbv zeta. intros E. ok_inv.
  destruct (board.is_pen_sensor_ok adc); fields; repeat split; reflexivity.
Qed.

(** X11: at the end of a heat phase the pen current is the truncated mean
    of the readings less the idle current, in absolute value, hence never
    negative; with a current of at most 10 mA the resistance is set to
    1000000000 mOhm and the element is BROKEN, otherwise the resistance is
    the mean supply voltage times 1000 divided by that current; the
    voltage drop is the mean supply voltage less the idle one. *)
Theorem heat_phase_diagnosis
  (delta : Z) (adc : board.Adc) (h h' : Heating.t P) (b b' : board.t) (r : bool) :
  _state h = State.HEATING ->
  process delta adc h b = Ok (h', b', r) ->
  _state h' = State.STABILIZE ->
  exists ha, sampled delta adc h = Ok ha /\
    let n := _measurements_count ha in
    let v := Z.quot (_supply_voltage_mv_heat ha) n in
    let c := Z.abs (Z.quot (_pen_current_ma_heat ha) n - get_pen_current_ma_idle h) in
    get_cpu_voltage_mv_heat h' = Z.quot (_cpu_voltage_mv_heat ha) n /\
    get_supply_voltage_mv_heat h' = v /\
    get_pen_current_ma_heat h' = c /\ 0 <= get_pen_current_ma_heat h' /\
    (c <= 10 -> get_pen_resistance_mo h' = 1000000000 /\
                getHeatingElementStatus h' = HeatingElementStatus.BROKEN) /\
    (10 < c -> get_pen_resistance_mo h' = Z.quot (v * 1000) c) /\
    get_supply_voltage_mv_drop h' = v - get_supply_voltage_mv_idle h.
Proof.
  intros S E S'. apply process_Ok in E. destruct E as [h1 [E1 [S1 K]]].
  rewrite S in K. destruct K as [K _]. unfold _state_heating in K.
  destruct (board.measure_is_done adc); cbn [negb] in K.
  2:{ inversion K; subst. unfold measure_ticks_add in S'. fields. congruence. }
  apply bind_Ok in K. destruct K as [ha [Ea K]].
  apply bind_Ok in K. destruct K as [stop [_ K]].
  exists ha. split; [unfold sampled; rewrite E1; exact Ea|].
  pose proof (heating_accumulate_values _ _ _ Ea) as V.
  destruct V as [_ [_ [_ [_ [_ [_ [Vs [_ [Vi [Vsi _]]]]]]]]]].
  unfold measure_ticks_add in Vs, Vi, Vsi. fields.
  apply advance_ticks_Ok in E1. destruct E1 as [E1 _].
  assert (F : _pen_current_ma_idle h1 = _pen_current_ma_idle h /\
              _supply_voltage_mv_idle h1 = _supply_voltage_mv_idle h).
  { rewrite E1. fields. auto. }
  destruct F as [F1 F2].
  destruct stop.
  2:{ inversion K; subst. congruence. }
  pose proof (heating_finish_Ok _ _ _ _ K) as [_ [_ [St _]]].
  apply heating_finish_values in K. cbv zeta in K.
  destruct K as [K1 [K2 [K3 [K4 [K5 _]]]]].
  rewrite Vi, F1 in K3, K4. rewrite Vsi, F2 in K5.
  unfold get_cpu_voltage_mv_heat, get_supply_voltage_mv_heat,
    get_pen_current_ma_heat, get_pen_resistance_mo, get_supply_voltage_mv_drop,
    get_supply_voltage_mv_idle, get_pen_current_ma_idle, getHeatingElementStatus.
  cbv zeta.
  set (c := Z.abs (Z.quot (_pen_current_ma_heat ha) (_measurements_count ha)
                   - _pen_current_ma_idle h)) in *.
  split; [exact K1|]. split; [exact K2|]. split; [exact K3|].
  split; [rewrite K3; unfold c; lia|].
  split; [|split].
  - intros Hc. destruct (Z.gtb_spec c 10); [lia|].
    split; [exact K4|]. rewrite St, K4. reflexivity.
  - intros Hc. destruct (Z.gtb_spec c 10); [|lia]. exact K4.
  - exact K5.
Qed.

(** X12: in IDLE a call of [process] that finds the sample completed
    stays in IDLE and starts another idle measurement exactly while
    [_remaining_ticks] is positive; otherwise it goes to STOP without a
    call to the board, every idle quantity becomes the truncated mean of
    its sum, and the pen sensor status becomes OK if the ADC reports the
    sensor good, else BROKEN with the heating element status forgotten. *)
Theorem idle_phase_ends
  (delta : Z) (adc : board.Adc) (h h' : Heating.t P) (b b' : board.t) (r : bool) :
  _state h = State.IDLE ->
  board.measure_is_done adc = true ->
  process delta adc h b = Ok (h', b', r) ->
  exists hs, idle_sampled delta adc h = Ok hs /\
    _measurements_count hs = _measurements_count h + 1 /\
    _remaining_ticks hs = to_int (to_uint (to_uint (_remaining_ticks h) - delta)) /\
    (0 < _remaining_ticks hs <-> _state h' = State.IDLE) /\
    (0 < _remaining_ticks hs -> h' = hs /\ b' = board.adc_measure_idle_start b) /\
    (_remaining_ticks hs <= 0 ->
     let n := _measurements_count hs in
     _state h' = State.STOP /\ b' = b /\
     get_cpu_voltage_mv_idle h' = Z.quot (_cpu_voltage_mv_idle hs) n /\
     get_supply_voltage_mv_idle h' = Z.quot (_supply_voltage_mv_idle hs) n /\
     get_pen_current_ma_idle h' = Z.quot (_pen_current_ma_idle hs) n /\
     get_cpu_temperature_mc h' = Z.quot (_cpu_temperature_mc hs) n /\
     get_pen_temperature_mc h' = Z.quot (_pen_temperature_mc hs) n /\
     getPenSensorStatus h'
     = (if board.is_pen_sensor_ok adc then PenSensorStatus.OK
        else PenSensorStatus.BROKEN) /\
     getHeatingElementStatus h'
     = (if board.is_pen_sensor_ok adc then getHeatingElementStatus h
        else HeatingElementStatus.UNKNOWN)).
Proof.
  intros S D E. apply process_Ok in E. destruct E as [h1 [E1 [S1 K]]].
  rewrite S in K. destruct K as [K _]. unfold _state_idle in K.
  rewrite D in K. cbn [negb] in K.
  apply bind_Ok in K. destruct K as [hs [Ea K]].
  exists hs. split; [unfold idle_sampled; rewrite E1; exact Ea|].
  pose proof (idle_accumulate_values _ _ _ Ea) as V.
  destruct V as [Vc [_ [_ [_ [_ [_ [Vs [Vr [Ve _]]]]]]]]].
  apply advance_ticks_Ok in E1. destruct E1 as [E1 _].
  assert (F : _measurements_count h1 = _measurements_count h /\
              _remaining_ticks h1
              = to_int (to_uint (to_uint (_remaining_ticks h) - delta)) /\
              _heating_element_status h1 = _heating_element_status h).
  { rewrite E1. fields. auto. }
  destruct F as [F1 [F2 F3]].
  split; [congruence|]. split; [congruence|].
  destruct (Z.gtb_spec (_remaining_ticks hs) 0) as [R|R].
  - inversion K; subst. split; [|split].
    + split; [intros _; congruence|intros _; lia].
    + intros _. auto.
    + intros N. lia.
  - apply bind_Ok in K. destruct K as [hf [Ef K]]. inversion K; subst.
    apply idle_finish_values in Ef. cbv zeta in Ef.
    destruct Ef as [T [A1 [A2 [A3 [A4 [A5 [A6 [A7 _]]]]]]]].
    split; [|split].
    + split; [intros N; lia|intros N; congruence].
    + intros N. lia.
    + intros _. cbv zeta. unfold get_cpu_voltage_mv_idle,
        get_supply_voltage_mv_idle, get_pen_current_ma_idle,
        get_cpu_temperature_mc, get_pen_temperature_mc, getPenSensorStatus,
        getHeatingElementStatus.
      rewrite A7, Ve, F3. repeat split; assumption.
Qed.

(** ** What the calls keep *)

Import Station.

Lemma start_values (h h' : Heating.t P) :
  start h = Ok h' ->
  _state h' = State.START /\
  _period_ticks h' = PERIOD_TICKS /\
  _remaining_ticks h' = _remaining_ticks h + PERIOD_TICKS /\
  _requested_power_uwpt h' = requested_uwpt (_requested_power_mw h') PERIOD_TICKS /\
  (_pen_sensor_status h <> PenSensorStatus.OK -> _requested_power_mw h' = 0) /\
  _pen_sensor_status h' = _pen_sensor_status h /\
  _heating_element_status h' = _heating_element_status h /\
  _pen_current_ma_idle h' = _pen_current_ma_idle h /\
  _power_uwpt h' = _power_uwpt h /\
  _preset h' = _preset h.
Proof.
  unfold start. intros E.
  apply bind_Ok in E. destruct E as [[pid power] [Ep E]].
  apply bind_Ok in E. destruct E as [remaining [Er E]].
  apply add_int_Ok in Er. destruct Er as [-> _].
  inversion E; subst; clear E. fields.
  repeat split; try reflexivity.
  intros N. unfold getPenSensorStatus in Ep.
  destruct (PenSensorStatus.eqb (_pen_sensor_status h) PenSensorStatus.OK) eqn:Es;
    cbn [negb] in Ep.
  - apply PenSensorStatus_eqb_eq in Es. contradiction.
  - inversion Ep; subst. reflexivity.
Qed.

Lemma step_ui_values (c : Preset.Call) (m m' : Station.t P) :
  step (Ui c) m = Ok m' ->
  brd m' = brd m /\ exists p, engine m' = (engine m) <| _preset := p |>.
Proof.
  cbn [step]. intros E. apply bind_Ok in E. destruct E as [p [_ E]].
  inversion E; subst. fields. eauto.
Qed.

(** The call of [process] that ends a heat phase, in its three parts. *)
Lemma process_heating_finishes
  (delta : Z) (adc : board.Adc) (h h' : Heating.t P) (b b' : board.t) (r : bool) :
  _state h = State.HEATING ->
  process delta adc h b = Ok (h', b', r) ->
  _state h' = State.STABILIZE ->
  exists h1 ha,
    advance_ticks delta h = Ok h1 /\
    heating_accumulate adc (measure_ticks_add delta h1) = Ok ha /\
    heating_finish ha b = Ok (h', b').
Proof.
  intros S E S'. apply process_Ok in E. destruct E as [h1 [E1 [S1 K]]].
  rewrite S in K. destruct K as [K _]. unfold _state_heating in K.
  destruct (board.measure_is_done adc); cbn [negb] in K.
  2:{ inversion K; subst. unfold measure_ticks_add in S'. fields. congruence. }
  apply bind_Ok in K. destruct K as [ha [Ea K]].
  apply bind_Ok in K. destruct K as [stop [_ K]].
  exists h1, ha. split; [exact E1|]. split; [exact Ea|].
  destruct stop; [exact K|]. inversion K; subst.
  apply heating_accumulate_values in Ea.
  destruct Ea as [_ [_ [_ [_ [_ [_ [Vs _]]]]]]].
  unfold measure_ticks_add in Vs. fields. congruence.
Qed.

(** The call of [process] that goes on heating. *)
Lemma process_heating_continues
  (delta : Z) (adc : board.Adc) (h h' : Heating.t P) (b b' : board.t) (r : bool) :
  _state h = State.HEATING ->
  process delta adc h b = Ok (h', b', r) ->
  _state h' = State.HEATING ->
  _pen_current_ma_idle h' = _pen_current_ma_idle h /\
  _period_ticks h' = _period_ticks h /\
  _pen_sensor_status h' = _pen_sensor_status h /\
  (INT64_MIN <= _power_uwpt h' <= INT64_MAX \/ _power_uwpt h' = _power_uwpt h).
Proof.
  intros S E S'. apply process_Ok in E. destruct E as [h1 [E1 [S1 K]]].
  rewrite S in K. destruct K as [K _].
  apply advance_ticks_Ok in E1. destruct E1 as [E1 _].
  unfold _state_heating in K.
  destruct (board.measure_is_done adc); cbn [negb] in K.
  - apply bind_Ok in K. destruct K as [ha [Ea K]].
    apply bind_Ok in K. destruct K as [stop [_ K]].
    destruct stop.
    + apply heating_finish_Ok in K. destruct K as [_ [K _]]. congruence.
    + inversion K; subst.
      pose proof (heating_accumulate_values _ _ _ Ea) as V.
      destruct V as [_ [_ [_ [_ [_ [_ [_ [_ [Vi [_ [_ [_ [Vp Vt]]]]]]]]]]]]].
      unfold measure_ticks_add in Vi, Vp, Vt. fields.
      rewrite Vi, Vp, Vt. repeat split; try reflexivity.
      left. unfold heating_accumulate in Ea. ok_inv. lia.
  - inversion K; subst. unfold measure_ticks_add. fields.
    repeat split; try reflexivity. right. reflexivity.
Qed.

Lemma process_stop_values
  (delta : Z) (adc : board.Adc) (h h' : Heating.t P) (b b' : board.t) (r : bool) :
  _state h = State.STOP ->
  process delta adc h b = Ok (h', b', r) ->
  _state h' = State.STOP /\ b' = b /\
  _period_ticks h' = _period_ticks h /\ _power_uwpt h' = _power_uwpt h /\
  _pen_sensor_status h' = _pen_sensor_status h /\
  _requested_power_mw h' = _requested_power_mw h.
Proof.
  intros S E. apply process_Ok in E. destruct E as [h1 [E1 [S1 K]]].
  rewrite S in K. destruct K as [K [-> _]].
  destruct (state_stop_preset _ _ K) as [p ->].
  apply advance_ticks_Ok in E1. destruct E1 as [-> _].
  fields. repeat split; try reflexivity. exact S.
Qed.

Lemma process_stabilize_values
  (delta : Z) (adc : board.Adc) (h h' : Heating.t P) (b b' : board.t) (r : bool) :
  _state h = State.STABILIZE ->
  process delta adc h b = Ok (h', b', r) ->
  (_state h' = State.STABILIZE \/ _state h' = State.IDLE) /\
  (b' = b \/ b' = board.adc_measure_idle_start b) /\
  _period_ticks h' = _period_ticks h /\ _power_uwpt h' = _power_uwpt h /\
  _pen_sensor_status h' = _pen_sensor_status h /\
  _requested_power_mw h' = _requested_power_mw h.
Proof.
  intros S E. apply process_Ok in E. destruct E as [h1 [E1 [S1 K]]].
  rewrite S in K. destruct K as [K _].
  apply advance_ticks_Ok in E1. destruct E1 as [-> _].
  unfold _state_stabilize, measure_ticks_add in K. fields.
  destruct (_ <? _); inversion K; subst; fields; repeat split; auto.
Qed.

Lemma process_idle_values
  (delta : Z) (adc : board.Adc) (h h' : Heating.t P) (b b' : board.t) (r : bool) :
  _state h = State.IDLE ->
  process delta adc h b = Ok (h', b', r) ->
  (_state h' = State.IDLE \/ _state h' = State.STOP) /\
  (b' = b \/ b' = board.adc_measure_idle_start b) /\
  _period_ticks h' = _period_ticks h /\ _power_uwpt h' = _power_uwpt h /\
  _requested_power_mw h' = _requested_power_mw h /\
  (_pen_sensor_status h' = _pen_sensor_status h \/
   _pen_sensor_status h'
   = if board.is_pen_sensor_ok adc then PenSensorStatus.OK else PenSensorStatus.BROKEN).
Proof.
  intros S E. apply process_Ok in E. destruct E as [h1 [E1 [S1 K]]].
  rewrite S in K. destruct K as [K _].
  apply advance_ticks_Ok in E1. destruct E1 as [E1 _].
  assert (F : _period_ticks h1 = _period_ticks h /\ _power_uwpt h1 = _power_uwpt h /\
              _requested_power_mw h1 = _requested_power_mw h /\
              _pen_sensor_status h1 = _pen_sensor_status h).
  { rewrite E1. fields. auto. }
  destruct F as [F1 [F2 [F3 F4]]].
  unfold _state_idle in K. destruct (board.measure_is_done adc); cbn [negb] in K.
  - apply bind_Ok in K. destruct K as [hs [Ea K]].
    assert (Pw : _power_uwpt hs = _power_uwpt h1).
    { unfold idle_accumulate in Ea. destruct h1. ok_inv; reflexivity. }
    apply idle_accumulate_values in Ea.
    destruct Ea as [_ [_ [_ [_ [_ [_ [Vs [_ [_ [Vp [Vr Vt]]]]]]]]]]].
    destruct (_remaining_ticks hs >? 0).
    + inversion K; subst. rewrite Vs, S1, S, Vt, Pw, Vr, Vp, F1, F2, F3, F4.
      repeat split; auto.
    + apply bind_Ok in K. destruct K as [hf [Ef K]]. inversion K; subst.
      assert (Pf : _power_uwpt h' = _power_uwpt hs).
      { unfold idle_finish in Ef. destruct hs. ok_inv;
        destruct (board.is_pen_sensor_ok adc); reflexivity. }
      apply idle_finish_values in Ef. cbv zeta in Ef.
      destruct Ef as [T [_ [_ [_ [_ [_ [A6 [_ [A8 A9]]]]]]]]].
      rewrite T, A9, Pf, A8, A6, Vt, Pw, Vr, F1, F2, F3. repeat split; auto.
  - inversion K; subst. rewrite S1, S, F1, F2, F3, F4. repeat split; auto.
Qed.

Lemma run_any_invariant (I : Station.t P -> Prop) :
  (forall ev m m', I m -> step ev m = Ok m' -> I m') ->
  forall evs m m', I m -> run_any evs m = Some m' -> I m'.
Proof.
  intros Hstep evs m m' Im R.
  apply (exec_invariant (fun ev _ => well_typed ev) I) with (evs := evs) (m := m);
    [|exact Im|exact R].
  intros ev m1 m2 I1 _ E. exact (Hstep ev m1 m2 I1 E).
Qed.

Lemma step_keeps_idle_current_zero (ev : Event) (m m' : Station.t P) :
  (state m = State.HEATING -> _pen_current_ma_idle (engine m) = 0) ->
  step ev m = Ok m' ->
  state m' = State.HEATING -> _pen_current_ma_idle (engine m') = 0.
Proof.
  intros I E S'. destruct ev as [|delta adc|c].
  - apply step_effect in E. destruct E as [E _]. congruence.
  - apply step_effect in E. destruct E as [r E]. unfold state in *.
    pose proof (process_effect _ _ _ _ _ _ _ E) as K.
    destruct (_state (engine m)) eqn:S.
    + destruct K as [K _]. congruence.
    + apply (process_start_Ok _ _ _ _ _ _ _ S) in E. tauto.
    + apply (process_heating_continues _ _ _ _ _ _ _ S E) in S'.
      destruct S' as [-> _]. apply I. reflexivity.
    + destruct K as [_ [_ [[K _]|[K _]]]]; congruence.
    + destruct K as [_ [_ [[K _]|[K _]]]]; congruence.
  - apply step_ui_values in E. destruct E as [_ [p E]]. unfold state in *.
    rewrite E in *. fields. apply I. exact S'.
Qed.

(** X13: the START handler clears [_pen_current_ma_idle] and nothing sets
    it before the next idle phase, so whatever the calls since power-up,
    during a heat phase the idle current is 0: the compensation at the end
    of the phase subtracts nothing, and the pen current reported is the
    absolute value of the truncated mean of the readings. *)
Theorem idle_current_is_zero_while_heating (evs : list Event) (m : Station.t P) :
  run_any evs Station.initial = Some m ->
  state m = State.HEATING ->
  get_pen_current_ma_idle (engine m) = 0 /\
  (forall delta adc h' b' r,
     process delta adc (engine m) (brd m) = Ok (h', b', r) ->
     _state h' = State.STABILIZE ->
     exists ha, sampled delta adc (engine m) = Ok ha /\
       get_pen_current_ma_heat h'
       = Z.abs (Z.quot (_pen_current_ma_heat ha) (_measurements_count ha))).
Proof.
  intros R S.
  assert (I : state m = State.HEATING -> _pen_current_ma_idle (engine m) = 0).
  { apply (run_any_invariant
             (fun m => state m = State.HEATING -> _pen_current_ma_idle (engine m) = 0))
      with (evs := evs) (m := Station.initial); [|discriminate|exact R].
    intros ev m1 m2 I1 E. exact (step_keeps_idle_current_zero ev m1 m2 I1 E). }
  specialize (I S). split; [exact I|].
  intros delta adc h' b' r E S'.
  destruct (process_heating_finishes _ _ _ _ _ _ _ S E S') as [h1 [ha [E1 [Ea Ef]]]].
  exists ha. split; [unfold sampled; rewrite E1; exact Ea|].
  apply heating_finish_values in Ef. cbv zeta in Ef.
  destruct Ef as [_ [_ [K _]]].
  apply heating_accumulate_values in Ea.
  destruct Ea as [_ [_ [_ [_ [_ [_ [_ [_ [Vi _]]]]]]]]].
  unfold measure_ticks_add in Vi. fields.
  apply advance_ticks_Ok in E1. destruct E1 as [E1 _].
  assert (F : _pen_current_ma_idle h1 = _pen_current_ma_idle (engine m))
    by (rewrite E1; fields; reflexivity).
  unfold get_pen_current_ma_heat. rewrite K, Vi, F, I. f_equal. lia.
Qed.

Lemma step_sensor_unknown (ev : Event) (m m' : Station.t P) :
  Phase.sensor_unknown m -> Phase.sensor_failing ev = true -> step ev m = Ok m' ->
  Phase.sensor_unknown m'.
Proof.
  unfold Phase.sensor_unknown, state, heater.
  intros [I1 [I2 [I3 [I4 [I5 I6]]]]] F E.
  destruct ev as [|delta adc|c].
  - cbn [step] in E. apply bind_Ok in E. destruct E as [h' [E1 E]].
    inversion E; subst. fields. apply start_values in E1.
    destruct E1 as [S [_ [_ [_ [Q [Ps _]]]]]].
    rewrite S, Ps, (Q I5). repeat split; auto; discriminate.
  - cbn [Phase.sensor_failing] in F. apply negb_true_iff in F.
    cbn [step] in E. apply bind_Ok in E. destruct E as [[[h' b'] r] [E1 E]].
    inversion E; subst. fields.
    destruct (_state (engine m)) eqn:S.
    + apply (process_stop_values _ _ _ _ _ _ _ S) in E1.
      destruct E1 as [T [-> [_ [_ [Ps Q]]]]]. rewrite T, Ps, Q.
      repeat split; auto; discriminate.
    + apply (process_start_Ok _ _ _ _ _ _ _ S) in E1.
      destruct E1 as [_ [_ [_ [_ [_ [_ [_ [_ [_ [_ [_ [_ [_ [_ K]]]]]]]]]]]]]].
      unfold HEATING_MIN_POWER_MW in K.
      destruct K as [K|K]; [|lia].
      destruct K as [_ [T [-> [Q [_ [_ [_ [Ps _]]]]]]]]. rewrite T, Ps, Q.
      simpl. repeat split; auto; try discriminate.
      intros [N|N]; [discriminate N|contradiction].
    + contradiction.
    + contradiction.
    + apply (process_idle_values _ _ _ _ _ _ _ S) in E1.
      destruct E1 as [T [B [_ [_ [Q Ps]]]]]. rewrite Q.
      assert (Hs : _pen_sensor_status h' <> PenSensorStatus.OK).
      { destruct Ps as [->| ->]; [exact I5|]. rewrite F. discriminate. }
      destruct B as [-> | ->]; simpl;
        (repeat split; auto;
         [destruct T as [-> | ->]; discriminate
         |destruct T as [-> | ->]; discriminate|..]).
      intros [N|N]; [discriminate N|contradiction].
  - apply step_ui_values in E. destruct E as [-> [p ->]]. fields.
    repeat split; auto.
Qed.

(** X14: as long as the ADC never reports the pen sensor as good, whatever
    the host and the user interface call since power-up, the engine
    requests no power, never enters HEATING or STABILIZE, never starts a
    heat measurement and never switches the heater on. *)
Theorem no_heating_without_sensor (evs : list Event) (m : Station.t P) :
  Phase.run_sensor_failing evs Station.initial = Some m ->
  heater m = false /\
  state m <> State.HEATING /\ state m <> State.STABILIZE /\
  get_requested_power_mw (engine m) = 0 /\
  getPenSensorStatus (engine m) <> PenSensorStatus.OK /\
  ~ In board.MEASURE_HEAT_START (board.adc_commands (brd m)).
Proof.
  intros R.
  apply (exec_invariant (fun ev _ => well_typed ev && Phase.sensor_failing ev)
           Phase.sensor_unknown) with (evs := evs) (m := Station.initial);
    [| |exact R].
  - intros ev m1 m2 I A E. apply andb_true_iff in A.
    exact (step_sensor_unknown ev m1 m2 I (proj2 A) E).
  - unfold Phase.sensor_unknown. cbn. repeat split; auto; discriminate.
Qed.

(** ** The period and the power getter *)

Lemma step_period_power (ev : Event) (m m' : Station.t P) :
  INT64_MIN <= _power_uwpt (engine m) <= INT64_MAX ->
  step ev m = Ok m' ->
  INT64_MIN <= _power_uwpt (engine m') <= INT64_MAX /\
  _period_ticks (engine m')
  = match ev with Start => PERIOD_TICKS | _ => _period_ticks (engine m) end.
Proof.
  intros I E. destruct ev as [|delta adc|c].
  - cbn [step] in E. apply bind_Ok in E. destruct E as [h' [E1 E]].
    inversion E; subst. fields. apply start_values in E1.
    destruct E1 as [_ [Pt [_ [_ [_ [_ [_ [_ [Pw _]]]]]]]]]. rewrite Pw. auto.
  - cbn [step] in E. apply bind_Ok in E. destruct E as [[[h' b'] r] [E1 E]].
    inversion E; subst. fields.
    destruct (_state (engine m)) eqn:S.
    + apply (process_stop_values _ _ _ _ _ _ _ S) in E1.
      destruct E1 as [_ [_ [Pt [Pw _]]]]. rewrite Pt, Pw. auto.
    + apply (process_start_Ok _ _ _ _ _ _ _ S) in E1.
      destruct E1 as [_ [_ [_ [_ [_ [_ [Pw [_ [_ [_ [_ [Pt _]]]]]]]]]]]].
      rewrite Pt, Pw. unfold INT64_MIN, INT64_MAX. split; [lia|reflexivity].
    + pose proof (process_effect _ _ _ _ _ _ _ E1) as K. rewrite S in K.
      destruct K as [[T _]|[T _]].
      * apply (process_heating_continues _ _ _ _ _ _ _ S E1) in T.
        destruct T as [_ [Pt [_ [Pw|Pw]]]]; rewrite Pt; [auto|]. rewrite Pw. auto.
      * destruct (process_heating_finishes _ _ _ _ _ _ _ S E1 T)
          as [h1 [ha [A1 [Ea Ef]]]].
        apply heating_finish_values in Ef. cbv zeta in Ef.
        destruct Ef as [_ [_ [_ [_ [_ [_ [_ [Pt Pw]]]]]]]].
        assert (Ra : INT64_MIN <= _power_uwpt ha <= INT64_MAX).
        { unfold heating_accumulate in Ea. ok_inv. lia. }
        apply heating_accumulate_values in Ea.
        destruct Ea as [_ [_ [_ [_ [_ [_ [_ [_ [_ [_ [_ [_ [_ Vt]]]]]]]]]]]]].
        unfold measure_ticks_add in Vt. fields.
        apply advance_ticks_Ok in A1. destruct A1 as [A1 _].
        rewrite Pt, Pw, Vt, A1. fields. auto.
    + apply (process_stabilize_values _ _ _ _ _ _ _ S) in E1.
      destruct E1 as [_ [_ [Pt [Pw _]]]]. rewrite Pt, Pw. auto.
    + apply (process_idle_values _ _ _ _ _ _ _ S) in E1.
      destruct E1 as [_ [_ [Pt [Pw _]]]]. rewrite Pt, Pw. auto.
  - apply step_ui_values in E. destruct E as [_ [p ->]]. fields. auto.
Qed.

Lemma In_Start_dec (evs : list Event) : In Start evs \/ ~ In Start evs.
Proof.
  induction evs as [|ev evs [IH|IH]].
  - right. intros [].
  - left. right. exact IH.
  - destruct ev; [left; left; reflexivity|right|right];
      intros [K|K]; try discriminate K; exact (IH K).
Qed.

Lemma run_any_period (evs : list Event) :
  forall m m',
    INT64_MIN <= _power_uwpt (engine m) <= INT64_MAX ->
    run_any evs m = Some m' ->
    INT64_MIN <= _power_uwpt (engine m') <= INT64_MAX /\
    (In Start evs -> _period_ticks (engine m') = PERIOD_TICKS) /\
    (~ In Start evs -> _period_ticks (engine m') = _period_ticks (engine m)).
Proof.
  unfold run_any. induction evs as [|ev evs IH]; intros m m' I E; simpl in E.
  - inversion E; subst. split; [exact I|]. split; [intros []|reflexivity].
  - destruct (well_typed ev); [|discriminate E].
    destruct (step ev m) as [m1|f] eqn:S; [|discriminate E].
    destruct (step_period_power ev m m1 I S) as [I1 Pt].
    destruct (IH m1 m' I1 E) as [I' [Y N]]. split; [exact I'|].
    split.
    + intros [->|Hin]; [|exact (Y Hin)].
      destruct (In_Start_dec evs) as [Hin|Hout]; [exact (Y Hin)|].
      rewrite (N Hout). exact Pt.
    + intros Hout. rewrite N by (intros K; apply Hout; right; exact K).
      rewrite Pt. destruct ev; try reflexivity. exfalso. apply Hout. left. reflexivity.
Qed.

(** X15: [get_power_mw] divides by the period, which is 0 until the first
    [start()]: on an engine that was never started the getter divides by
    zero, whatever else was called; once [start()] has been called it
    returns the accumulated power divided by the period and by 1000. *)
Theorem get_power_mw_needs_a_start (evs : list Event) (m : Station.t P) :
  clock_ok ->
  run_any evs Station.initial = Some m ->
  (~ In Start evs -> get_power_mw (engine m) = Err DivisionByZero) /\
  (In Start evs ->
   get_power_mw (engine m)
   = Ok (to_int (_power_uwpt (engine m) ÷ PERIOD_TICKS ÷ 1000))).
Proof.
  intros C R.
  destruct (clock_constants_fit C) as [_ [Pp _]].
  assert (I0 : INT64_MIN <= _power_uwpt (engine (Station.initial (P := P))) <= INT64_MAX)
    by (cbn; unfold INT64_MIN, INT64_MAX; lia).
  destruct (run_any_period evs _ _ I0 R) as [I [Y N]].
  unfold get_power_mw, div_int64. split.
  - intros Hout. rewrite (N Hout). cbn. reflexivity.
  - intros Hin. rewrite (Y Hin).
    destruct (Z.eqb_spec PERIOD_TICKS 0) as [E|_]; [lia|].
    rewrite checked_fits; [reflexivity|].
    apply in_int64_true. apply quot_in_int64; assumption.
Qed.

(** ** Units of the requested power *)

Lemma requested_uwpt_exact (power_mw period_ticks : Z) :
  INT64_MIN <= power_mw * period_ticks * 1000 <= INT64_MAX ->
  requested_uwpt power_mw period_ticks = power_mw * period_ticks * 1000.
Proof.
  unfold requested_uwpt, to_int64, to_uint64, INT64_MIN, INT64_MAX. intros Hx.
  rewrite Z.mod_mod by lia. rewrite <- Z.mul_mod by lia.
  rewrite Z.mul_mod_idemp_l by lia.
  set (x := power_mw * period_ticks * 1000) in *. clearbody x.
  change (2 ^ 64) with 18446744073709551616.
  change (2 ^ 63) with 9223372036854775808 in *.
  destruct (Z.le_gt_cases 0 x) as [P0|N0].
  - rewrite Z.mod_small by lia.
    destruct (Z.ltb_spec x 9223372036854775808); lia.
  - assert (E : x mod 18446744073709551616 = x + 18446744073709551616).
    { symmetry. apply (Z.mod_unique_pos _ _ (-1)); lia. }
    rewrite E.
    destruct (Z.ltb_spec (x + 18446744073709551616) 9223372036854775808); lia.
Qed.

(** X16: the requested power that [start()] stores in microwatt ticks is
    the requested power in mW times the period in ticks times 1000 whenever
    that product fits an [int64_t]; the conversion through [uint64_t] does
    not change it, also for a negative request.  With a clock of at most
    2^31 ticks per second every request of at most [HEATING_POWER_MAX] in
    absolute value is in that case. *)
Theorem start_requested_power_units (h h' : Heating.t P) :
  clock_ok ->
  start h = Ok h' ->
  - HEATING_POWER_MAX <= get_requested_power_mw h' <= HEATING_POWER_MAX ->
  _requested_power_uwpt h' = get_requested_power_mw h' * PERIOD_TICKS * 1000 /\
  (0 <= get_requested_power_mw h' -> 0 <= _requested_power_uwpt h').
Proof.
  intros C E Hq. unfold get_requested_power_mw in *.
  destruct (clock_constants_fit C) as [[_ Pm] [Pp _]].
  apply start_values in E. destruct E as [_ [_ [_ [Q _]]]].
  assert (Hx : INT64_MIN <= _requested_power_mw h' * PERIOD_TICKS * 1000 <= INT64_MAX).
  { unfold HEATING_POWER_MAX, INT_MAX, INT64_MIN, INT64_MAX in *. nia. }
  rewrite Q, (requested_uwpt_exact _ _ Hx). split; [reflexivity|]. nia.
Qed.

(** ** Ticks and milliseconds *)

(** X17: converting milliseconds to ticks and back loses at most one
    millisecond and never gains one, and loses nothing when the clock
    frequency is a multiple of 1000 Hz. *)
Theorem ticks2ms_ms2ticks (ms : Z) :
  clock_ok ->
  0 <= ms <= INT_MAX ->
  exists r,
    _ticks2ms (_ms2ticks ms) = Ok r /\
    ms - 1 <= r <= ms /\
    (CORE_FREQ mod 1000 = 0 -> r = ms).
Proof.
  unfold clock_ok, INT_MAX. intros C Hms.
  unfold _ticks2ms, _ms2ticks, mul_int64, div_int64.
  set (F := CORE_FREQ) in *.
  rewrite Z.quot_div_nonneg by nia.
  set (t := ms * F / 1000).
  assert (T1 : t * 1000 <= ms * F).
  { unfold t. rewrite Z.mul_comm. apply Z.mul_div_le. lia. }
  assert (T2 : ms * F < t * 1000 + 1000).
  { unfold t. pose proof (Z.mul_succ_div_gt (ms * F) 1000). lia. }
  assert (T0 : 0 <= t) by (unfold t; apply Z.div_pos; nia).
  rewrite checked_fits
    by (apply in_int64_true; unfold INT64_MIN, INT64_MAX; nia).
  cbn [bind]. destruct (Z.eqb_spec F 0) as [E|_]; [lia|].
  rewrite Z.quot_div_nonneg by lia.
  assert (U : t * 1000 / F <= ms).
  { apply Z.div_le_upper_bound; [lia|]. lia. }
  assert (L : ms - 1 <= t * 1000 / F).
  { apply Z.div_le_lower_bound; [lia|]. nia. }
  assert (Q0 : 0 <= t * 1000 / F) by (apply Z.div_pos; lia).
  rewrite checked_fits
    by (apply in_int64_true; unfold INT64_MIN, INT64_MAX; lia).
  cbn [bind]. rewrite to_int_small by (unfold INT_MAX; lia).
  eexists. split; [reflexivity|]. split; [lia|].
  intros M. apply Z.div_exact in M; [|lia].
  assert (Et : t = ms * (F / 1000)).
  { unfold t. rewrite M at 1.
    replace (ms * (1000 * (F / 1000))) with (ms * (F / 1000) * 1000) by lia.
    apply Z.div_mul. lia. }
  rewrite Et. replace (ms * (F / 1000) * 1000) with (ms * F) by lia.
  apply Z.div_mul. lia.
Qed.

(** ** The sums of a whole phase *)

Lemma measure_ticks_from_zero (delta : Z) :
  0 <= delta < 2 ^ 31 -> to_int (to_uint (to_uint 0 + delta)) = delta.
Proof.
  intros Hd. unfold to_uint. rewrite Z.mod_0_l by lia. rewrite Z.add_0_l.
  rewrite Z.mod_small by lia. apply to_int_small. unfold INT_MAX. lia.
Qed.

Lemma total_cons (f : board.Adc -> Z) (ev : Event) (evs : list Event) :
  Phase.total f (ev :: evs) = Phase.reading f ev + Phase.total f evs.
Proof. reflexivity. Qed.

Lemma total_energy_cons (ev : Event) (evs : list Event) :
  Phase.total_energy (ev :: evs) = Phase.energy ev + Phase.total_energy evs.
Proof. reflexivity. Qed.

Lemma samples_cons (ev : Event) (evs : list Event) :
  Phase.samples (ev :: evs) = 1 + Phase.samples evs.
Proof. unfold Phase.samples. cbn [length]. lia. Qed.

(** One completed sample of the heat phase, taken with [_measure_ticks]
    at 0 as every sample leaves it. *)
Lemma process_heating_sample
  (delta : Z) (adc : board.Adc) (h h' : Heating.t P) (b b' : board.t) (r : bool) :
  _state h = State.HEATING ->
  board.measure_is_done adc = true ->
  0 <= delta < 2 ^ 31 ->
  _measure_ticks h = 0 ->
  process delta adc h b = Ok (h', b', r) ->
  exists ha,
    _measurements_count ha = _measurements_count h + 1 /\
    _cpu_voltage_mv_heat ha = _cpu_voltage_mv_heat h + board.get_cpu_voltage adc /\
    _supply_voltage_mv_heat ha = _supply_voltage_mv_heat h + board.get_supply_voltage adc /\
    _pen_current_ma_heat ha = _pen_current_ma_heat h + board.get_pen_current adc /\
    _power_uwpt ha = _power_uwpt h
      + board.get_supply_voltage adc * board.get_pen_current adc * delta /\
    _measure_ticks ha = 0 /\
    _energy_uwt ha = _energy_uwt h /\
    _pen_current_ma_idle ha = _pen_current_ma_idle h /\
    _supply_voltage_mv_idle ha = _supply_voltage_mv_idle h /\
    ((h' = ha /\ b' = board.adc_measure_heat_start b /\ _state h' = State.HEATING) \/
     heating_finish ha b = Ok (h', b')).
Proof.
  intros S D Hd M E. apply process_Ok in E. destruct E as [h1 [E1 [S1 K]]].
  rewrite S in K. destruct K as [K _]. unfold _state_heating in K.
  rewrite D in K. cbn [negb] in K.
  apply bind_Ok in K. destruct K as [ha [Ea K]].
  apply bind_Ok in K. destruct K as [stop [_ K]].
  exists ha.
  pose proof (heating_accumulate_values _ _ _ Ea) as V.
  destruct V as [V1 [V2 [V3 [V4 [V5 [V6 [V7 [V8 [V9 [V10 _]]]]]]]]]].
  unfold measure_ticks_add in V1, V2, V3, V4, V5, V7, V8, V9, V10.
  cbn [set set_measure_ticks _measurements_count _cpu_voltage_mv_heat
       _supply_voltage_mv_heat _pen_current_ma_heat _power_uwpt _measure_ticks
       _state _energy_uwt _pen_current_ma_idle _supply_voltage_mv_idle]
    in V1, V2, V3, V4, V5, V7, V8, V9, V10.
  apply advance_ticks_Ok in E1. destruct E1 as [E1 _].
  assert (F : _measurements_count h1 = _measurements_count h /\
              _cpu_voltage_mv_heat h1 = _cpu_voltage_mv_heat h /\
              _supply_voltage_mv_heat h1 = _supply_voltage_mv_heat h /\
              _pen_current_ma_heat h1 = _pen_current_ma_heat h /\
              _power_uwpt h1 = _power_uwpt h /\
              _measure_ticks h1 = _measure_ticks h /\
              _energy_uwt h1 = _energy_uwt h /\
              _pen_current_ma_idle h1 = _pen_current_ma_idle h /\
              _supply_voltage_mv_idle h1 = _supply_voltage_mv_idle h).
  { rewrite E1. fields. repeat split; reflexivity. }
  destruct F as [F1 [F2 [F3 [F4 [F5 [F6 [F7 [F8 F9]]]]]]]].
  rewrite F6, M, (measure_ticks_from_zero delta Hd) in V5.
  rewrite V1, V2, V3, V4, V5, V6, V8, V9, V10, F1, F2, F3, F4, F5, F7, F8, F9.
  repeat (split; [reflexivity|]).
  destruct stop; [right; exact K|left].
  inversion K; subst. repeat split; try reflexivity. congruence.
Qed.

Lemma heat_phase_head (evs : list Event) (m m' : Station.t P) :
  Phase.heat_phase evs m = Some m' ->
  state m' = State.HEATING -> state m = State.HEATING.
Proof.
  unfold Phase.heat_phase. destruct evs as [|ev evs]; simpl; intros E S'.
  - inversion E; subst. exact S'.
  - unfold Phase.heat_sample in E. destruct ev; try discriminate E.
    destruct (state m); try discriminate E. reflexivity.
Qed.

Lemma heat_phase_from (evs : list Event) :
  forall m m',
    _measure_ticks (engine m) = 0 ->
    state m = State.HEATING ->
    Phase.heat_phase evs m = Some m' ->
    exists ha,
      _measurements_count ha = _measurements_count (engine m) + Phase.samples evs /\
      _cpu_voltage_mv_heat ha
      = _cpu_voltage_mv_heat (engine m) + Phase.total board.get_cpu_voltage evs /\
      _supply_voltage_mv_heat ha
      = _supply_voltage_mv_heat (engine m) + Phase.total board.get_supply_voltage evs /\
      _pen_current_ma_heat ha
      = _pen_current_ma_heat (engine m) + Phase.total board.get_pen_current evs /\
      _power_uwpt ha = _power_uwpt (engine m) + Phase.total_energy evs /\
      _energy_uwt ha = _energy_uwt (engine m) /\
      _pen_current_ma_idle ha = _pen_current_ma_idle (engine m) /\
      _supply_voltage_mv_idle ha = _supply_voltage_mv_idle (engine m) /\
      ((engine m' = ha /\ state m' = State.HEATING /\ heater m' = heater m) \/
       (evs <> [] /\ exists b, heating_finish ha b = Ok (engine m', brd m'))).
Proof.
  unfold Phase.heat_phase.
  induction evs as [|ev evs IH]; intros m m' M S E; simpl in E.
  - inversion E; subst. exists (engine m'). unfold Phase.samples. cbn.
    rewrite !Z.add_0_r. repeat (split; [reflexivity|]). left. auto.
  - destruct (Phase.heat_sample ev m) eqn:A; [|discriminate E].
    destruct (step ev m) as [m1|f] eqn:St; [|discriminate E].
    unfold Phase.heat_sample in A. destruct ev as [|delta adc|c]; try discriminate A.
    unfold state in S. unfold state in A. rewrite S in A.
    apply andb_true_iff in A. destruct A as [A A3].
    apply andb_true_iff in A. destruct A as [A1 A2].
    apply Z.leb_le in A2. apply Z.ltb_lt in A3.
    cbn [step] in St. apply bind_Ok in St. destruct St as [[[h1 b1] r] [E1 St]].
    inversion St; subst m1; clear St.
    destruct (process_heating_sample _ _ _ _ _ _ _ S A1 (conj A2 A3) M E1)
      as [ha [V1 [V2 [V3 [V4 [V5 [V6 [V7 [V8 [V9 K]]]]]]]]]].
    rewrite total_energy_cons, !total_cons, samples_cons.
    cbn [Phase.reading Phase.energy].
    destruct K as [[-> [-> Sh]]|K].
    + destruct (IH (Station.mk ha (board.adc_measure_heat_start (brd m))) m')
        as [hb [W1 [W2 [W3 [W4 [W5 [W6 [W7 [W8 W]]]]]]]]]; [exact V6|exact Sh|exact E|].
      fields. exists hb.
      rewrite W1, W2, W3, W4, W5, W6, W7, W8, V1, V2, V3, V4, V5, V7, V8, V9.
      repeat (split; [lia|]).
      destruct W as [[W [Ws Wh]]|[_ W]].
      * left. split; [exact W|]. split; [exact Ws|]. rewrite Wh. reflexivity.
      * right. split; [discriminate|exact W].
    + destruct evs as [|ev2 evs].
      * simpl in E. inversion E; subst m'. exists ha. unfold Phase.samples. cbn.
        rewrite V1, V2, V3, V4, V5, V7, V8, V9.
        repeat (split; [lia|]). right. split; [discriminate|].
        exists (brd m). exact K.
      * exfalso. simpl in E.
        pose proof (heating_finish_Ok _ _ _ _ K) as [_ [Ss _]].
        unfold Phase.heat_sample, state in E. cbn [engine] in E. rewrite Ss in E.
        destruct ev2; discriminate E.
Qed.

(** X18: a heat phase as the START handler begins it, with the sums, the
    counter, the power and [_measure_ticks] at 0, in which every call of
    [process] finds a completed sample.  While the engine stays in HEATING
    the sums are the sums of the readings, the counter is the number of
    samples and the power is the sum of voltage times current times ticks
    over the samples.  When the phase has ended, the getters return the
    truncated means of the readings, the pen current less the idle current
    in absolute value, the power of the phase has been added to the energy
    and the heater is off. *)
Theorem heat_phase_sums (evs : list Event) (m m' : Station.t P) :
  state m = State.HEATING ->
  _measure_ticks (engine m) = 0 ->
  _measurements_count (engine m) = 0 ->
  _cpu_voltage_mv_heat (engine m) = 0 ->
  _supply_voltage_mv_heat (engine m) = 0 ->
  _pen_current_ma_heat (engine m) = 0 ->
  _power_uwpt (engine m) = 0 ->
  Phase.heat_phase evs m = Some m' ->
  (state m' = State.HEATING \/ state m' = State.STABILIZE) /\
  (state m' = State.HEATING ->
   _measurements_count (engine m') = Phase.samples evs /\
   get_cpu_voltage_mv_heat (engine m') = Phase.total board.get_cpu_voltage evs /\
   get_supply_voltage_mv_heat (engine m') = Phase.total board.get_supply_voltage evs /\
   get_pen_current_ma_heat (engine m') = Phase.total board.get_pen_current evs /\
   _power_uwpt (engine m') = Phase.total_energy evs /\
   _energy_uwt (engine m') = _energy_uwt (engine m) /\
   heater m' = heater m) /\
  (state m' = State.STABILIZE ->
   0 < Phase.samples evs /\
   get_cpu_voltage_mv_heat (engine m')
   = Phase.total board.get_cpu_voltage evs ÷ Phase.samples evs /\
   get_supply_voltage_mv_heat (engine m')
   = Phase.total board.get_supply_voltage evs ÷ Phase.samples evs /\
   get_pen_current_ma_heat (engine m')
   = Z.abs (Phase.total board.get_pen_current evs ÷ Phase.samples evs
            - get_pen_current_ma_idle (engine m)) /\
   _power_uwpt (engine m') = Phase.total_energy evs /\
   _energy_uwt (engine m') = _energy_uwt (engine m) + Phase.total_energy evs /\
   heater m' = false).
Proof.
  intros S M Z1 Z2 Z3 Z4 Z5 E.
  destruct (heat_phase_from evs m m' M S E)
    as [ha [W1 [W2 [W3 [W4 [W5 [W6 [W7 [W8 W]]]]]]]]].
  rewrite Z1 in W1. rewrite Z2 in W2. rewrite Z3 in W3. rewrite Z4 in W4.
  rewrite Z5 in W5. rewrite Z.add_0_l in W1, W2, W3, W4, W5.
  unfold get_cpu_voltage_mv_heat, get_supply_voltage_mv_heat,
    get_pen_current_ma_heat, get_pen_current_ma_idle.
  destruct W as [[We [Ws Wh]]|[Hne [b K]]].
  - split; [left; exact Ws|]. split.
    + intros _. rewrite We. repeat split; assumption.
    + intros S'. rewrite Ws in S'. discriminate S'.
  - pose proof (heating_finish_Ok _ _ _ _ K) as [Kb [Ks [_ [Ke _]]]].
    apply heating_finish_values in K. cbv zeta in K.
    destruct K as [K1 [K2 [K3 [_ [_ [_ [_ [_ K9]]]]]]]].
    unfold state. split; [right; exact Ks|]. split.
    + intros S'. rewrite Ks in S'. discriminate S'.
    + intros _. rewrite K1, K2, K3, K9, Ke, W1, W2, W3, W4, W5, W6, W7.
      split.
      { unfold Phase.samples. destruct evs; [contradiction|]. cbn [length]. lia. }
      repeat (split; [reflexivity|]).
      unfold heater. rewrite Kb. reflexivity.
Qed.

(** One completed sample of the idle phase. *)
Lemma process_idle_sample
  (delta : Z) (adc : board.Adc) (h h' : Heating.t P) (b b' : board.t) (r : bool) :
  _state h = State.IDLE ->
  board.measure_is_done adc = true ->
  process delta adc h b = Ok (h', b', r) ->
  exists hs,
    _measurements_count hs = _measurements_count h + 1 /\
    _cpu_voltage_mv_idle hs = _cpu_voltage_mv_idle h + board.get_cpu_voltage adc /\
    _supply_voltage_mv_idle hs = _supply_voltage_mv_idle h + board.get_supply_voltage adc /\
    _pen_current_ma_idle hs = _pen_current_ma_idle h + board.get_pen_current adc /\
    _cpu_temperature_mc hs = _cpu_temperature_mc h + board.get_cpu_temperature adc /\
    _pen_temperature_mc hs = _pen_temperature_mc h + board.get_pen_temperature adc /\
    ((h' = hs /\ _state h' = State.IDLE) \/ idle_finish adc hs = Ok h').
Proof.
  intros S D E. apply process_Ok in E. destruct E as [h1 [E1 [S1 K]]].
  rewrite S in K. destruct K as [K _]. unfold _state_idle in K.
  rewrite D in K. cbn [negb] in K.
  apply bind_Ok in K. destruct K as [hs [Ea K]].
  exists hs.
  pose proof (idle_accumulate_values _ _ _ Ea) as V.
  destruct V as [V1 [V2 [V3 [V4 [V5 [V6 [V7 _]]]]]]].
  apply advance_ticks_Ok in E1. destruct E1 as [E1 _].
  assert (F : _measurements_count h1 = _measurements_count h /\
              _cpu_voltage_mv_idle h1 = _cpu_voltage_mv_idle h /\
              _supply_voltage_mv_idle h1 = _supply_voltage_mv_idle h /\
              _pen_current_ma_idle h1 = _pen_current_ma_idle h /\
              _cpu_temperature_mc h1 = _cpu_temperature_mc h /\
              _pen_temperature_mc h1 = _pen_temperature_mc h).
  { rewrite E1. fields. repeat split; reflexivity. }
  destruct F as [F1 [F2 [F3 [F4 [F5 F6]]]]].
  rewrite V1, V2, V3, V4, V5, V6, F1, F2, F3, F4, F5, F6.
  repeat (split; [reflexivity|]).
  destruct (_remaining_ticks hs >? 0).
  - left. inversion K; subst. split; [reflexivity|]. congruence.
  - right. apply bind_Ok in K. destruct K as [hf [Ef K]].
    inversion K; subst. exact Ef.
Qed.

Lemma idle_phase_from (evs : list Event) :
  forall m m',
    state m = State.IDLE ->
    Phase.idle_phase evs m = Some m' ->
    exists hs,
      _measurements_count hs = _measurements_count (engine m) + Phase.samples evs /\
      _cpu_voltage_mv_idle hs
      = _cpu_voltage_mv_idle (engine m) + Phase.total board.get_cpu_voltage evs /\
      _supply_voltage_mv_idle hs
      = _supply_voltage_mv_idle (engine m) + Phase.total board.get_supply_voltage evs /\
      _pen_current_ma_idle hs
      = _pen_current_ma_idle (engine m) + Phase.total board.get_pen_current evs /\
      _cpu_temperature_mc hs
      = _cpu_temperature_mc (engine m) + Phase.total board.get_cpu_temperature evs /\
      _pen_temperature_mc hs
      = _pen_temperature_mc (engine m) + Phase.total board.get_pen_temperature evs /\
      ((engine m' = hs /\ state m' = State.IDLE) \/
       (evs <> [] /\ exists adc, idle_finish adc hs = Ok (engine m'))).
Proof.
  unfold Phase.idle_phase.
  induction evs as [|ev evs IH]; intros m m' S E; simpl in E.
  - inversion E; subst. exists (engine m'). unfold Phase.samples. cbn.
    rewrite !Z.add_0_r. repeat (split; [reflexivity|]). left. auto.
  - destruct (Phase.idle_sample ev m) eqn:A; [|discriminate E].
    destruct (step ev m) as [m1|f] eqn:St; [|discriminate E].
    unfold Phase.idle_sample in A. destruct ev as [|delta adc|c]; try discriminate A.
    unfold state in S. unfold state in A. rewrite S in A.
    cbn [step] in St. apply bind_Ok in St. destruct St as [[[h1 b1] r] [E1 St]].
    inversion St; subst m1; clear St.
    destruct (process_idle_sample _ _ _ _ _ _ _ S A E1)
      as [hs [V1 [V2 [V3 [V4 [V5 [V6 K]]]]]]].
    rewrite !total_cons, samples_cons. cbn [Phase.reading].
    destruct K as [[-> Sh]|K].
    + destruct (IH (Station.mk hs b1) m')
        as [hb [W1 [W2 [W3 [W4 [W5 [W6 W]]]]]]]; [exact Sh|exact E|].
      fields. exists hb.
      rewrite W1, W2, W3, W4, W5, W6, V1, V2, V3, V4, V5, V6.
      repeat (split; [lia|]).
      destruct W as [W|[_ W]]; [left; exact W|].
      right. split; [discriminate|exact W].
    + destruct evs as [|ev2 evs].
      * simpl in E. inversion E; subst m'. exists hs. unfold Phase.samples. cbn.
        rewrite V1, V2, V3, V4, V5, V6.
        repeat (split; [lia|]). right. split; [discriminate|].
        exists adc. exact K.
      * exfalso. simpl in E.
        pose proof (idle_finish_values _ _ _ K) as [Ss _].
        unfold Phase.idle_sample, state in E. cbn [engine] in E. rewrite Ss in E.
        destruct ev2; discriminate E.
Qed.

(** X19: an idle phase in which every call of [process] finds a completed
    sample.  While the engine stays in IDLE every idle sum has grown by
    the sum of its readings and the counter by the number of samples.
    When the phase has ended in STOP every idle getter returns what its
    field held when the phase began plus the sum of its readings, divided
    by the counter: a truncated mean of the readings only for a field and
    a counter that were 0 at the beginning. *)
Theorem idle_phase_sums (evs : list Event) (m m' : Station.t P) :
  state m = State.IDLE ->
  Phase.idle_phase evs m = Some m' ->
  let n := _measurements_count (engine m) + Phase.samples evs in
  let cv := get_cpu_voltage_mv_idle (engine m) + Phase.total board.get_cpu_voltage evs in
  let sv := get_supply_voltage_mv_idle (engine m)
            + Phase.total board.get_supply_voltage evs in
  let pc := get_pen_current_ma_idle (engine m) + Phase.total board.get_pen_current evs in
  let ct := get_cpu_temperature_mc (engine m)
            + Phase.total board.get_cpu_temperature evs in
  let pt := get_pen_temperature_mc (engine m)
            + Phase.total board.get_pen_temperature evs in
  (state m' = State.IDLE \/ state m' = State.STOP) /\
  (state m' = State.IDLE ->
   _measurements_count (engine m') = n /\
   get_cpu_voltage_mv_idle (engine m') = cv /\
   get_supply_voltage_mv_idle (engine m') = sv /\
   get_pen_current_ma_idle (engine m') = pc /\
   get_cpu_temperature_mc (engine m') = ct /\
   get_pen_temperature_mc (engine m') = pt) /\
  (state m' = State.STOP ->
   0 < Phase.samples evs /\
   get_cpu_voltage_mv_idle (engine m') = cv ÷ n /\
   get_supply_voltage_mv_idle (engine m') = sv ÷ n /\
   get_pen_current_ma_idle (engine m') = pc ÷ n /\
   get_cpu_temperature_mc (engine m') = ct ÷ n /\
   get_pen_temperature_mc (engine m') = pt ÷ n).
Proof.
  intros S E. cbv zeta.
  destruct (idle_phase_from evs m m' S E) as [hs [W1 [W2 [W3 [W4 [W5 [W6 W]]]]]]].
  unfold get_cpu_voltage_mv_idle, get_supply_voltage_mv_idle,
    get_pen_current_ma_idle, get_cpu_temperature_mc, get_pen_temperature_mc.
  destruct W as [[We Ws]|[Hne [adc K]]].
  - split; [left; exact Ws|]. split.
    + intros _. rewrite We. repeat split; assumption.
    + intros S'. rewrite Ws in S'. discriminate S'.
  - apply idle_finish_values in K. cbv zeta in K.
    destruct K as [Ks [K1 [K2 [K3 [K4 [K5 _]]]]]].
    unfold state. split; [right; exact Ks|]. split.
    + intros S'. rewrite Ks in S'. discriminate S'.
    + intros _. rewrite K1, K2, K3, K4, K5, W1, W2, W3, W4, W5, W6.
      split.
      { unfold Phase.samples. destruct evs; [contradiction|]. cbn [length]. lia. }
      repeat split; reflexivity.
Qed.

Lemma process_stabilize_to_idle
  (delta : Z) (adc : board.Adc) (h h' : Heating.t P) (b b' : board.t) (r : bool) :
  _state h = State.STABILIZE ->
  process delta adc h b = Ok (h', b', r) ->
  _state h' = State.IDLE ->
  _measurements_count h' = 0 /\
  _cpu_voltage_mv_idle h' = 0 /\ _supply_voltage_mv_idle h' = 0 /\
  _cpu_temperature_mc h' = 0 /\ _pen_temperature_mc h' = 0 /\
  _pen_current_ma_idle h' = _pen_current_ma_idle h /\
  b' = board.adc_measure_idle_start b.
Proof.
  intros S E S'. apply process_Ok in E. destruct E as [h1 [E1 [S1 K]]].
  rewrite S in K. destruct K as [K _].
  apply advance_ticks_Ok in E1. destruct E1 as [-> _].
  unfold _state_stabilize, measure_ticks_add in K. fields.
  destruct (_ <? _); inversion K; subst; fields.
  - fields. congruence.
  - repeat split; reflexivity.
Qed.

(** X20: the means of a period.  After a heat phase the STABILIZE handler
    zeroes the counter and every idle sum but the pen current, and the
    idle phase that follows ends with the truncated means of the readings;
    the idle pen current is the one held at the end of STABILIZE plus the
    readings, divided by the number of samples.  In a period without
    heating the START handler zeroes the counter and the idle pen current
    only: the idle phase ends with the truncated mean of the current
    readings, while the voltages and the temperatures are the means of the
    previous period plus the readings, divided by the number of samples. *)
Theorem idle_means_of_a_period
  (delta : Z) (adc : board.Adc) (evs : list Event) (m m1 m' : Station.t P) :
  step (Process delta adc) m = Ok m1 ->
  state m1 = State.IDLE ->
  Phase.idle_phase evs m1 = Some m' ->
  state m' = State.STOP ->
  let n := Phase.samples evs in
  let old (f : Heating.t P -> Z) := f (engine m) in
  let mean (f : board.Adc -> Z) (residue : Z) := (residue + Phase.total f evs) ÷ n in
  0 < n /\
  (state m = State.STABILIZE ->
   get_cpu_voltage_mv_idle (engine m') = mean board.get_cpu_voltage 0 /\
   get_supply_voltage_mv_idle (engine m') = mean board.get_supply_voltage 0 /\
   get_cpu_temperature_mc (engine m') = mean board.get_cpu_temperature 0 /\
   get_pen_temperature_mc (engine m') = mean board.get_pen_temperature 0 /\
   get_pen_current_ma_idle (engine m')
   = mean board.get_pen_current (old get_pen_current_ma_idle)) /\
  (state m = State.START ->
   get_pen_current_ma_idle (engine m') = mean board.get_pen_current 0 /\
   get_cpu_voltage_mv_idle (engine m')
   = mean board.get_cpu_voltage (old get_cpu_voltage_mv_idle) /\
   get_supply_voltage_mv_idle (engine m')
   = mean board.get_supply_voltage (old get_supply_voltage_mv_idle) /\
   get_cpu_temperature_mc (engine m')
   = mean board.get_cpu_temperature (old get_cpu_temperature_mc) /\
   get_pen_temperature_mc (engine m')
   = mean board.get_pen_temperature (old get_pen_temperature_mc)).
Proof.
  intros St S1 E S'. cbv zeta.
  cbn [step] in St. apply bind_Ok in St. destruct St as [[[h1 b1] r] [E1 St]].
  inversion St; subst m1; clear St. unfold state in S1. cbn [engine] in S1.
  destruct (idle_phase_from evs (Station.mk h1 b1) m' S1 E) as [hs [W1 [W2 [W3 [W4 [W5 [W6 W]]]]]]].
  cbn [engine] in W1, W2, W3, W4, W5, W6.
  unfold get_cpu_voltage_mv_idle, get_supply_voltage_mv_idle,
    get_pen_current_ma_idle, get_cpu_temperature_mc, get_pen_temperature_mc.
  destruct W as [[_ Ws]|[Hne [adc2 K]]]; [rewrite Ws in S'; discriminate S'|].
  apply idle_finish_values in K. cbv zeta in K.
  destruct K as [_ [K1 [K2 [K3 [K4 [K5 _]]]]]].
  rewrite K1, K2, K3, K4, K5, W1, W2, W3, W4, W5, W6.
  split.
  { unfold Phase.samples. destruct evs; [contradiction|]. cbn [length]. lia. }
  unfold state. split; intros S.
  - destruct (process_stabilize_to_idle _ _ _ _ _ _ _ S E1 S1)
      as [Z0 [Z1 [Z2 [Z3 [Z4 [Z5 _]]]]]].
    rewrite Z0, Z1, Z2, Z3, Z4, Z5, !Z.add_0_l. repeat split; reflexivity.
  - destruct (process_start_Ok _ _ _ _ _ _ _ S E1)
      as [_ [Z0 [_ [_ [_ [Z5 [_ [Z1 [Z2 [Z3 [Z4 _]]]]]]]]]]].
    rewrite Z0, Z1, Z2, Z3, Z4, Z5, !Z.add_0_l. repeat split; reflexivity.
Qed.

(** ** The pen sensor status *)

Lemma step_sensor_not_shorted (ev : Event) (m m' : Station.t P) :
  _pen_sensor_status (engine m) <> PenSensorStatus.SHORTED ->
  step ev m = Ok m' ->
  _pen_sensor_status (engine m') <> PenSensorStatus.SHORTED.
Proof.
  intros I E. destruct ev as [|delta adc|c].
  - cbn [step] in E. apply bind_Ok in E. destruct E as [h' [E1 E]].
    inversion E; subst. fields. apply start_values in E1.
    destruct E1 as [_ [_ [_ [_ [_ [Ps _]]]]]]. rewrite Ps. exact I.
  - cbn [step] in E. apply bind_Ok in E. destruct E as [[[h' b'] r] [E1 E]].
    inversion E; subst. fields.
    destruct (_state (engine m)) eqn:S.
    + apply (process_stop_values _ _ _ _ _ _ _ S) in E1.
      destruct E1 as [_ [_ [_ [_ [Ps _]]]]]. rewrite Ps. exact I.
    + apply (process_start_Ok _ _ _ _ _ _ _ S) in E1.
      destruct E1 as [_ [_ [_ [_ [_ [_ [_ [_ [_ [_ [_ [_ [_ [_ K]]]]]]]]]]]]]].
      destruct K as [K|K].
      * destruct K as [_ [_ [_ [_ [_ [_ [_ [Ps _]]]]]]]]. rewrite Ps. exact I.
      * destruct K as [_ [_ [_ [_ [_ [_ [Ps _]]]]]]]. rewrite Ps. discriminate.
    + pose proof (process_effect _ _ _ _ _ _ _ E1) as K. rewrite S in K.
      destruct K as [[T _]|[T _]].
      * apply (process_heating_continues _ _ _ _ _ _ _ S E1) in T.
        destruct T as [_ [_ [Ps _]]]. rewrite Ps. exact I.
      * destruct (process_heating_finishes _ _ _ _ _ _ _ S E1 T)
          as [h1 [ha [A1 [Ea Ef]]]].
        apply heating_finish_values in Ef. cbv zeta in Ef.
        destruct Ef as [_ [_ [_ [_ [_ [_ [Ps _]]]]]]].
        apply heating_accumulate_values in Ea.
        destruct Ea as [_ [_ [_ [_ [_ [_ [_ [_ [_ [_ [_ [_ [Pa _]]]]]]]]]]]]].
        unfold measure_ticks_add in Pa. fields.
        apply advance_ticks_Ok in A1. destruct A1 as [A1 _].
        rewrite Ps, Pa, A1. fields. exact I.
    + apply (process_stabilize_values _ _ _ _ _ _ _ S) in E1.
      destruct E1 as [_ [_ [_ [_ [Ps _]]]]]. rewrite Ps. exact I.
    + apply (process_idle_values _ _ _ _ _ _ _ S) in E1.
      destruct E1 as [_ [_ [_ [_ [_ [Ps|Ps]]]]]]; rewrite Ps; [exact I|].
      destruct (board.is_pen_sensor_ok adc); discriminate.
  - apply step_ui_values in E. destruct E as [_ [p ->]]. fields. exact I.
Qed.

(** X21: the pen sensor status is never SHORTED, whatever is called since
    power-up and whatever the ADC reports. *)
Theorem pen_sensor_never_shorted (evs : list Event) (m : Station.t P) :
  run_any evs Station.initial = Some m ->
  getPenSensorStatus (engine m) <> PenSensorStatus.SHORTED.
Proof.
  intros R. unfold getPenSensorStatus.
  apply (run_any_invariant
           (fun m => _pen_sensor_status (engine m) <> PenSensorStatus.SHORTED))
    with (evs := evs) (m := Station.initial); [| |exact R].
  - intros ev m1 m2 I E. exact (step_sensor_not_shorted ev m1 m2 I E).
  - cbn. discriminate.
Qed.

(** ** The STABILIZE state *)

Lemma measure_ticks_sum (ticks delta : Z) :
  0 <= ticks -> 0 <= delta -> ticks + delta < 2 ^ 31 ->
  to_int (to_uint (to_uint ticks + delta)) = ticks + delta.
Proof.
  intros Ht Hd Hs. unfold to_uint. rewrite (Z.mod_small ticks) by lia.
  rewrite Z.mod_small by lia. apply to_int_small. unfold INT_MAX. lia.
Qed.

(** X22: in STABILIZE a call of [process] adds its ticks to
    [_measure_ticks] and stays, without a call to the board, until 2 ms of
    ticks have been counted; the call that reaches them starts an idle
    measurement, zeroes the counters and the idle sums of the voltages and
    the temperatures, keeps the idle pen current and the heater as they
    are, and goes to IDLE. *)
Theorem stabilize_dwell
  (delta : Z) (adc : board.Adc) (h h' : Heating.t P) (b b' : board.t) (r : bool) :
  _state h = State.STABILIZE ->
  0 <= _measure_ticks h -> 0 <= delta -> _measure_ticks h + delta < 2 ^ 31 ->
  process delta adc h b = Ok (h', b', r) ->
  r = true /\ board.heater b' = board.heater b /\
  get_pen_current_ma_idle h' = get_pen_current_ma_idle h /\
  (_measure_ticks h + delta < _ms2ticks STABILIZE_TIME_MS ->
   _state h' = State.STABILIZE /\ b' = b /\
   _measure_ticks h' = _measure_ticks h + delta) /\
  (_ms2ticks STABILIZE_TIME_MS <= _measure_ticks h + delta ->
   _state h' = State.IDLE /\ b' = board.adc_measure_idle_start b /\
   _measure_ticks h' = 0 /\ _measurements_count h' = 0 /\
   get_cpu_voltage_mv_idle h' = 0 /\ get_supply_voltage_mv_idle h' = 0 /\
   get_cpu_temperature_mc h' = 0 /\ get_pen_temperature_mc h' = 0).
Proof.
  intros S Ht Hd Hs E. apply process_Ok in E. destruct E as [h1 [E1 [S1 K]]].
  rewrite S in K. destruct K as [K ->].
  apply advance_ticks_Ok in E1. destruct E1 as [-> _].
  unfold _state_stabilize, measure_ticks_add in K. fields.
  rewrite (measure_ticks_sum _ _ Ht Hd Hs) in K.
  unfold get_pen_current_ma_idle, get_cpu_voltage_mv_idle,
    get_supply_voltage_mv_idle, get_cpu_temperature_mc, get_pen_temperature_mc.
  destruct (Z.ltb_spec (_measure_ticks h + delta) (_ms2ticks STABILIZE_TIME_MS));
    inversion K; subst; fields.
  - repeat split; auto; lia.
  - repeat split; auto; lia.
Qed.

End MoreEngineFacts.

(* ================================================================== *)
(** * The runs of the simulated clock, continued *)

Lemma process_follows_cycle_witness :
  snd (Sim.outcome Sim.MS Sim.idle Sim.stopped0) = false.
Proof.
  assert (E : Heating.process Sim.MS Sim.idle (Station.engine Sim.stopped0)
                (Station.brd Sim.stopped0)
              = Ok (fst (fst (Sim.outcome Sim.MS Sim.idle Sim.stopped0)), snd (fst (Sim.outcome Sim.MS Sim.idle Sim.stopped0)), snd (Sim.outcome Sim.MS Sim.idle Sim.stopped0)))
    by (vm_compute; reflexivity).
  apply (proj2 (proj1 (process_follows_cycle Sim.MS Sim.idle (Station.engine Sim.stopped0)
              (fst (fst (Sim.outcome Sim.MS Sim.idle Sim.stopped0))) (Station.brd Sim.stopped0)
              (snd (fst (Sim.outcome Sim.MS Sim.idle Sim.stopped0))) (snd (Sim.outcome Sim.MS Sim.idle Sim.stopped0)) E))).
  reflexivity.
Defined.

(** The first period: nothing is requested and the START handler goes to
    IDLE. *)
Lemma start_handler_branches_witness :
  Heating._state (fst (fst (Sim.outcome Sim.MS Sim.idle Scene.first_start)))
  = Heating.State.IDLE.
Proof.
  assert (E : Heating.process Sim.MS Sim.idle (Station.engine Scene.first_start)
                (Station.brd Scene.first_start)
              = Ok (fst (fst (Sim.outcome Sim.MS Sim.idle Scene.first_start)), snd (fst (Sim.outcome Sim.MS Sim.idle Scene.first_start)), snd (Sim.outcome Sim.MS Sim.idle Scene.first_start)))
    by (vm_compute; reflexivity).
  destruct (start_handler_branches Sim.MS Sim.idle (Station.engine Scene.first_start)
              (fst (fst (Sim.outcome Sim.MS Sim.idle Scene.first_start))) (Station.brd Scene.first_start)
              (snd (fst (Sim.outcome Sim.MS Sim.idle Scene.first_start))) (snd (Sim.outcome Sim.MS Sim.idle Scene.first_start)) eq_refl E) as [_ [K _]].
  apply K. vm_compute. reflexivity.
Defined.

(** The second period: 40 W are requested, the short average goes from 0
    to 13333 mW. *)
Lemma requested_power_averages_witness :
  Heating._average_requested_power_short
    (fst (fst (Sim.outcome Sim.MS Sim.idle Scene.requesting))) = 13333.
Proof.
  assert (E : Heating.process Sim.MS Sim.idle (Station.engine Scene.requesting)
                (Station.brd Scene.requesting)
              = Ok (fst (fst (Sim.outcome Sim.MS Sim.idle Scene.requesting)), snd (fst (Sim.outcome Sim.MS Sim.idle Scene.requesting)), snd (Sim.outcome Sim.MS Sim.idle Scene.requesting)))
    by (vm_compute; reflexivity).
  assert (Q : 100 <= Heating.get_requested_power_mw (Station.engine Scene.requesting))
    by (vm_compute; discriminate).
  destruct (requested_power_averages Sim.MS Sim.idle (Station.engine Scene.requesting)
              (fst (fst (Sim.outcome Sim.MS Sim.idle Scene.requesting))) (Station.brd Scene.requesting)
              (snd (fst (Sim.outcome Sim.MS Sim.idle Scene.requesting))) (snd (Sim.outcome Sim.MS Sim.idle Scene.requesting)) eq_refl Q E) as [K _].
  rewrite K. vm_compute. reflexivity.
Defined.

Lemma waiting_changes_nothing_witness :
  snd (fst (Sim.outcome Sim.MS Scene.pending Sim.heating0)) = Station.brd Sim.heating0.
Proof.
  assert (E : Heating.process Sim.MS Scene.pending (Station.engine Sim.heating0)
                (Station.brd Sim.heating0)
              = Ok (fst (fst (Sim.outcome Sim.MS Scene.pending Sim.heating0)), snd (fst (Sim.outcome Sim.MS Scene.pending Sim.heating0)), snd (Sim.outcome Sim.MS Scene.pending Sim.heating0)))
    by (vm_compute; reflexivity).
  apply (proj1 (waiting_changes_nothing Sim.MS Scene.pending (Station.engine Sim.heating0)
              (fst (fst (Sim.outcome Sim.MS Scene.pending Sim.heating0))) (Station.brd Sim.heating0)
              (snd (fst (Sim.outcome Sim.MS Scene.pending Sim.heating0))) (snd (Sim.outcome Sim.MS Scene.pending Sim.heating0)) (or_introl eq_refl) eq_refl E)).
Defined.

(** Scenario S1: the heat phase ends with a pen current that is not
    negative. *)
Lemma heat_phase_diagnosis_witness :
  0 <= Heating.get_pen_current_ma_heat
         (fst (fst (Sim.outcome Sim.MS Sim.nominal Sim.late0))).
Proof.
  assert (E : Heating.process Sim.MS Sim.nominal (Station.engine Sim.late0)
                (Station.brd Sim.late0)
              = Ok (fst (fst (Sim.outcome Sim.MS Sim.nominal Sim.late0)), snd (fst (Sim.outcome Sim.MS Sim.nominal Sim.late0)), snd (Sim.outcome Sim.MS Sim.nominal Sim.late0)))
    by (vm_compute; reflexivity).
  assert (S' : Heating._state (fst (fst (Sim.outcome Sim.MS Sim.nominal Sim.late0)))
               = Heating.State.STABILIZE)
    by (vm_compute; reflexivity).
  destruct (heat_phase_diagnosis Sim.MS Sim.nominal (Station.engine Sim.late0)
              (fst (fst (Sim.outcome Sim.MS Sim.nominal Sim.late0))) (Station.brd Sim.late0)
              (snd (fst (Sim.outcome Sim.MS Sim.nominal Sim.late0))) (snd (Sim.outcome Sim.MS Sim.nominal Sim.late0)) eq_refl E S') as [ha [_ K]].
  cbv zeta in K. destruct K as [_ [_ [_ [K _]]]]. exact K.
Defined.

Lemma idle_phase_ends_witness :
  Heating._state (fst (fst (Sim.outcome Sim.MS Sim.idle Scene.idling)))
  = Heating.State.IDLE.
Proof.
  assert (E : Heating.process Sim.MS Sim.idle (Station.engine Scene.idling)
                (Station.brd Scene.idling)
              = Ok (fst (fst (Sim.outcome Sim.MS Sim.idle Scene.idling)), snd (fst (Sim.outcome Sim.MS Sim.idle Scene.idling)), snd (Sim.outcome Sim.MS Sim.idle Scene.idling)))
    by (vm_compute; reflexivity).
  destruct (idle_phase_ends Sim.MS Sim.idle (Station.engine Scene.idling)
              (fst (fst (Sim.outcome Sim.MS Sim.idle Scene.idling))) (Station.brd Scene.idling)
              (snd (fst (Sim.outcome Sim.MS Sim.idle Scene.idling))) (snd (Sim.outcome Sim.MS Sim.idle Scene.idling)) eq_refl eq_refl E)
    as [hs [_ [_ [Hr [Hiff _]]]]].
  apply Hiff. rewrite Hr. vm_compute. reflexivity.
Defined.

Lemma idle_current_is_zero_while_heating_witness :
  Heating.get_pen_current_ma_idle (Station.engine Sim.heating0) = 0.
Proof.
  assert (R : Station.run_any Sim.warm_up Station.initial = Some Sim.heating0)
    by (vm_compute; reflexivity).
  apply (proj1 (idle_current_is_zero_while_heating Sim.warm_up Sim.heating0 R eq_refl)).
Defined.

Lemma no_heating_without_sensor_witness :
  Station.heater Scene.no_sensor = false.
Proof.
  assert (R : Phase.run_sensor_failing Scene.without_sensor Station.initial
              = Some Scene.no_sensor)
    by (vm_compute; reflexivity).
  apply (proj1 (no_heating_without_sensor Scene.without_sensor Scene.no_sensor R)).
Defined.

(** After 101 ms at 12 V and 5 A: 40400 mW. *)
Lemma get_power_mw_needs_a_start_witness :
  Heating.get_power_mw (Station.engine Sim.heated) = Ok 40400.
Proof.
  assert (R : Station.run_any (Sim.warm_up ++ Sim.each_ms Sim.strong 101)
                Station.initial = Some Sim.heated)
    by (vm_compute; reflexivity).
  assert (I : In Station.Start (Sim.warm_up ++ Sim.each_ms Sim.strong 101))
    by (left; reflexivity).
  rewrite (proj2 (get_power_mw_needs_a_start
                    (Sim.warm_up ++ Sim.each_ms Sim.strong 101) Sim.heated
                    sim_clock_ok R) I).
  vm_compute. reflexivity.
Defined.

(** 40 W over a period of 150000 ticks. *)
Lemma start_requested_power_units_witness :
  Heating._requested_power_uwpt (Station.engine Scene.requesting) = 6000000000000.
Proof.
  assert (E : Heating.start (Station.engine Scene.selected)
              = Ok (Station.engine Scene.requesting))
    by (vm_compute; reflexivity).
  assert (Q : - Heating.HEATING_POWER_MAX
              <= Heating.get_requested_power_mw (Station.engine Scene.requesting)
              <= Heating.HEATING_POWER_MAX)
    by (vm_compute; split; discriminate).
  rewrite (proj1 (start_requested_power_units (Station.engine Scene.selected)
                    (Station.engine Scene.requesting) sim_clock_ok E Q)).
  vm_compute. reflexivity.
Defined.

Lemma ticks2ms_ms2ticks_witness :
  Heating._ticks2ms (Heating._ms2ticks 150) = Ok 150.
Proof.
  assert (Q : 0 <= 150 <= INT_MAX) by (vm_compute; split; discriminate).
  destruct (ticks2ms_ms2ticks 150 sim_clock_ok Q) as [r [E [_ X]]].
  rewrite E. f_equal. apply X. reflexivity.
Defined.

(** 139 samples at 5 V and 3 A. *)
Lemma heat_phase_sums_witness :
  Heating.get_supply_voltage_mv_heat (Station.engine Scene.heated_nominal) = 5000 /\
  Heating._power_uwpt (Station.engine Scene.heated_nominal) = 2085000000000.
Proof.
  assert (E : Phase.heat_phase Scene.heat_nominal Sim.heating0
              = Some Scene.heated_nominal)
    by (vm_compute; reflexivity).
  destruct (heat_phase_sums Scene.heat_nominal Sim.heating0 Scene.heated_nominal
              eq_refl eq_refl eq_refl eq_refl eq_refl eq_refl
              eq_refl E) as [_ [_ K]].
  destruct (K eq_refl) as [_ [_ [K2 [_ [K4 _]]]]].
  rewrite K2, K4. split; vm_compute; reflexivity.
Defined.

Lemma idle_phase_sums_witness :
  Heating.get_supply_voltage_mv_idle (Station.engine Scene.rested) = 12000.
Proof.
  assert (E : Phase.idle_phase Scene.idle_rest Scene.idling = Some Scene.rested)
    by (vm_compute; reflexivity).
  pose proof (idle_phase_sums Scene.idle_rest Scene.idling Scene.rested
                eq_refl E) as K.
  cbv zeta in K. destruct K as [_ [_ K]].
  destruct (K eq_refl) as [_ [_ [K2 _]]].
  rewrite K2. vm_compute. reflexivity.
Defined.

(** The first period, without heating. *)
Lemma idle_means_of_a_period_witness :
  Heating.get_pen_current_ma_idle (Station.engine Sim.stopped0) = 0.
Proof.
  assert (St : Station.step (Station.Process Sim.MS Sim.idle) Scene.first_start
               = Ok Scene.first_idle)
    by (vm_compute; reflexivity).
  assert (E : Phase.idle_phase (Sim.each_ms Sim.idle 149) Scene.first_idle
              = Some Sim.stopped0)
    by (vm_compute; reflexivity).
  pose proof (idle_means_of_a_period Sim.MS Sim.idle (Sim.each_ms Sim.idle 149)
                Scene.first_start Scene.first_idle Sim.stopped0
                St eq_refl E eq_refl) as K.
  cbv zeta in K. destruct K as [_ [_ K]].
  destruct (K eq_refl) as [K1 _].
  rewrite K1. vm_compute. reflexivity.
Defined.

Lemma pen_sensor_never_shorted_witness :
  Heating.getPenSensorStatus (Station.engine Sim.heating0)
  <> Heating.PenSensorStatus.SHORTED.
Proof.
  assert (R : Station.run_any Sim.warm_up Station.initial = Some Sim.heating0)
    by (vm_compute; reflexivity).
  apply (pen_sensor_never_shorted Sim.warm_up Sim.heating0 R).
Defined.

(** One millisecond after the heat phase: still in STABILIZE. *)
Lemma stabilize_dwell_witness :
  Heating._state (fst (fst (Sim.outcome Sim.MS Sim.idle Sim.heated)))
  = Heating.State.STABILIZE.
Proof.
  assert (E : Heating.process Sim.MS Sim.idle (Station.engine Sim.heated)
                (Station.brd Sim.heated)
              = Ok (fst (fst (Sim.outcome Sim.MS Sim.idle Sim.heated)), snd (fst (Sim.outcome Sim.MS Sim.idle Sim.heated)), snd (Sim.outcome Sim.MS Sim.idle Sim.heated)))
    by (vm_compute; reflexivity).
  assert (Ht : 0 <= Heating._measure_ticks (Station.engine Sim.heated))
    by (vm_compute; discriminate).
  assert (Hd : 0 <= Sim.MS) by (vm_compute; discriminate).
  assert (Hs : Heating._measure_ticks (Station.engine Sim.heated) + Sim.MS < 2 ^ 31)
    by (vm_compute; reflexivity).
  destruct (stabilize_dwell Sim.MS Sim.idle (Station.engine Sim.heated)
              (fst (fst (Sim.outcome Sim.MS Sim.idle Sim.heated))) (Station.brd Sim.heated)
              (snd (fst (Sim.outcome Sim.MS Sim.idle Sim.heated))) (snd (Sim.outcome Sim.MS Sim.idle Sim.heated)) eq_refl Ht Hd Hs E) as [_ [_ [_ [K _]]]].
  apply K. vm_compute. reflexivity.
Defined.
